(** * gestionbudgetback: the ledger / balance / budget / goal consistency engine

    A shallow embedding of the Mongoose models [Account], [Transaction],
    [Budget] and [Goal] and of the transaction routes, followed by the
    properties of the specification that concern them.

    Modelling conventions.
    - A JavaScript [Number] holding an amount of money is read in two ways.
      The first part of the development reads it as an exact rational ([Q]),
      with [Qeq] ([==]) as the equality of amounts; it carries the
      properties that compare amounts, relate one operation of the code to
      another, or say that nothing was written. The second part (modules
      [Double] and [B64]) reads it as what it is, an IEEE-754 binary64
      value whose sums, differences, products and quotients are rounded;
      it carries the properties that say which value an arithmetic
      operation of the code leaves in the database.
    - A [Date] is its time value, the number of milliseconds since the epoch
      ([Z]); calendar operations are done in UTC. Every [new Date()] of one
      method call reads the same instant, which the caller passes as [now].
    - An [ObjectId] is a natural number; a collection is a finite map from
      ids to documents. A document carries the fields the operations below
      read or write; the validators of its other fields (names, labels,
      colours, enumerations) are taken to pass.
    - [doc.save()] first runs the validators declared in the schema (Mongoose
      registers validation as the first pre-save hook), then the
      [schema.pre("save")] hooks in the order of the file, then writes the
      document, then runs the [schema.post("save")] hooks.
    - [Model.findByIdAndUpdate] and [Model.findOneAndDelete] go straight to
      the collection: neither validators nor save hooks run.
    - A rejected promise does not undo the writes made before it: the
      computations below carry the database through failures. *)

From Stdlib Require Import ZArith QArith Qround Qabs Qpower Lqa Lia List Bool String.
From Stdlib Require Import SpecFloat.
From stdpp Require Import base option list gmap.

Local Open Scope Q_scope.

(** ** JavaScript numbers and dates *)

Module JS.

Definition Number := Q.
Definition Date := Z.

(** [x < y] and [x >= y] on numbers, as booleans. *)
Definition ltb (x y : Number) : bool := negb (Qle_bool y x).
Definition geb (x y : Number) : bool := Qle_bool y x.

(** [Math.round]: the nearest integer, a tie going towards +infinity. *)
Definition Math_round (x : Number) : Number := inject_Z (Qfloor (x + (1 # 2))).

(** [Math.abs]. *)
Definition Math_abs (x : Number) : Number := Qabs x.

(** [x || 0] on an optional number: [undefined] and [0] both give [0]. *)
Definition or_zero (x : option Number) : Number :=
  match x with
  | Some v => if Qeq_bool v 0 then 0 else v
  | None => 0
  end.

End JS.

Export JS.

Definition ObjectId := nat.

(** What a rejected promise carries. *)
Inductive Error : Type :=
| ValidationError (message : string)   (* a schema validator failed *)
| HookError (message : string).        (* [next(new Error(..))] or [throw new Error(..)] *)

(** ** models/Account.js: the schema *)

Inductive AccountType := checking | savings | credit | investment.

Global Instance AccountType_eq_dec : EqDecision AccountType.
Proof. solve_decision. Defined.

Module Account.

Record t := mk {
  userId : ObjectId;
  type : AccountType;
  balance : Number;
  isActive : bool
}.

Definition set_balance (a : t) (b : Number) : t :=
  {| userId := userId a; type := type a; balance := b; isActive := isActive a |}.

(** balance: [min: [0, "Le solde ne peut pas etre negatif"]]. *)
Definition validate (a : t) : option Error :=
  if ltb (balance a) 0
  then Some (ValidationError "Le solde ne peut pas etre negatif")
  else None.

(** [accountSchema.pre("save")]. *)
Definition pre_save (a : t) : t :=
  if bool_decide (type a = credit) && ltb (balance a) 0
  then set_balance a (Math_abs (balance a))
  else a.

End Account.

(** ** models/Transaction.js: the schema *)

Inductive TransactionType := income | expense | transfer.
Inductive TransactionStatus := pending | completed | cancelled.

Global Instance TransactionType_eq_dec : EqDecision TransactionType.
Proof. solve_decision. Defined.
Global Instance TransactionStatus_eq_dec : EqDecision TransactionStatus.
Proof. solve_decision. Defined.

Module Transaction.

Record t := mk {
  userId : ObjectId;
  accountId : ObjectId;
  categoryId : ObjectId;
  type : TransactionType;
  amount : Number;
  date : Date;
  transferAccountId : option ObjectId;
  status : TransactionStatus
}.

(** amount: [min: [0.01, "Le montant doit etre superieur a 0"]]. *)
Definition validate (d : t) : option Error :=
  if ltb (amount d) 0.01
  then Some (ValidationError "Le montant doit etre superieur a 0")
  else None.

(** [transactionSchema.pre("save")]: the two checks on transfers. *)
Definition pre_save (d : t) : option Error :=
  match type d, transferAccountId d with
  | transfer, None =>
      Some (HookError "Le compte de destination est requis pour un transfert")
  | transfer, Some dst =>
      if bool_decide (dst = accountId d)
      then Some (HookError
             "Le compte source et destination ne peuvent pas etre identiques")
      else None
  | _, _ => None
  end.

End Transaction.

(** ** models/Budget.js: the schema and its virtuals *)

Module Budget.

Record t := mk {
  userId : ObjectId;
  categoryId : ObjectId;
  amount : Number;
  spent : Number;
  startDate : Date;
  endDate : Date;
  alertThreshold : Number;
  isActive : bool
}.

Definition set_spent (b : t) (s : Number) : t :=
  {| userId := userId b; categoryId := categoryId b; amount := amount b;
     spent := s; startDate := startDate b; endDate := endDate b;
     alertThreshold := alertThreshold b; isActive := isActive b |}.

(** [budgetSchema.virtual("percentageUsed")]. *)
Definition percentageUsed (b : t) : Number :=
  if ltb 0 (amount b) then Math_round ((spent b / amount b) * 100) else 0.

(** amount: [min 0.01]; spent: [min 0]; alertThreshold: [min 0], [max 100]. *)
Definition validate (b : t) : option Error :=
  if ltb (amount b) 0.01
  then Some (ValidationError "Le montant doit etre superieur a 0")
  else if ltb (spent b) 0
  then Some (ValidationError "Le montant depense ne peut pas etre negatif")
  else if ltb (alertThreshold b) 0
  then Some (ValidationError "Le seuil d'alerte doit etre positif")
  else if ltb 100 (alertThreshold b)
  then Some (ValidationError "Le seuil d'alerte ne peut pas depasser 100%")
  else None.

(** [budgetSchema.pre("save")]: the dates must be ordered. *)
Definition pre_save (b : t) : option Error :=
  if (endDate b <=? startDate b)%Z
  then Some (HookError "La date de fin doit etre posterieure a la date de debut")
  else None.

End Budget.

(** ** Calendar arithmetic of [Date] (ECMAScript, time zone UTC) *)

Module Calendar.

Local Open Scope Z_scope.

Definition msPerDay : Z := 86400000.

Definition Day (t : Date) : Z := t / msPerDay.
Definition TimeWithinDay (t : Date) : Z := t mod msPerDay.

Definition DayFromYear (y : Z) : Z :=
  365 * (y - 1970) + (y - 1969) / 4 - (y - 1901) / 100 + (y - 1601) / 400.

Definition DaysInYear (y : Z) : Z := DayFromYear (y + 1) - DayFromYear y.

(** The largest [y] such that [DayFromYear y <= Day t]: an estimate from
    the mean length of a year, corrected by one either way. *)
Definition YearFromTime (t : Date) : Z :=
  let d := Day t in
  let y := 1970 + (d * 400) / 146097 in
  if d <? DayFromYear y then y - 1
  else if DayFromYear (y + 1) <=? d then y + 1
  else y.

Definition DayWithinYear (t : Date) : Z := Day t - DayFromYear (YearFromTime t).

(** The day of the year on which month [m] (0 = January) starts. *)
Definition monthStart (leap : Z) (m : Z) : Z :=
  match m with
  | 0 => 0
  | 1 => 31
  | 2 => 59 + leap
  | 3 => 90 + leap
  | 4 => 120 + leap
  | 5 => 151 + leap
  | 6 => 181 + leap
  | 7 => 212 + leap
  | 8 => 243 + leap
  | 9 => 273 + leap
  | 10 => 304 + leap
  | _ => 334 + leap
  end.

Definition leapDays (y : Z) : Z := DaysInYear y - 365.

Definition MonthFromTime (t : Date) : Z :=
  let d := DayWithinYear t in
  let leap := leapDays (YearFromTime t) in
  if d <? 31 then 0
  else if d <? 59 + leap then 1
  else if d <? 90 + leap then 2
  else if d <? 120 + leap then 3
  else if d <? 151 + leap then 4
  else if d <? 181 + leap then 5
  else if d <? 212 + leap then 6
  else if d <? 243 + leap then 7
  else if d <? 273 + leap then 8
  else if d <? 304 + leap then 9
  else if d <? 334 + leap then 10
  else 11.

Definition DateFromTime (t : Date) : Z :=
  DayWithinYear t - monthStart (leapDays (YearFromTime t)) (MonthFromTime t) + 1.

(** [MakeDay]: a month outside 0..11 carries into the year, a day outside
    the month runs on into the neighbouring months. *)
Definition MakeDay (year month date : Z) : Z :=
  let ym := year + month / 12 in
  let mn := month mod 12 in
  DayFromYear ym + monthStart (leapDays ym) mn + date - 1.

Definition MakeDate (day time : Z) : Date := day * msPerDay + time.

Definition getDate (t : Date) : Z := DateFromTime t.
Definition getMonth (t : Date) : Z := MonthFromTime t.

Definition setDate (t : Date) (dt : Z) : Date :=
  MakeDate (MakeDay (YearFromTime t) (MonthFromTime t) dt) (TimeWithinDay t).

Definition setMonth (t : Date) (m : Z) : Date :=
  MakeDate (MakeDay (YearFromTime t) m (DateFromTime t)) (TimeWithinDay t).

End Calendar.

(** ** models/Goal.js: the schema *)

Module Goal.

Inductive Status := active | completed | paused | cancelled.
Inductive Frequency := daily | weekly | monthly.
Inductive Source := manual | auto_save | bonus | transfer.

Global Instance Status_eq_dec : EqDecision Status.
Proof. solve_decision. Defined.

Module Milestone.
Record t := mk {
  name : string;
  amount : Number;
  achieved : bool;
  achievedDate : option Date
}.
End Milestone.

Module Contribution.
Record t := mk {
  amount : Number;
  note : string;
  source : Source;
  date : Date
}.
End Contribution.

Module AutoSave.
Record t := mk {
  enabled : bool;
  amount : option Number;
  frequency : Frequency;
  nextDate : option Date
}.

Definition set_nextDate (a : t) (d : option Date) : t :=
  {| enabled := enabled a; amount := amount a;
     frequency := frequency a; nextDate := d |}.
End AutoSave.

Record t := mk {
  userId : ObjectId;
  targetAmount : Number;
  currentAmount : Number;
  targetDate : Date;
  status : Status;
  autoSave : AutoSave.t;
  milestones : list Milestone.t;
  contributions : list Contribution.t
}.

Definition set_status (g : t) (s : Status) : t :=
  {| userId := userId g; targetAmount := targetAmount g;
     currentAmount := currentAmount g; targetDate := targetDate g;
     status := s; autoSave := autoSave g;
     milestones := milestones g; contributions := contributions g |}.

Definition set_autoSave (g : t) (a : AutoSave.t) : t :=
  {| userId := userId g; targetAmount := targetAmount g;
     currentAmount := currentAmount g; targetDate := targetDate g;
     status := status g; autoSave := a;
     milestones := milestones g; contributions := contributions g |}.

(** The validators of the schema: targetAmount [min 0.01], currentAmount
    [min 0], autoSave.amount [min 0], every milestone and every
    contribution amount [min 0.01]. *)
Definition validate (g : t) : option Error :=
  if ltb (targetAmount g) 0.01
  then Some (ValidationError "Le montant cible doit etre superieur a 0")
  else if ltb (currentAmount g) 0
  then Some (ValidationError "Le montant actuel ne peut pas etre negatif")
  else if from_option (λ a, ltb a 0) false (AutoSave.amount (autoSave g))
  then Some (ValidationError "Le montant d'epargne automatique doit etre positif")
  else if existsb (λ m, ltb (Milestone.amount m) 0.01) (milestones g)
  then Some (ValidationError "Le montant du jalon doit etre superieur a 0")
  else if existsb (λ c, ltb (Contribution.amount c) 0.01) (contributions g)
  then Some (ValidationError "Le montant de la contribution doit etre superieur a 0")
  else None.

(** First [goalSchema.pre("save")]: the target date must be in the future. *)
Definition pre_save_targetDate (now : Date) (g : t) : option Error :=
  if (targetDate g <=? now)%Z
  then Some (HookError "La date cible doit etre dans le futur")
  else None.

(** Second [goalSchema.pre("save")]: a reached target completes the goal. *)
Definition pre_save_status (g : t) : t :=
  if geb (currentAmount g) (targetAmount g) && bool_decide (status g = active)
  then set_status g completed
  else g.

(** The part of [addContribution] that changes the document in memory:
    push the contribution, add to the current amount, visit the milestones. *)
Definition check_milestone (now : Date) (current : Number)
    (milestone : Milestone.t) : Milestone.t :=
  if negb (Milestone.achieved milestone)
     && geb current (Milestone.amount milestone)
  then {| Milestone.name := Milestone.name milestone;
          Milestone.amount := Milestone.amount milestone;
          Milestone.achieved := true;
          Milestone.achievedDate := Some now |}
  else milestone.

Definition contribute (now : Date) (g : t) (amount : Number) (note : string)
    (source : Source) : t :=
  let current := currentAmount g + amount in
  {| userId := userId g; targetAmount := targetAmount g;
     currentAmount := current; targetDate := targetDate g;
     status := status g; autoSave := autoSave g;
     milestones := map (check_milestone now current) (milestones g);
     contributions :=
       contributions g ++
       [ {| Contribution.amount := amount; Contribution.note := note;
            Contribution.source := source; Contribution.date := now |} ] |}.

(** [goalSchema.methods.calculateNextAutoSave]. *)
Definition calculateNextAutoSave (now : Date) (g : t) : option Date :=
  if negb (AutoSave.enabled (autoSave g)) then None
  else
    let nextDate := default now (AutoSave.nextDate (autoSave g)) in
    Some match AutoSave.frequency (autoSave g) with
         | daily => Calendar.setDate nextDate (Calendar.getDate nextDate + 1)
         | weekly => Calendar.setDate nextDate (Calendar.getDate nextDate + 7)
         | monthly => Calendar.setMonth nextDate (Calendar.getMonth nextDate + 1)
         end.

End Goal.

(** ** The database and the computations over it *)

Record DB := mkDB {
  accounts : gmap ObjectId Account.t;
  transactions : gmap ObjectId Transaction.t;
  budgets : gmap ObjectId Budget.t;
  goals : gmap ObjectId Goal.t
}.

Definition set_accounts (db : DB) (m : gmap ObjectId Account.t) : DB :=
  {| accounts := m; transactions := transactions db;
     budgets := budgets db; goals := goals db |}.

Definition set_transactions (db : DB) (m : gmap ObjectId Transaction.t) : DB :=
  {| accounts := accounts db; transactions := m;
     budgets := budgets db; goals := goals db |}.

Definition set_budgets (db : DB) (m : gmap ObjectId Budget.t) : DB :=
  {| accounts := accounts db; transactions := transactions db;
     budgets := m; goals := goals db |}.

Definition set_goals (db : DB) (m : gmap ObjectId Goal.t) : DB :=
  {| accounts := accounts db; transactions := transactions db;
     budgets := budgets db; goals := m |}.

(** An asynchronous computation: from a database to a value or an error, and
    the database it leaves; an error keeps the writes that preceded it. *)
Definition M (A : Type) : Type := DB → (Error + A) * DB.

Definition ret {A} (x : A) : M A := λ db, (inr x, db).
Definition throw {A} (e : Error) : M A := λ db, (inl e, db).
Definition bind {A B} (m : M A) (k : A → M B) : M B := λ db,
  match m db with
  | (inr x, db') => k x db'
  | (inl e, db') => (inl e, db')
  end.
Definition try_catch {A} (m : M A) (handler : Error → M A) : M A := λ db,
  match m db with
  | (inr x, db') => (inr x, db')
  | (inl e, db') => handler e db'
  end.
Definition gets {A} (f : DB → A) : M A := λ db, (inr (f db), db).
Definition modify (f : DB → DB) : M unit := λ db, (inr tt, f db).

(** Raise the error of a check, if there is one. *)
Definition check (r : option Error) : M unit :=
  match r with Some e => throw e | None => ret tt end.

Notation "x <- m ;; k" := (bind m (λ x, k))
  (at level 100, m at next level, right associativity, only parsing).
Notation "m ;;; k" := (bind m (λ _, k))
  (at level 100, right associativity, only parsing).

(** The database a computation leaves, whatever its outcome. *)
Definition exec {A} (m : M A) (db : DB) : DB := snd (m db).

(** ** models/Account.js: the methods *)

Module Accounts.

(** [Account.findById(id)]. *)
Definition findById (id : ObjectId) : M (option Account.t) :=
  gets (λ db, accounts db !! id).

(** [account.save()] for the document loaded under [id]. *)
Definition save (id : ObjectId) (a : Account.t) : M Account.t :=
  check (Account.validate a) ;;;
  let a' := Account.pre_save a in
  modify (λ db, set_accounts db (<[id := a']> (accounts db))) ;;;
  ret a'.

Inductive Operation := add | subtract | set.

(** [accountSchema.methods.updateBalance]. *)
Definition updateBalance (id : ObjectId) (this : Account.t) (amount : Number)
    (operation : Operation) : M Account.t :=
  let this' :=
    match operation with
    | add => Account.set_balance this (Account.balance this + amount)
    | subtract => Account.set_balance this (Account.balance this - amount)
    | set => Account.set_balance this amount
    end in
  if negb (bool_decide (Account.type this' = credit))
     && ltb (Account.balance this') 0
  then throw (HookError "Solde insuffisant")
  else save id this'.

(** [Account.findByIdAndUpdate(id, { $inc: { balance: d } })]: the stored
    document is changed in place; nothing happens for an unknown id. *)
Definition findByIdAndUpdate_inc (id : ObjectId) (d : Number) : M unit :=
  modify (λ db,
    match accounts db !! id with
    | Some a =>
        set_accounts db
          (<[id := Account.set_balance a (Account.balance a + d)]> (accounts db))
    | None => db
    end).

End Accounts.

(** ** models/Transaction.js: saving a transaction *)

Module Transactions.

(** The [try] block of [transactionSchema.post("save")]. *)
Definition post_save_try (doc : Transaction.t) : M unit :=
  account <- Accounts.findById (Transaction.accountId doc) ;;
  match account with
  | Some account =>
      match Transaction.type doc with
      | income =>
          Accounts.save (Transaction.accountId doc)
            (Account.set_balance account
               (Account.balance account + Transaction.amount doc)) ;;;
          ret tt
      | expense =>
          Accounts.save (Transaction.accountId doc)
            (Account.set_balance account
               (Account.balance account - Transaction.amount doc)) ;;;
          ret tt
      | transfer =>
          let account :=
            Account.set_balance account
              (Account.balance account - Transaction.amount doc) in
          destinationAccount <-
            match Transaction.transferAccountId doc with
            | Some dst => Accounts.findById dst
            | None => ret None
            end ;;
          match Transaction.transferAccountId doc, destinationAccount with
          | Some dst, Some destinationAccount =>
              Accounts.save dst
                (Account.set_balance destinationAccount
                   (Account.balance destinationAccount + Transaction.amount doc)) ;;;
              ret tt
          | _, _ => ret tt
          end ;;;
          Accounts.save (Transaction.accountId doc) account ;;;
          ret tt
      end
  | None => ret tt
  end.

(** [transactionSchema.post("save")]: the [catch] logs and swallows. *)
Definition post_save (doc : Transaction.t) : M unit :=
  try_catch (post_save_try doc) (λ _, ret tt).

(** [transaction.save()] for the document whose [_id] is [id]. *)
Definition save (id : ObjectId) (doc : Transaction.t) : M unit :=
  check (Transaction.validate doc) ;;;
  check (Transaction.pre_save doc) ;;;
  modify (λ db, set_transactions db (<[id := doc]> (transactions db))) ;;;
  post_save doc.

(** [Transaction.findOne({ _id: id, userId: user })]. *)
Definition findOne (id user : ObjectId) : M (option Transaction.t) :=
  gets (λ db,
    match transactions db !! id with
    | Some d => if bool_decide (Transaction.userId d = user) then Some d else None
    | None => None
    end).

End Transactions.

(** ** routes/transactions.js *)

Module Routes.

(** The fields of the request body the handlers read. *)
Record Body := mkBody {
  accountId : ObjectId;
  categoryId : ObjectId;
  amount : Number;
  date : option Date
}.

(** The HTTP status of the response. *)
Definition Status := nat.

(** A handler is a [try] whose [catch] answers 500. *)
Definition handler (m : M Status) : DB → Status * DB := λ db,
  match m db with
  | (inr s, db') => (s, db')
  | (inl _, db') => (500%nat, db')
  end.

(** [router.put("/:id")]. *)
Definition put (user id : ObjectId) (body : Body) : DB → Status * DB :=
  handler (
    transaction <- Transactions.findOne id user ;;
    match transaction with
    | None => ret 404%nat
    | Some transaction =>
        let update :=
          Transactions.save id
            {| Transaction.userId := Transaction.userId transaction;
               Transaction.accountId := accountId body;
               Transaction.categoryId := categoryId body;
               Transaction.type := Transaction.type transaction;
               Transaction.amount := amount body;
               Transaction.date := default (Transaction.date transaction) (date body);
               Transaction.transferAccountId :=
                 Transaction.transferAccountId transaction;
               Transaction.status := Transaction.status transaction |} ;;;
          ret 200%nat in
        if negb (bool_decide (accountId body = Transaction.accountId transaction))
        then
          account <- gets (λ db,
            match accounts db !! accountId body with
            | Some a =>
                if bool_decide (Account.userId a = user) then Some a else None
            | None => None
            end) ;;
          match account with
          | None => ret 404%nat
          | Some _ =>
              Accounts.findByIdAndUpdate_inc (Transaction.accountId transaction)
                (- Transaction.amount transaction) ;;;
              Accounts.findByIdAndUpdate_inc (accountId body) (amount body) ;;;
              update
          end
        else if negb (Qeq_bool (amount body) (Transaction.amount transaction))
        then
          let difference := amount body - Transaction.amount transaction in
          Accounts.findByIdAndUpdate_inc (accountId body) difference ;;;
          update
        else update
    end).

(** [router.delete("/:id")]: [findOneAndDelete] and nothing else. *)
Definition delete (user id : ObjectId) : DB → Status * DB :=
  handler (
    transaction <- Transactions.findOne id user ;;
    match transaction with
    | None => ret 404%nat
    | Some _ =>
        modify (λ db, set_transactions db (base.delete id (transactions db))) ;;;
        ret 200%nat
    end).

End Routes.

(** ** models/Budget.js: the methods *)

Module Budgets.

(** [budget.save()]. *)
Definition save (id : ObjectId) (b : Budget.t) : M Budget.t :=
  check (Budget.validate b) ;;;
  check (Budget.pre_save b) ;;;
  modify (λ db, set_budgets db (<[id := b]> (budgets db))) ;;;
  ret b.

(** The [$match] stage of [updateSpent]. *)
Definition matches (this : Budget.t) (d : Transaction.t) : bool :=
  bool_decide (Transaction.userId d = Budget.userId this)
  && bool_decide (Transaction.categoryId d = Budget.categoryId this)
  && bool_decide (Transaction.type d = expense)
  && bool_decide (Transaction.status d = completed)
  && (Budget.startDate this <=? Transaction.date d)%Z
  && (Transaction.date d <=? Budget.endDate this)%Z.

(** [{ $sum: "$amount" }] over the documents of a group. *)
Definition sum_amount (docs : list Transaction.t) : Number :=
  fold_right (λ d acc, Transaction.amount d + acc) 0 docs.

(** [Transaction.aggregate([{ $match }, { $group: { _id: null, total } }])]:
    one group holding the total when a document matches, no group at all
    otherwise. *)
Definition aggregate (this : Budget.t) : M (list Number) :=
  gets (λ db,
    match List.filter (matches this) (snd <$> map_to_list (transactions db)) with
    | [] => []
    | docs => [sum_amount docs]
    end).

(** The first two statements of [updateSpent]: the aggregation, and the
    assignment [this.spent = result[0]?.total || 0]. *)
Definition updateSpent_assign (this : Budget.t) : M Budget.t :=
  result <- aggregate this ;;
  ret (Budget.set_spent this (or_zero (head result))).

(** [budgetSchema.methods.updateSpent]: the assignment, then [this.save()]. *)
Definition updateSpent (id : ObjectId) (this : Budget.t) : M Budget.t :=
  this <- updateSpent_assign this ;;
  save id this.

End Budgets.

(** ** models/Goal.js: the methods *)

Module Goals.

(** [goal.save()] at the instant [now]. *)
Definition save (now : Date) (id : ObjectId) (g : Goal.t) : M Goal.t :=
  check (Goal.validate g) ;;;
  check (Goal.pre_save_targetDate now g) ;;;
  let g' := Goal.pre_save_status g in
  modify (λ db, set_goals db (<[id := g']> (goals db))) ;;;
  ret g'.

(** [goalSchema.methods.addContribution]. *)
Definition addContribution (now : Date) (id : ObjectId) (this : Goal.t)
    (amount : Number) (note : string) (source : Goal.Source) : M Goal.t :=
  save now id (Goal.contribute now this amount note source).

(** The filter of [processAutoSaves]. *)
Definition due (now : Date) (g : Goal.t) : bool :=
  Goal.AutoSave.enabled (Goal.autoSave g)
  && from_option (λ d, (d <=? now)%Z) false (Goal.AutoSave.nextDate (Goal.autoSave g))
  && bool_decide (Goal.status g = Goal.active).

(** The [try] block of the loop of [processAutoSaves] for one goal: the
    contribution is saved at the instant [t1], the new date at [t2]. A
    goal without a configured amount contributes [undefined], which the
    [required] validator of the contribution amount rejects. *)
Definition process_one_try (t1 t2 : Date) (id : ObjectId) (goal : Goal.t) : M unit :=
  goal <- match Goal.AutoSave.amount (Goal.autoSave goal) with
          | Some amount =>
              addContribution t1 id goal amount "Epargne automatique" Goal.auto_save
          | None => throw (ValidationError "Path `amount` is required.")
          end ;;
  let goal :=
    Goal.set_autoSave goal
      (Goal.AutoSave.set_nextDate (Goal.autoSave goal)
         (Goal.calculateNextAutoSave t2 goal)) in
  save t2 id goal ;;;
  ret tt.

(** The [try] / [catch] around it: the error is logged and dropped. *)
Definition process_one (t1 t2 : Date) (id : ObjectId) (goal : Goal.t) : M unit :=
  try_catch (process_one_try t1 t2 id goal) (λ _, ret tt).

(** The loop: the k-th goal is processed at the instants [clock k]. *)
Fixpoint process_all (clock : nat → Date * Date) (k : nat)
    (goalsToProcess : list (ObjectId * Goal.t)) : M unit :=
  match goalsToProcess with
  | [] => ret tt
  | (id, goal) :: rest =>
      process_one (fst (clock k)) (snd (clock k)) id goal ;;;
      process_all clock (S k) rest
  end.

(** [Goal.find({ "autoSave.enabled": true, "autoSave.nextDate": { $lte: now },
    status: "active" })]. *)
Definition find_due (now : Date) : M (list (ObjectId * Goal.t)) :=
  gets (λ db, map_to_list (filter (λ p, due now (snd p) = true) (goals db))).

(** [goalSchema.statics.processAutoSaves]. *)
Definition processAutoSaves (now : Date) (clock : nat → Date * Date) : M nat :=
  goalsToProcess <- find_due now ;;
  process_all clock 0 goalsToProcess ;;;
  ret (length goalsToProcess).

End Goals.


(** ** More of JavaScript's [Math] *)


(** ** models/Budget.js: the other virtuals and the alert *)

Module BudgetVirtuals.

Inductive Status := exceeded | warning | on_track.

(** [budgetSchema.virtual("status")]. *)
Definition status (b : Budget.t) : Status :=
  let percentage := Budget.percentageUsed b in
  if geb percentage 100 then exceeded
  else if geb percentage (Budget.alertThreshold b) then warning
  else on_track.



End BudgetVirtuals.

(** ** routes/budgets.js *)

Module BudgetRoutes.

(** The fields of the body of [PUT /:id] that reach the fields of [Budget.t];
    [alertThreshold] and [isActive] may be absent. *)
Record Body := mkBody {
  amount : Number;
  startDate : Date;
  endDate : Date;
  alertThreshold : option Number;
  isActive : option bool
}.

(** [Budget.findOne({ _id: id, userId: user })]. *)
Definition findOne (id user : ObjectId) : M (option Budget.t) :=
  gets (λ db,
    match budgets db !! id with
    | Some b => if bool_decide (Budget.userId b = user) then Some b else None
    | None => None
    end).

(** [x || y] on an optional number: [undefined] and [0] give [y]. *)
Definition or_else (x : option Number) (y : Number) : Number :=
  match x with
  | Some v => if Qeq_bool v 0 then y else v
  | None => y
  end.

(** The assignments of [PUT /:id] to the loaded budget. *)
Definition assign (budget : Budget.t) (body : Body) : Budget.t :=
  {| Budget.userId := Budget.userId budget;
     Budget.categoryId := Budget.categoryId budget;
     Budget.amount := amount body;
     Budget.spent := Budget.spent budget;
     Budget.startDate := startDate body;
     Budget.endDate := endDate body;
     Budget.alertThreshold :=
       or_else (alertThreshold body) (Budget.alertThreshold budget);
     Budget.isActive := default (Budget.isActive budget) (isActive body) |}.

(** The handler of [router.put("/:id")], for the user that [auth] has
    identified and a body that [validateBudget] has let through. *)
Definition put (user id : ObjectId) (body : Body) : DB → Routes.Status * DB :=
  Routes.handler (
    budget <- findOne id user ;;
    match budget with
    | None => ret 404%nat
    | Some budget =>
        budget <- Budgets.save id (assign budget body) ;;
        Budgets.updateSpent id budget ;;;
        ret 200%nat
    end).

(** [router.delete("/:id")]. *)
Definition delete (user id : ObjectId) : DB → Routes.Status * DB :=
  Routes.handler (
    budget <- findOne id user ;;
    match budget with
    | None => ret 404%nat
    | Some _ =>
        modify (λ db, set_budgets db (base.delete id (budgets db))) ;;;
        ret 200%nat
    end).

(** [router.post("/:id/refresh")]. *)
Definition refresh (user id : ObjectId) : DB → Routes.Status * DB :=
  Routes.handler (
    budget <- findOne id user ;;
    match budget with
    | None => ret 404%nat
    | Some budget =>
        Budgets.updateSpent id budget ;;;
        ret 200%nat
    end).

End BudgetRoutes.

(** ** models/Goal.js: the virtuals *)

Module GoalVirtuals.







End GoalVirtuals.
(** * The model in double precision

    The amounts, balances and totals of the code are JavaScript numbers:
    IEEE-754 binary64 values, whose sums, differences, products and
    quotients are rounded to nearest, ties to even. The properties that
    depend on the value such an operation returns are stated over the model
    of this part, in which a number is a binary64 value and [+], [-], [*]
    and [/] are the operations of [SpecFloat] at precision 53 and maximal
    exponent 1024. Dates stay integers of milliseconds. *)

(** ** JavaScript numbers *)

Module Double.

Definition t : Type := spec_float.
Definition prec : Z := 53.
Definition emax : Z := 1024.

(** [x + y], [x - y], [x * y], [x / y]. *)
Definition add : t → t → t := SFadd prec emax.
Definition sub : t → t → t := SFsub prec emax.
Definition mul : t → t → t := SFmul prec emax.
Definition div : t → t → t := SFdiv prec emax.

(** [x < y], [x <= y], [x > y], [x >= y]: false as soon as an operand is
    [NaN]. *)
Definition ltb (x y : t) : bool := SFltb x y.
Definition leb (x y : t) : bool := SFleb x y.
Definition gtb (x y : t) : bool := SFltb y x.
Definition geb (x y : t) : bool := SFleb y x.

(** The literal [0], an integer literal, and a decimal literal [p / q] with
    [p] and [q] small integers, such as [0.01]: the double nearest to it. *)
Definition zero : t := S754_zero false.
Definition of_Z (z : Z) : t := binary_normalize prec emax z 0 false.
Definition ratio (p q : Z) : t := div (of_Z p) (of_Z q).

(** A number is falsy when it is [0], [-0] or [NaN]. *)
Definition truthy (x : t) : bool :=
  match x with
  | S754_zero _ | S754_nan => false
  | _ => true
  end.

(** [x || 0] on an optional number. *)
Definition or_zero (x : option t) : t :=
  match x with
  | Some v => if truthy v then v else zero
  | None => zero
  end.

(** The finite doubles and the rational each of them stands for. *)
Definition is_finite (x : t) : bool :=
  match x with
  | S754_zero _ | S754_finite _ _ _ => true
  | _ => false
  end.

Definition value (x : t) : Q :=
  match x with
  | S754_finite s m e =>
      (if s then - inject_Z (Zpos m) else inject_Z (Zpos m)) * 2 ^ e
  | _ => 0
  end.

(** The representation is the canonical one of binary64. *)
Definition valid (x : t) : bool := valid_binary prec emax x.

(** [Math.round]: the integer nearest to [x], the upper one on a tie;
    [NaN], the infinities and the zeros are returned as they are, and a
    negative [x] that rounds to zero gives [-0]. A double whose exponent is
    not negative is an integer already. *)
Definition Math_round (x : t) : t :=
  match x with
  | S754_finite s m e =>
      if (0 <=? e)%Z then x
      else match Qfloor (value x + (1 # 2)) with
           | Z0 => S754_zero s
           | n => of_Z n
           end
  | _ => x
  end.

(** [Math.abs]. *)
Definition Math_abs (x : t) : t := SFabs x.


End Double.

(** ** The models and their methods over doubles *)

Module B64.

(** What a rejected promise carries. *)
Inductive Error : Type :=
| ValidationError (message : string)   (* a schema validator failed *)
| HookError (message : string)         (* [next(new Error(..))] or [throw new Error(..)] *)
| DuplicateKeyError.                   (* E11000: a unique index refuses the write *)

(** *** models/Account.js: the schema *)

Module Account.

Record t := mk {
  userId : ObjectId;
  type : AccountType;
  balance : Double.t;
  isActive : bool
}.

Definition set_balance (a : t) (b : Double.t) : t :=
  {| userId := userId a; type := type a; balance := b; isActive := isActive a |}.

(** balance: [min: [0, "Le solde ne peut pas etre negatif"]]: the value
    passes when [value >= 0]. *)
Definition validate (a : t) : option Error :=
  if Double.geb (balance a) Double.zero
  then None
  else Some (ValidationError "Le solde ne peut pas etre negatif").

(** [accountSchema.pre("save")]. *)
Definition pre_save (a : t) : t :=
  if bool_decide (type a = credit) && Double.ltb (balance a) Double.zero
  then set_balance a (Double.Math_abs (balance a))
  else a.

End Account.

(** *** models/Transaction.js: the schema *)

Module Transaction.

Record t := mk {
  userId : ObjectId;
  accountId : ObjectId;
  categoryId : ObjectId;
  type : TransactionType;
  amount : Double.t;
  date : Date;
  transferAccountId : option ObjectId;
  status : TransactionStatus
}.

(** amount: [min: [0.01, "Le montant doit etre superieur a 0"]]. *)
Definition validate (d : t) : option Error :=
  if Double.geb (amount d) (Double.ratio 1 100)
  then None
  else Some (ValidationError "Le montant doit etre superieur a 0").

(** [transactionSchema.pre("save")]: the two checks on transfers. *)
Definition pre_save (d : t) : option Error :=
  match type d, transferAccountId d with
  | transfer, None =>
      Some (HookError "Le compte de destination est requis pour un transfert")
  | transfer, Some dst =>
      if bool_decide (dst = accountId d)
      then Some (HookError
             "Le compte source et destination ne peuvent pas etre identiques")
      else None
  | _, _ => None
  end.

End Transaction.

(** *** models/Budget.js: the schema and [percentageUsed] *)

Module Budget.

Record t := mk {
  userId : ObjectId;
  categoryId : ObjectId;
  amount : Double.t;
  spent : Double.t;
  startDate : Date;
  endDate : Date;
  alertThreshold : Double.t;
  isActive : bool
}.

Definition set_spent (b : t) (s : Double.t) : t :=
  {| userId := userId b; categoryId := categoryId b; amount := amount b;
     spent := s; startDate := startDate b; endDate := endDate b;
     alertThreshold := alertThreshold b; isActive := isActive b |}.

(** [budgetSchema.virtual("percentageUsed")]:
    [this.amount > 0 ? Math.round((this.spent / this.amount) * 100) : 0]. *)
Definition percentageUsed (b : t) : Double.t :=
  if Double.gtb (amount b) Double.zero
  then Double.Math_round
         (Double.mul (Double.div (spent b) (amount b)) (Double.of_Z 100))
  else Double.zero.

(** amount: [min 0.01]; spent: [min 0]; alertThreshold: [min 0], [max 100]. *)
Definition validate (b : t) : option Error :=
  if negb (Double.geb (amount b) (Double.ratio 1 100))
  then Some (ValidationError "Le montant doit etre superieur a 0")
  else if negb (Double.geb (spent b) Double.zero)
  then Some (ValidationError "Le montant depense ne peut pas etre negatif")
  else if negb (Double.geb (alertThreshold b) Double.zero)
  then Some (ValidationError "Le seuil d'alerte doit etre positif")
  else if negb (Double.leb (alertThreshold b) (Double.of_Z 100))
  then Some (ValidationError "Le seuil d'alerte ne peut pas depasser 100%")
  else None.

(** [budgetSchema.pre("save")]: the dates must be ordered. *)
Definition pre_save (b : t) : option Error :=
  if (endDate b <=? startDate b)%Z
  then Some (HookError "La date de fin doit etre posterieure a la date de debut")
  else None.

(** The key of the unique index [{ userId: 1, categoryId: 1, startDate: 1 }]. *)
Definition key (b : t) : ObjectId * ObjectId * Date :=
  (userId b, categoryId b, startDate b).

End Budget.

(** *** models/Goal.js: the schema *)

Module Goal.

Inductive Status := active | completed | paused | cancelled.
Inductive Frequency := daily | weekly | monthly.
Inductive Source := manual | auto_save | bonus | transfer.

Global Instance Status_dec : EqDecision Status.
Proof. solve_decision. Defined.

Module Milestone.
Record t := mk {
  name : string;
  amount : Double.t;
  achieved : bool;
  achievedDate : option Date
}.
End Milestone.

Module Contribution.
Record t := mk {
  amount : Double.t;
  note : string;
  source : Source;
  date : Date
}.
End Contribution.

Module AutoSave.
Record t := mk {
  enabled : bool;
  amount : option Double.t;
  frequency : Frequency;
  nextDate : option Date
}.

Definition set_nextDate (a : t) (d : option Date) : t :=
  {| enabled := enabled a; amount := amount a;
     frequency := frequency a; nextDate := d |}.
End AutoSave.

Record t := mk {
  userId : ObjectId;
  targetAmount : Double.t;
  currentAmount : Double.t;
  targetDate : Date;
  status : Status;
  autoSave : AutoSave.t;
  milestones : list Milestone.t;
  contributions : list Contribution.t
}.

Definition set_status (g : t) (s : Status) : t :=
  {| userId := userId g; targetAmount := targetAmount g;
     currentAmount := currentAmount g; targetDate := targetDate g;
     status := s; autoSave := autoSave g;
     milestones := milestones g; contributions := contributions g |}.

Definition set_autoSave (g : t) (a : AutoSave.t) : t :=
  {| userId := userId g; targetAmount := targetAmount g;
     currentAmount := currentAmount g; targetDate := targetDate g;
     status := status g; autoSave := a;
     milestones := milestones g; contributions := contributions g |}.

(** The validators of the schema: targetAmount [min 0.01], currentAmount
    [min 0], autoSave.amount [min 0] when there is one, every milestone and
    every contribution amount [min 0.01]. *)
Definition validate (g : t) : option Error :=
  if negb (Double.geb (targetAmount g) (Double.ratio 1 100))
  then Some (ValidationError "Le montant cible doit etre superieur a 0")
  else if negb (Double.geb (currentAmount g) Double.zero)
  then Some (ValidationError "Le montant actuel ne peut pas etre negatif")
  else if from_option (λ a, negb (Double.geb a Double.zero)) false
            (AutoSave.amount (autoSave g))
  then Some (ValidationError "Le montant d'epargne automatique doit etre positif")
  else if existsb (λ m, negb (Double.geb (Milestone.amount m) (Double.ratio 1 100)))
            (milestones g)
  then Some (ValidationError "Le montant du jalon doit etre superieur a 0")
  else if existsb
            (λ c, negb (Double.geb (Contribution.amount c) (Double.ratio 1 100)))
            (contributions g)
  then Some (ValidationError "Le montant de la contribution doit etre superieur a 0")
  else None.

(** First [goalSchema.pre("save")]: the target date must be in the future. *)
Definition pre_save_targetDate (now : Date) (g : t) : option Error :=
  if (targetDate g <=? now)%Z
  then Some (HookError "La date cible doit etre dans le futur")
  else None.

(** Second [goalSchema.pre("save")]: a reached target completes the goal. *)
Definition pre_save_status (g : t) : t :=
  if Double.geb (currentAmount g) (targetAmount g)
     && bool_decide (status g = active)
  then set_status g completed
  else g.

(** The body of the [forEach] of [addContribution], [current] being the
    current amount once the contribution is added. *)
Definition check_milestone (now : Date) (current : Double.t)
    (milestone : Milestone.t) : Milestone.t :=
  if negb (Milestone.achieved milestone)
     && Double.geb current (Milestone.amount milestone)
  then {| Milestone.name := Milestone.name milestone;
          Milestone.amount := Milestone.amount milestone;
          Milestone.achieved := true;
          Milestone.achievedDate := Some now |}
  else milestone.

(** The part of [addContribution] that changes the document in memory:
    push the contribution, [this.currentAmount += amount], visit the
    milestones. *)
Definition contribute (now : Date) (g : t) (amount : Double.t) (note : string)
    (source : Source) : t :=
  let current := Double.add (currentAmount g) amount in
  {| userId := userId g; targetAmount := targetAmount g;
     currentAmount := current; targetDate := targetDate g;
     status := status g; autoSave := autoSave g;
     milestones := map (check_milestone now current) (milestones g);
     contributions :=
       contributions g ++
       [ {| Contribution.amount := amount; Contribution.note := note;
            Contribution.source := source; Contribution.date := now |} ] |}.

(** [goalSchema.methods.calculateNextAutoSave]. *)
Definition calculateNextAutoSave (now : Date) (g : t) : option Date :=
  if negb (AutoSave.enabled (autoSave g)) then None
  else
    let nextDate := default now (AutoSave.nextDate (autoSave g)) in
    Some match AutoSave.frequency (autoSave g) with
         | daily => Calendar.setDate nextDate (Calendar.getDate nextDate + 1)
         | weekly => Calendar.setDate nextDate (Calendar.getDate nextDate + 7)
         | monthly => Calendar.setMonth nextDate (Calendar.getMonth nextDate + 1)
         end.

End Goal.

(** *** The database and the computations over it *)

Record DB := mkDB {
  accounts : gmap ObjectId Account.t;
  transactions : gmap ObjectId Transaction.t;
  budgets : gmap ObjectId Budget.t;
  goals : gmap ObjectId Goal.t
}.

Definition set_accounts (db : DB) (m : gmap ObjectId Account.t) : DB :=
  {| accounts := m; transactions := transactions db;
     budgets := budgets db; goals := goals db |}.

Definition set_transactions (db : DB) (m : gmap ObjectId Transaction.t) : DB :=
  {| accounts := accounts db; transactions := m;
     budgets := budgets db; goals := goals db |}.

Definition set_budgets (db : DB) (m : gmap ObjectId Budget.t) : DB :=
  {| accounts := accounts db; transactions := transactions db;
     budgets := m; goals := goals db |}.

Definition set_goals (db : DB) (m : gmap ObjectId Goal.t) : DB :=
  {| accounts := accounts db; transactions := transactions db;
     budgets := budgets db; goals := m |}.

(** An asynchronous computation: from a database to a value or an error, and
    the database it leaves; an error keeps the writes that preceded it. *)
Definition M (A : Type) : Type := DB → (Error + A) * DB.

Definition ret {A} (x : A) : M A := λ db, (inr x, db).
Definition throw {A} (e : Error) : M A := λ db, (inl e, db).
Definition bind {A B} (m : M A) (k : A → M B) : M B := λ db,
  match m db with
  | (inr x, db') => k x db'
  | (inl e, db') => (inl e, db')
  end.
Definition try_catch {A} (m : M A) (handler : Error → M A) : M A := λ db,
  match m db with
  | (inr x, db') => (inr x, db')
  | (inl e, db') => handler e db'
  end.
Definition gets {A} (f : DB → A) : M A := λ db, (inr (f db), db).
Definition modify (f : DB → DB) : M unit := λ db, (inr tt, f db).

(** Raise the error of a check, if there is one. *)
Definition check (r : option Error) : M unit :=
  match r with Some e => throw e | None => ret tt end.

Notation "x <- m ;; k" := (bind m (λ x, k))
  (at level 100, m at next level, right associativity, only parsing).
Notation "m ;;; k" := (bind m (λ _, k))
  (at level 100, right associativity, only parsing).

(** The database a computation leaves, whatever its outcome. *)
Definition exec {A} (m : M A) (db : DB) : DB := snd (m db).

(** *** models/Account.js: the methods *)

Module Accounts.

(** [Account.findById(id)]. *)
Definition findById (id : ObjectId) : M (option Account.t) :=
  gets (λ db, accounts db !! id).

(** [account.save()] for the document loaded under [id]. *)
Definition save (id : ObjectId) (a : Account.t) : M Account.t :=
  check (Account.validate a) ;;;
  let a' := Account.pre_save a in
  modify (λ db, set_accounts db (<[id := a']> (accounts db))) ;;;
  ret a'.

Inductive Operation := add | subtract | set.

(** [accountSchema.methods.updateBalance]. *)
Definition updateBalance (id : ObjectId) (this : Account.t) (amount : Double.t)
    (operation : Operation) : M Account.t :=
  let this' :=
    match operation with
    | add => Account.set_balance this (Double.add (Account.balance this) amount)
    | subtract => Account.set_balance this (Double.sub (Account.balance this) amount)
    | set => Account.set_balance this amount
    end in
  if negb (bool_decide (Account.type this' = credit))
     && Double.ltb (Account.balance this') Double.zero
  then throw (HookError "Solde insuffisant")
  else save id this'.

End Accounts.

(** *** models/Transaction.js: saving a transaction *)

Module Transactions.

(** The [try] block of [transactionSchema.post("save")]. *)
Definition post_save_try (doc : Transaction.t) : M unit :=
  account <- Accounts.findById (Transaction.accountId doc) ;;
  match account with
  | Some account =>
      match Transaction.type doc with
      | income =>
          Accounts.save (Transaction.accountId doc)
            (Account.set_balance account
               (Double.add (Account.balance account) (Transaction.amount doc))) ;;;
          ret tt
      | expense =>
          Accounts.save (Transaction.accountId doc)
            (Account.set_balance account
               (Double.sub (Account.balance account) (Transaction.amount doc))) ;;;
          ret tt
      | transfer =>
          let account :=
            Account.set_balance account
              (Double.sub (Account.balance account) (Transaction.amount doc)) in
          destinationAccount <-
            match Transaction.transferAccountId doc with
            | Some dst => Accounts.findById dst
            | None => ret None
            end ;;
          match Transaction.transferAccountId doc, destinationAccount with
          | Some dst, Some destinationAccount =>
              Accounts.save dst
                (Account.set_balance destinationAccount
                   (Double.add (Account.balance destinationAccount)
                      (Transaction.amount doc))) ;;;
              ret tt
          | _, _ => ret tt
          end ;;;
          Accounts.save (Transaction.accountId doc) account ;;;
          ret tt
      end
  | None => ret tt
  end.

(** [transactionSchema.post("save")]: the [catch] logs and swallows. *)
Definition post_save (doc : Transaction.t) : M unit :=
  try_catch (post_save_try doc) (λ _, ret tt).

(** [transaction.save()] for the document whose [_id] is [id]. *)
Definition save (id : ObjectId) (doc : Transaction.t) : M unit :=
  check (Transaction.validate doc) ;;;
  check (Transaction.pre_save doc) ;;;
  modify (λ db, set_transactions db (<[id := doc]> (transactions db))) ;;;
  post_save doc.

End Transactions.

(** *** models/Budget.js: the methods *)

Module Budgets.

(** The unique index: another budget already holds the key of [b]. *)
Definition duplicate (id : ObjectId) (b : Budget.t) (db : DB) : bool :=
  existsb
    (λ p, negb (bool_decide (fst p = id))
          && bool_decide (Budget.key (snd p) = Budget.key b))
    (map_to_list (budgets db)).

(** [budget.save()]: validators, pre-save hook, then the write, which the
    unique index refuses when another budget holds the same key. *)
Definition save (id : ObjectId) (b : Budget.t) : M Budget.t :=
  check (Budget.validate b) ;;;
  check (Budget.pre_save b) ;;;
  dup <- gets (duplicate id b) ;;
  if (dup : bool) then throw DuplicateKeyError
  else
    modify (λ db, set_budgets db (<[id := b]> (budgets db))) ;;;
    ret b.

(** The [$match] stage of [updateSpent]. *)
Definition matches (this : Budget.t) (d : Transaction.t) : bool :=
  bool_decide (Transaction.userId d = Budget.userId this)
  && bool_decide (Transaction.categoryId d = Budget.categoryId this)
  && bool_decide (Transaction.type d = expense)
  && bool_decide (Transaction.status d = completed)
  && (Budget.startDate this <=? Transaction.date d)%Z
  && (Transaction.date d <=? Budget.endDate this)%Z.

(** [Transaction.aggregate([{ $match }, { $group: { _id: null,
    total: { $sum: "$amount" } } }])]: one group holding the total when a
    document matches, no group at all otherwise. The accumulator [$sum]
    belongs to the database: [total] stands for it, and receives the
    amounts of the matching documents in the order of the collection. *)
Definition aggregate (total : list Double.t → Double.t) (this : Budget.t)
    : M (list Double.t) :=
  gets (λ db,
    match List.filter (matches this) (snd <$> map_to_list (transactions db)) with
    | [] => []
    | docs => [total (Transaction.amount <$> docs)]
    end).

(** The first two statements of [updateSpent]: the aggregation, and the
    assignment [this.spent = result[0]?.total || 0]. *)
Definition updateSpent_assign (total : list Double.t → Double.t)
    (this : Budget.t) : M Budget.t :=
  result <- aggregate total this ;;
  ret (Budget.set_spent this (Double.or_zero (head result))).

(** [budgetSchema.methods.updateSpent]: the assignment, then [this.save()]. *)
Definition updateSpent (total : list Double.t → Double.t) (id : ObjectId)
    (this : Budget.t) : M Budget.t :=
  this <- updateSpent_assign total this ;;
  save id this.

End Budgets.

(** *** models/Goal.js: the methods *)

Module Goals.

(** [goal.save()] at the instant [now]. *)
Definition save (now : Date) (id : ObjectId) (g : Goal.t) : M Goal.t :=
  check (Goal.validate g) ;;;
  check (Goal.pre_save_targetDate now g) ;;;
  let g' := Goal.pre_save_status g in
  modify (λ db, set_goals db (<[id := g']> (goals db))) ;;;
  ret g'.

(** [goalSchema.methods.addContribution]. *)
Definition addContribution (now : Date) (id : ObjectId) (this : Goal.t)
    (amount : Double.t) (note : string) (source : Goal.Source) : M Goal.t :=
  save now id (Goal.contribute now this amount note source).

(** The filter of [processAutoSaves]. *)
Definition due (now : Date) (g : Goal.t) : bool :=
  Goal.AutoSave.enabled (Goal.autoSave g)
  && from_option (λ d, (d <=? now)%Z) false (Goal.AutoSave.nextDate (Goal.autoSave g))
  && bool_decide (Goal.status g = Goal.active).

(** The [try] block of the loop of [processAutoSaves] for one goal: the
    contribution is saved at the instant [t1], the new date at [t2]. A
    goal without a configured amount contributes [undefined], which the
    [required] validator of the contribution amount rejects. *)
Definition process_one_try (t1 t2 : Date) (id : ObjectId) (goal : Goal.t) : M unit :=
  goal <- match Goal.AutoSave.amount (Goal.autoSave goal) with
          | Some amount =>
              addContribution t1 id goal amount "Epargne automatique" Goal.auto_save
          | None => throw (ValidationError "Path `amount` is required.")
          end ;;
  let goal :=
    Goal.set_autoSave goal
      (Goal.AutoSave.set_nextDate (Goal.autoSave goal)
         (Goal.calculateNextAutoSave t2 goal)) in
  save t2 id goal ;;;
  ret tt.

(** The [try] / [catch] around it: the error is logged and dropped. *)
Definition process_one (t1 t2 : Date) (id : ObjectId) (goal : Goal.t) : M unit :=
  try_catch (process_one_try t1 t2 id goal) (λ _, ret tt).

(** The loop: the k-th goal is processed at the instants [clock k]. *)
Fixpoint process_all (clock : nat → Date * Date) (k : nat)
    (goalsToProcess : list (ObjectId * Goal.t)) : M unit :=
  match goalsToProcess with
  | [] => ret tt
  | (id, goal) :: rest =>
      process_one (fst (clock k)) (snd (clock k)) id goal ;;;
      process_all clock (S k) rest
  end.

(** [Goal.find({ "autoSave.enabled": true, "autoSave.nextDate": { $lte: now },
    status: "active" })]. *)
Definition find_due (now : Date) : M (list (ObjectId * Goal.t)) :=
  gets (λ db, map_to_list (filter (λ p, due now (snd p) = true) (goals db))).

(** [goalSchema.statics.processAutoSaves]. *)
Definition processAutoSaves (now : Date) (clock : nat → Date * Date) : M nat :=
  goalsToProcess <- find_due now ;;
  process_all clock 0 goalsToProcess ;;;
  ret (length goalsToProcess).

End Goals.

(** *** The vocabulary of the properties *)

(** The entry is accepted by [save]: the validators and the pre-save hook
    raise nothing. *)
Definition accepted (doc : Transaction.t) : Prop :=
  Transaction.validate doc = None ∧ Transaction.pre_save doc = None.

(** The account after [account.balance += amount] and after
    [account.balance -= amount]. *)
Definition credited (a : Account.t) (amount : Double.t) : Account.t :=
  Account.set_balance a (Double.add (Account.balance a) amount).

Definition debited (a : Account.t) (amount : Double.t) : Account.t :=
  Account.set_balance a (Double.sub (Account.balance a) amount).

(** The effect of the entry [doc], created under [id] in [db], on the
    accounts that exist: the account of an income is credited with the
    amount, that of an expense is debited; a transfer debits the source and,
    when the destination exists, credits it; an entry whose own account does
    not exist changes no account at all; no other account changes. *)
Definition effect_applied (id : ObjectId) (doc : Transaction.t) (db : DB) : Prop :=
  let db' := exec (Transactions.save id doc) db in
  let src := Transaction.accountId doc in
  let amount := Transaction.amount doc in
  (accounts db !! src = None → accounts db' = accounts db)
  ∧ match Transaction.type doc with
    | income =>
        (∀ a, accounts db !! src = Some a →
           accounts db' !! src = Some (credited a amount))
        ∧ (∀ j, j ≠ src → accounts db' !! j = accounts db !! j)
    | expense =>
        (∀ a, accounts db !! src = Some a →
           accounts db' !! src = Some (debited a amount))
        ∧ (∀ j, j ≠ src → accounts db' !! j = accounts db !! j)
    | transfer =>
        ∀ dst, Transaction.transferAccountId doc = Some dst →
          (∀ a, accounts db !! src = Some a →
             accounts db' !! src = Some (debited a amount)
             ∧ (∀ b, accounts db !! dst = Some b →
                  accounts db' !! dst = Some (credited b amount))
             ∧ (accounts db !! dst = None → accounts db' !! dst = None))
          ∧ (∀ j, j ≠ src → j ≠ dst → accounts db' !! j = accounts db !! j)
    end.

(** Every balance the effect of [doc] would write passes the validator of
    the balance: it is not negative. *)
Definition effect_affordable (doc : Transaction.t) (db : DB) : Prop :=
  let src := Transaction.accountId doc in
  let amount := Transaction.amount doc in
  match Transaction.type doc with
  | income =>
      ∀ a, accounts db !! src = Some a →
        Double.geb (Double.add (Account.balance a) amount) Double.zero = true
  | expense =>
      ∀ a, accounts db !! src = Some a →
        Double.geb (Double.sub (Account.balance a) amount) Double.zero = true
  | transfer =>
      (∀ a, accounts db !! src = Some a →
         Double.geb (Double.sub (Account.balance a) amount) Double.zero = true)
      ∧ (∀ dst b, Transaction.transferAccountId doc = Some dst →
           accounts db !! dst = Some b →
           Double.geb (Double.add (Account.balance b) amount) Double.zero = true)
  end.

(** A transfer seen as one atomic step: after the entry is saved either both
    sides are applied or no account at all has changed. *)
Definition transfer_atomic (id : ObjectId) (doc : Transaction.t) (db : DB) : Prop :=
  let db' := exec (Transactions.save id doc) db in
  ∀ dst a b,
    Transaction.transferAccountId doc = Some dst →
    accounts db !! Transaction.accountId doc = Some a →
    accounts db !! dst = Some b →
    (accounts db' !! Transaction.accountId doc
     = Some (debited a (Transaction.amount doc))
     ∧ accounts db' !! dst = Some (credited b (Transaction.amount doc)))
    ∨ accounts db' = accounts db.

(** The balance stored for account [i], if the account exists. *)
Definition balance_of (db : DB) (i : ObjectId) : option Double.t :=
  Account.balance <$> accounts db !! i.

(** The entries a budget counts, in the words of the specification: those of
    the budget's owner and category, of kind expense, completed, dated within
    the budget's period (bounds included). *)
Definition in_budget (b : Budget.t) (d : Transaction.t) : Prop :=
  Transaction.userId d = Budget.userId b
  ∧ Transaction.categoryId d = Budget.categoryId b
  ∧ Transaction.type d = expense
  ∧ Transaction.status d = completed
  ∧ (Budget.startDate b ≤ Transaction.date d ≤ Budget.endDate b)%Z.

Global Instance in_budget_dec b d : Decision (in_budget b d).
Proof. unfold in_budget. apply _. Defined.

(** The entries of the ledger, in the order of the collection. *)
Definition ledger (db : DB) : list Transaction.t :=
  snd <$> map_to_list (transactions db).

(** The amounts of the entries of the ledger that the budget counts. *)
Definition counted (b : Budget.t) (db : DB) : list Double.t :=
  Transaction.amount <$> filter (in_budget b) (ledger db).

(** [computeSpent(budget)]: the total of the counted amounts as the
    accumulator [total] of the database returns it, and 0 when no entry is
    counted or when that total is 0 or not a number. *)
Definition computeSpent (total : list Double.t → Double.t) (b : Budget.t)
    (db : DB) : Double.t :=
  match counted b db with
  | [] => Double.zero
  | amounts => if Double.truthy (total amounts) then total amounts else Double.zero
  end.



(** The arguments of one call of [addContribution], and its instant. *)
Record Call := mkCall {
  call_now : Date;
  call_amount : Double.t;
  call_note : string;
  call_source : Goal.Source
}.

(** A caller that loads the goal stored under [id] and contributes to it,
    answering an error instead of raising it; and a succession of such
    calls. *)
Definition contribute_stored (id : ObjectId) (c : Call) : M unit :=
  goal <- gets (λ db, goals db !! id) ;;
  match goal with
  | Some goal =>
      try_catch
        (Goals.addContribution (call_now c) id goal (call_amount c) (call_note c)
           (call_source c) ;;;
         ret tt)
        (λ _, ret tt)
  | None => ret tt
  end.

Fixpoint replay (id : ObjectId) (calls : list Call) : M unit :=
  match calls with
  | [] => ret tt
  | c :: calls => contribute_stored id c ;;; replay id calls
  end.

(** The goals a sweep at [now] selects. *)
Definition selected (now : Date) (db : DB) : list (ObjectId * Goal.t) :=
  map_to_list (filter (λ p, Goals.due now (snd p) = true) (goals db)).

(** The goal with the date of its next automatic saving recomputed. *)
Definition advance (now : Date) (g : Goal.t) : Goal.t :=
  Goal.set_autoSave g
    (Goal.AutoSave.set_nextDate (Goal.autoSave g) (Goal.calculateNextAutoSave now g)).

(** The contribution an automatic saving of [a] pushes at [t1]. *)
Definition auto_contribution (t1 : Date) (a : Double.t) : Goal.Contribution.t :=
  {| Goal.Contribution.amount := a;
     Goal.Contribution.note := "Epargne automatique";
     Goal.Contribution.source := Goal.auto_save;
     Goal.Contribution.date := t1 |}.

(** What the sweep writes under the id of a selected goal, if anything:
    nothing when the contribution is not saved; the goal with its
    contribution when only the contribution is saved; the goal with its
    contribution and its new date when both saves are accepted. *)
Definition processed (t1 t2 : Date) (goal : Goal.t) : option Goal.t :=
  match Goal.AutoSave.amount (Goal.autoSave goal) with
  | None => None
  | Some a =>
      let g1 := Goal.contribute t1 goal a "Epargne automatique" Goal.auto_save in
      match Goal.validate g1 with
      | Some _ => None
      | None =>
          if (Goal.targetDate goal <=? t1)%Z then None
          else if (Goal.targetDate goal <=? t2)%Z
          then Some (Goal.pre_save_status g1)
          else Some (advance t2 (Goal.pre_save_status g1))
      end
  end.

Definition write (id : ObjectId) (o : option Goal.t) (db : DB) : DB :=
  match o with
  | Some g => set_goals db (<[id := g]> (goals db))
  | None => db
  end.

(** A goal whose automatic saving fails keeps its stored state. *)
Definition failure_keeps_goal (t1 t2 : Date) (id : ObjectId) (goal : Goal.t)
    (db : DB) : Prop :=
  ∀ e db', Goals.process_one_try t1 t2 id goal db = (inl e, db') →
           goals db' !! id = goals db !! id.

(** The number of days of month [m] (0 = January) of a year that has
    [leap] leap days, and of the month the date [t] falls in. *)
Definition month_length (leap m : Z) : Z :=
  match m with
  | 0 => 31
  | 1 => 28 + leap
  | 2 => 31
  | 3 => 30
  | 4 => 31
  | 5 => 30
  | 6 => 31
  | 7 => 31
  | 8 => 30
  | 9 => 31
  | 10 => 30
  | _ => 31
  end%Z.

Definition days_in_month (t : Date) : Z :=
  month_length (Calendar.leapDays (Calendar.YearFromTime t))
    (Calendar.MonthFromTime t).

(** [next] is one calendar month after [d]: later by the days of the month
    of [d], at the same time of day, and on the same day of the following
    month whenever that day is the 28th or an earlier one. *)
Definition month_later (d next : Date) : Prop :=
  next = (d + days_in_month d * Calendar.msPerDay)%Z
  ∧ Calendar.TimeWithinDay next = Calendar.TimeWithinDay d
  ∧ ((Calendar.DateFromTime d <= 28)%Z →
     (Calendar.YearFromTime next * 12 + Calendar.MonthFromTime next
      = Calendar.YearFromTime d * 12 + Calendar.MonthFromTime d + 1)%Z
     ∧ Calendar.DateFromTime next = Calendar.DateFromTime d).

(** How far the next date of an automatic saving moves. *)
Definition moved (f : Goal.Frequency) (d next : Date) : Prop :=
  match f with
  | Goal.daily => next = (d + 1 * Calendar.msPerDay)%Z
  | Goal.weekly => next = (d + 7 * Calendar.msPerDay)%Z
  | Goal.monthly =>
      next = Calendar.setMonth d (Calendar.getMonth d + 1) ∧ month_later d next
  end.

(** *** Scenarios *)

Module Scenario.

Definition user : ObjectId := 1%nat.

(** A checking account of [user] holding [b]. *)
Definition checking_account (b : Double.t) : Account.t :=
  {| Account.userId := user; Account.type := checking;
     Account.balance := b; Account.isActive := true |}.

(** An entry of [user] of the given type and amount on account [src]. *)
Definition entry (ty : TransactionType) (src : ObjectId) (amt : Double.t)
    (dst : option ObjectId) : Transaction.t :=
  {| Transaction.userId := user; Transaction.accountId := src;
     Transaction.categoryId := 5%nat; Transaction.type := ty;
     Transaction.amount := amt; Transaction.date := 1700000000000%Z;
     Transaction.transferAccountId := dst; Transaction.status := completed |}.

Definition empty_db : DB :=
  {| accounts := ∅; transactions := ∅; budgets := ∅; goals := ∅ |}.

(** Account 10 holds 100 000 and the ledger is empty. *)
Definition db0 : DB :=
  set_accounts empty_db (<[10%nat := checking_account (Double.of_Z 100000)]> ∅).

(** Accounts 10 and 11 hold 100 and 0. *)
Definition db_two : DB :=
  set_accounts empty_db
    (<[10%nat := checking_account (Double.of_Z 100)]>
       (<[11%nat := checking_account Double.zero]> ∅)).

(** Account 10 holds 2^53 = 9 007 199 254 740 992. *)
Definition db_large : DB :=
  set_accounts empty_db
    (<[10%nat := checking_account (Double.of_Z 9007199254740992)]> ∅).

(** A monthly budget of 50 000 for category 5, and a ledger of four entries
    of which two count: 15 000 and 2 500. *)
Definition budget : Budget.t :=
  {| Budget.userId := user; Budget.categoryId := 5%nat;
     Budget.amount := Double.of_Z 50000; Budget.spent := Double.zero;
     Budget.startDate := 1698796800000%Z; Budget.endDate := 1701388799000%Z;
     Budget.alertThreshold := Double.of_Z 80; Budget.isActive := true |}.

Definition db_ledger : DB :=
  set_transactions db0
    (<[100%nat := entry expense 10%nat (Double.of_Z 15000) None]>
       (<[101%nat := entry expense 10%nat (Double.of_Z 2500) None]>
          (<[102%nat := entry income 10%nat (Double.of_Z 900) None]>
             (<[103%nat :=
                  {| Transaction.userId := user; Transaction.accountId := 10%nat;
                     Transaction.categoryId := 5%nat; Transaction.type := expense;
                     Transaction.amount := Double.of_Z 700;
                     Transaction.date := 1690000000000%Z;
                     Transaction.transferAccountId := None;
                     Transaction.status := completed |}]> ∅)))).


(** A budget of [amount] of which [spent] is spent. *)
Definition budget_of (spent amount : Double.t) : Budget.t :=
  {| Budget.userId := user; Budget.categoryId := 5%nat; Budget.amount := amount;
     Budget.spent := spent; Budget.startDate := 0%Z; Budget.endDate := 1%Z;
     Budget.alertThreshold := Double.of_Z 80; Budget.isActive := true |}.

(** A goal of 500 000 of which 450 000 are saved, with a milestone at
    480 000, due on 1 January 2030; 40 000 are saved automatically every
    month, next on 1 November 2023. *)
Definition goal : Goal.t :=
  {| Goal.userId := user; Goal.targetAmount := Double.of_Z 500000;
     Goal.currentAmount := Double.of_Z 450000; Goal.targetDate := 1893456000000%Z;
     Goal.status := Goal.active;
     Goal.autoSave :=
       {| Goal.AutoSave.enabled := true;
          Goal.AutoSave.amount := Some (Double.of_Z 40000);
          Goal.AutoSave.frequency := Goal.monthly;
          Goal.AutoSave.nextDate := Some 1698796800000%Z |};
     Goal.milestones :=
       [ {| Goal.Milestone.name := "96 %";
            Goal.Milestone.amount := Double.of_Z 480000;
            Goal.Milestone.achieved := false;
            Goal.Milestone.achievedDate := None |} ];
     Goal.contributions := [] |}.

(** The same goal, due on 1 December 2023. *)
Definition goal_due_soon : Goal.t :=
  {| Goal.userId := Goal.userId goal; Goal.targetAmount := Goal.targetAmount goal;
     Goal.currentAmount := Goal.currentAmount goal;
     Goal.targetDate := 1701388800000%Z;
     Goal.status := Goal.status goal; Goal.autoSave := Goal.autoSave goal;
     Goal.milestones := Goal.milestones goal;
     Goal.contributions := Goal.contributions goal |}.

(** The same goal, saving 50 000 a month. *)
Definition goal_generous : Goal.t :=
  Goal.set_autoSave goal
    {| Goal.AutoSave.enabled := true;
       Goal.AutoSave.amount := Some (Double.of_Z 50000);
       Goal.AutoSave.frequency := Goal.monthly;
       Goal.AutoSave.nextDate := Some 1698796800000%Z |}.

(** 15 November 2023, and 1 December 2023 at midnight. *)
Definition mid_november : Date := 1700006400000%Z.
Definition first_december : Date := 1701388800000%Z.

(** The last millisecond of November 2023. *)
Definition end_of_november : Date := 1701388799999%Z.

(** Goal 3 is due on 1 December 2023, goal 4 in 2030; both are to be saved
    automatically from 1 November 2023 on. *)
Definition db_goals : DB :=
  set_goals db0 (<[3%nat := goal_due_soon]> (<[4%nat := goal]> ∅)).

(** Each goal is contributed to in the last millisecond of November and saved
    again one millisecond later. *)
Definition clock (k : nat) : Date * Date := (end_of_november, first_december).

End Scenario.

End B64.
(** * The vocabulary of the specification *)

(** ** Ledger entries and balances *)

(** The entry is accepted by [save]: the validators and the pre-save hook
    raise nothing. *)
Definition accepted (doc : Transaction.t) : Prop :=
  Transaction.validate doc = None ∧ Transaction.pre_save doc = None.

(** The balance [updateBalance] computes before it checks it. *)
Definition new_balance (this : Account.t) (amount : Number)
    (operation : Accounts.Operation) : Number :=
  match operation with
  | Accounts.add => Account.balance this + amount
  | Accounts.subtract => Account.balance this - amount
  | Accounts.set => amount
  end.

(** The balance stored for account [i], if the account exists. *)
Definition balance_of (db : DB) (i : ObjectId) : option Number :=
  Account.balance <$> accounts db !! i.

(** The document [PUT /:id] saves for the stored entry [t]. *)
Definition edited (t : Transaction.t) (body : Routes.Body) : Transaction.t :=
  {| Transaction.userId := Transaction.userId t;
     Transaction.accountId := Routes.accountId body;
     Transaction.categoryId := Routes.categoryId body;
     Transaction.type := Transaction.type t;
     Transaction.amount := Routes.amount body;
     Transaction.date := default (Transaction.date t) (Routes.date body);
     Transaction.transferAccountId := Transaction.transferAccountId t;
     Transaction.status := Transaction.status t |}.

(** ** Budgets *)

(** The entries a budget counts, in the words of the specification: those of
    the budget's owner and category, of kind expense, completed, dated within
    the budget's period (bounds included). *)
Definition in_budget (b : Budget.t) (d : Transaction.t) : Prop :=
  Transaction.userId d = Budget.userId b
  ∧ Transaction.categoryId d = Budget.categoryId b
  ∧ Transaction.type d = expense
  ∧ Transaction.status d = completed
  ∧ (Budget.startDate b ≤ Transaction.date d ≤ Budget.endDate b)%Z.

Global Instance in_budget_dec b d : Decision (in_budget b d).
Proof. unfold in_budget. apply _. Defined.

(** The entries of the ledger. *)
Definition ledger (db : DB) : list Transaction.t :=
  snd <$> map_to_list (transactions db).

(** The sum of the amounts of the entries of [l] that satisfy [P]. *)
Fixpoint total_where (P : Transaction.t → Prop) `{∀ d, Decision (P d)}
    (l : list Transaction.t) : Number :=
  match l with
  | [] => 0
  | d :: l => if decide (P d) then Transaction.amount d + total_where P l
              else total_where P l
  end.

(** [computeSpent(budget)] of the specification. *)
Definition computeSpent (b : Budget.t) (db : DB) : Number :=
  total_where (in_budget b) (ledger db).

(** ** Goals *)

(** The goal with the date of its next automatic saving recomputed. *)
Definition advance (now : Date) (g : Goal.t) : Goal.t :=
  Goal.set_autoSave g
    (Goal.AutoSave.set_nextDate (Goal.autoSave g) (Goal.calculateNextAutoSave now g)).

(** What the sweep writes under the id of a selected goal, if anything:
    nothing when the contribution is not saved; the goal with its
    contribution when only the contribution is saved; the goal with its
    contribution and its new date when both saves are accepted. *)
Definition processed (t1 t2 : Date) (goal : Goal.t) : option Goal.t :=
  match Goal.AutoSave.amount (Goal.autoSave goal) with
  | None => None
  | Some a =>
      let g1 := Goal.contribute t1 goal a "Epargne automatique" Goal.auto_save in
      match Goal.validate g1 with
      | Some _ => None
      | None =>
          if (Goal.targetDate goal <=? t1)%Z then None
          else if (Goal.targetDate goal <=? t2)%Z
          then Some (Goal.pre_save_status g1)
          else Some (advance t2 (Goal.pre_save_status g1))
      end
  end.

Definition write (id : ObjectId) (o : option Goal.t) (db : DB) : DB :=
  match o with
  | Some g => set_goals db (<[id := g]> (goals db))
  | None => db
  end.

(** ** Scenarios *)

Module Scenario.

Definition user : ObjectId := 1%nat.

(** A checking account of [user] holding [b]. *)
Definition checking_account (b : Number) : Account.t :=
  {| Account.userId := user; Account.type := checking;
     Account.balance := b; Account.isActive := true |}.

(** An entry of [user] of the given type and amount on account [src]. *)
Definition entry (ty : TransactionType) (src : ObjectId) (amt : Number)
    (dst : option ObjectId) : Transaction.t :=
  {| Transaction.userId := user; Transaction.accountId := src;
     Transaction.categoryId := 5%nat; Transaction.type := ty;
     Transaction.amount := amt; Transaction.date := 1700000000000%Z;
     Transaction.transferAccountId := dst; Transaction.status := completed |}.

Definition empty_db : DB :=
  {| accounts := ∅; transactions := ∅; budgets := ∅; goals := ∅ |}.

(** Account 10 holds 100 000 and the ledger is empty. *)
Definition db0 : DB :=
  set_accounts empty_db (<[10%nat := checking_account 100000]> ∅).

(** Accounts 10 and 11 hold 100 and 0. *)
Definition db_two : DB :=
  set_accounts empty_db
    (<[10%nat := checking_account 100]> (<[11%nat := checking_account 0]> ∅)).

(** The request body that sets the amount of an entry of account 10. *)
Definition body (amt : Number) : Routes.Body :=
  {| Routes.accountId := 10%nat; Routes.categoryId := 5%nat;
     Routes.amount := amt; Routes.date := None |}.

(** An expense of 15 000 is recorded on account 10 of [db0] as entry 100 ... *)
Definition after_expense : DB :=
  exec (Transactions.save 100%nat (entry expense 10%nat 15000 None)) db0.

(** ... its amount is edited to 20 000 ... *)
Definition after_edit : DB :=
  snd (Routes.put user 100%nat (body 20000) after_expense).

(** ... and the entry is deleted. *)
Definition after_delete : DB :=
  snd (Routes.delete user 100%nat after_edit).

(** An expense of 60 is recorded on account 10 of [db_two] (which holds
    100), then its amount is edited to 10. *)
Definition after_small_expense : DB :=
  exec (Transactions.save 100%nat (entry expense 10%nat 60 None)) db_two.

Definition after_lowering : DB :=
  snd (Routes.put user 100%nat (body 10) after_small_expense).

(** A monthly budget of 50 000 for category 5, and a ledger of four entries
    of which two count: 15 000 and 2 500. *)
Definition budget : Budget.t :=
  {| Budget.userId := user; Budget.categoryId := 5%nat; Budget.amount := 50000;
     Budget.spent := 0; Budget.startDate := 1698796800000%Z;
     Budget.endDate := 1701388799000%Z; Budget.alertThreshold := 80;
     Budget.isActive := true |}.

Definition db_ledger : DB :=
  set_transactions db0
    (<[100%nat := entry expense 10%nat 15000 None]>
       (<[101%nat := entry expense 10%nat 2500 None]>
          (<[102%nat := entry income 10%nat 900 None]>
             (<[103%nat :=
                  {| Transaction.userId := user; Transaction.accountId := 10%nat;
                     Transaction.categoryId := 5%nat; Transaction.type := expense;
                     Transaction.amount := 700;
                     Transaction.date := 1690000000000%Z;
                     Transaction.transferAccountId := None;
                     Transaction.status := completed |}]> ∅)))).

(** A goal of 500 000 of which 450 000 are saved, with a milestone at
    480 000, due on 1 January 2030; 40 000 are saved automatically every
    month, next on 1 November 2023. *)
Definition goal : Goal.t :=
  {| Goal.userId := user; Goal.targetAmount := 500000;
     Goal.currentAmount := 450000; Goal.targetDate := 1893456000000%Z;
     Goal.status := Goal.active;
     Goal.autoSave :=
       {| Goal.AutoSave.enabled := true; Goal.AutoSave.amount := Some 40000;
          Goal.AutoSave.frequency := Goal.monthly;
          Goal.AutoSave.nextDate := Some 1698796800000%Z |};
     Goal.milestones :=
       [ {| Goal.Milestone.name := "96 %"; Goal.Milestone.amount := 480000;
            Goal.Milestone.achieved := false;
            Goal.Milestone.achievedDate := None |} ];
     Goal.contributions := [] |}.

(** The same goal, due on 1 December 2023. *)
Definition goal_due_soon : Goal.t :=
  {| Goal.userId := Goal.userId goal; Goal.targetAmount := Goal.targetAmount goal;
     Goal.currentAmount := Goal.currentAmount goal;
     Goal.targetDate := 1701388800000%Z;
     Goal.status := Goal.status goal; Goal.autoSave := Goal.autoSave goal;
     Goal.milestones := Goal.milestones goal;
     Goal.contributions := Goal.contributions goal |}.

(** 15 November 2023, and 1 December 2023 at midnight. *)
Definition mid_november : Date := 1700006400000%Z.
Definition first_december : Date := 1701388800000%Z.

(** The last millisecond of November 2023. *)
Definition end_of_november : Date := 1701388799999%Z.

(** Goal 3 is due on 1 December 2023, goal 4 in 2030; both are to be saved
    automatically from 1 November 2023 on. *)
Definition db_goals : DB :=
  set_goals db0 (<[3%nat := goal_due_soon]> (<[4%nat := goal]> ∅)).

(** Each goal is contributed to in the last millisecond of November and saved
    again one millisecond later. *)
Definition clock (k : nat) : Date * Date := (end_of_november, first_december).

End Scenario.


(** ** Further scenarios *)

Module Scenario2.

(** Accounts 10 and 11 hold 100 and 0, and entry 100 is an expense of 60 on
    account 10. *)
Definition db_entry : DB :=
  set_transactions Scenario.db_two
    (<[100%nat := Scenario.entry expense 10%nat 60 None]> ∅).



(** The budget of the scenarios is stored under id 7 beside the ledger. *)
Definition db_budget : DB :=
  set_budgets Scenario.db_ledger (<[7%nat := Scenario.budget]> ∅).

(** Goal 5 is due on 1 November 2023 and its automatic saving was due on 1
    October 2023. *)
Definition goal_late : Goal.t :=
  {| Goal.userId := Scenario.user; Goal.targetAmount := 500000;
     Goal.currentAmount := 450000; Goal.targetDate := 1698796800000%Z;
     Goal.status := Goal.active;
     Goal.autoSave :=
       {| Goal.AutoSave.enabled := true; Goal.AutoSave.amount := Some 40000;
          Goal.AutoSave.frequency := Goal.monthly;
          Goal.AutoSave.nextDate := Some 1696118400000%Z |};
     Goal.milestones := []; Goal.contributions := [] |}.

Definition db_late : DB :=
  set_goals Scenario.db0 (<[5%nat := goal_late]> ∅).

(** Every save of the sweep happens in mid November 2023. *)
Definition clock_november (k : nat) : Date * Date :=
  (Scenario.mid_november, Scenario.mid_november).

End Scenario2.

(** ** Frames *)

(** The computation [m] writes to no collection other than the accounts. *)
Definition writes_only_accounts {A} (m : M A) : Prop :=
  ∀ db, transactions (snd (m db)) = transactions db
        ∧ budgets (snd (m db)) = budgets db
        ∧ goals (snd (m db)) = goals db.

(** ** Budgets, refreshed *)

(** The budget [b] as [updateSpent] leaves it in memory before saving it. *)
Definition recomputed (b : Budget.t) (db : DB) : Budget.t :=
  match Budgets.updateSpent_assign b db with
  | (inr b', _) => b'
  | (inl _, _) => b
  end.

(** Every entry of the ledger passes the validators of its schema. *)
Definition valid_ledger (db : DB) : Prop :=
  ∀ i d, transactions db !! i = Some d → Transaction.validate d = None.
(** * Properties *)

(** ** Comparisons of numbers *)

Lemma ltb_true (x y : Number) : ltb x y = true ↔ x < y.
Proof.
  unfold ltb. rewrite negb_true_iff, <- not_true_iff_false, Qle_bool_iff.
  split; [apply Qnot_le_lt | apply Qlt_not_le].
Qed.

Lemma ltb_false (x y : Number) : ltb x y = false ↔ y <= x.
Proof. unfold ltb. rewrite negb_false_iff. apply Qle_bool_iff. Qed.


(** ** Saving an account *)

Section AccountSave.

Variables (id : ObjectId) (a : Account.t) (db : DB).

(** A balance that is not negative passes the validator, and the pre-save
    hook then has nothing to normalise. *)
Lemma Accounts_save_accepts :
  0 <= Account.balance a →
  Accounts.save id a db = (inr a, set_accounts db (<[id := a]> (accounts db))).
Proof.
  intros Hb. apply ltb_false in Hb.
  unfold Accounts.save, bind, check, Account.validate, Account.pre_save.
  rewrite Hb, andb_false_r. reflexivity.
Qed.

(** A negative balance is rejected by the validator, whatever the type,
    and nothing is written. *)
Lemma Accounts_save_rejects :
  Account.balance a < 0 →
  Accounts.save id a db =
    (inl (ValidationError "Le solde ne peut pas etre negatif"), db).
Proof.
  intros Hb. apply ltb_true in Hb.
  unfold Accounts.save, bind, check, Account.validate. rewrite Hb. reflexivity.
Qed.

End AccountSave.

(** ** The post-save hook of a transaction, case by case *)

Section PostSave.

Variables (doc : Transaction.t) (db : DB).

Local Abbreviation src := (Transaction.accountId doc).
Local Abbreviation amt := (Transaction.amount doc).

Lemma post_save_income a :
  Transaction.type doc = income → accounts db !! src = Some a →
  0 <= Account.balance a + amt →
  Transactions.post_save doc db =
    (inr tt, set_accounts db
               (<[src := Account.set_balance a (Account.balance a + amt)]>
                  (accounts db))).
Proof.
  intros Hty Ha Hb. unfold Transactions.post_save, try_catch,
    Transactions.post_save_try, bind at 1, Accounts.findById, gets.
  rewrite Ha, Hty. unfold bind. rewrite Accounts_save_accepts by exact Hb.
  reflexivity.
Qed.

Lemma post_save_expense a :
  Transaction.type doc = expense → accounts db !! src = Some a →
  0 <= Account.balance a - amt →
  Transactions.post_save doc db =
    (inr tt, set_accounts db
               (<[src := Account.set_balance a (Account.balance a - amt)]>
                  (accounts db))).
Proof.
  intros Hty Ha Hb. unfold Transactions.post_save, try_catch,
    Transactions.post_save_try, bind at 1, Accounts.findById, gets.
  rewrite Ha, Hty. unfold bind. rewrite Accounts_save_accepts by exact Hb.
  reflexivity.
Qed.

End PostSave.

Lemma Transactions_save_accepted id doc db :
  accepted doc →
  Transactions.save id doc db =
    Transactions.post_save doc
      (set_transactions db (<[id := doc]> (transactions db))).
Proof.
  intros [Hv Hp]. unfold Transactions.save, bind, check. rewrite Hv, Hp. reflexivity.
Qed.

(** ** The routes that edit and delete an entry *)

(** [DELETE /:id] never touches an account. *)
Lemma Routes_delete_accounts user id db :
  accounts (snd (Routes.delete user id db)) = accounts db.
Proof.
  unfold Routes.delete, Routes.handler, bind, Transactions.findOne, gets, modify, ret.
  destruct (transactions db !! id) as [d|]; [|reflexivity].
  case_bool_decide; reflexivity.
Qed.

(** [PUT /:id] changing the amount of an entry that stays on its account:
    the balance is first incremented by the difference of the amounts, then
    the edited entry is saved, which runs the post-save hook once more. *)
Lemma Routes_put_same_account user id body db t a :
  transactions db !! id = Some t → Transaction.userId t = user →
  Routes.accountId body = Transaction.accountId t →
  ¬ Routes.amount body == Transaction.amount t →
  accounts db !! Transaction.accountId t = Some a →
  accepted (edited t body) →
  Routes.put user id body db =
    (200%nat,
     exec (Transactions.save id (edited t body))
       (set_accounts db
          (<[Transaction.accountId t :=
               Account.set_balance a
                 (Account.balance a
                  + (Routes.amount body - Transaction.amount t))]> (accounts db)))).
Proof.
  intros Ht Hu Hsame Hneq Ha Hacc.
  unfold Routes.put, Routes.handler, bind at 1, Transactions.findOne, gets.
  rewrite Ht. rewrite bool_decide_eq_true_2 by exact Hu.
  rewrite bool_decide_eq_true_2 by exact Hsame. cbn [negb].
  assert (Hq : Qeq_bool (Routes.amount body) (Transaction.amount t) = false).
  { apply not_true_iff_false. rewrite Qeq_bool_iff. exact Hneq. }
  rewrite Hq. cbn [negb]. fold (edited t body).
  unfold bind at 1, Accounts.findByIdAndUpdate_inc, modify.
  rewrite Hsame, Ha. unfold exec, bind.
  destruct (Transactions.save id (edited t body) _) as [[e|[]] db'] eqn:Hs.
  - exfalso. rewrite (Transactions_save_accepted _ _ _ Hacc) in Hs.
    unfold Transactions.post_save, try_catch in Hs.
    destruct (Transactions.post_save_try _ _) as [[?|?] ?]; discriminate.
  - reflexivity.
Qed.

(** Editing the amount of an expense from [A] to [B] on the same account:
    whatever [B] is, the balance ends [A] below where it was, because the
    increment adds [B - A] and the hook then subtracts the whole of [B]. *)
Lemma Routes_put_expense_amount user id body db t a :
  transactions db !! id = Some t → Transaction.userId t = user →
  Transaction.type t = expense →
  Routes.accountId body = Transaction.accountId t →
  0.01 <= Routes.amount body →
  ¬ Routes.amount body == Transaction.amount t →
  accounts db !! Transaction.accountId t = Some a →
  0 <= Account.balance a - Transaction.amount t →
  ∃ db' a',
    Routes.put user id body db = (200%nat, db')
    ∧ accounts db' !! Transaction.accountId t = Some a'
    ∧ Account.balance a' == Account.balance a - Transaction.amount t.
Proof.
  intros Ht Hu Hty Hsame Hamt Hneq Ha Hb.
  assert (Hacc : accepted (edited t body)).
  { split.
    - unfold Transaction.validate. cbn [edited Transaction.amount].
      apply ltb_false in Hamt. rewrite Hamt. reflexivity.
    - unfold Transaction.pre_save. cbn [edited Transaction.type]. rewrite Hty.
      reflexivity. }
  rewrite (Routes_put_same_account user id body db t a) by assumption.
  eexists _, _. split; [reflexivity|].
  unfold exec. rewrite (Transactions_save_accepted _ _ _ Hacc).
  rewrite (post_save_expense (edited t body) _
             (Account.set_balance a
                (Account.balance a + (Routes.amount body - Transaction.amount t)))).
  - cbn [snd accounts set_accounts set_transactions edited Transaction.accountId].
    rewrite Hsame, lookup_insert_eq. split; [reflexivity|].
    cbn [Account.balance Account.set_balance edited Transaction.amount]. lra.
  - exact Hty.
  - cbn [accounts set_accounts set_transactions edited Transaction.accountId].
    rewrite Hsame. apply lookup_insert_eq.
  - cbn [Account.balance Account.set_balance edited Transaction.amount]. lra.
Qed.

(** The same edit on an income: the balance ends [2B - A] above. *)
Lemma Routes_put_income_amount user id body db t a :
  transactions db !! id = Some t → Transaction.userId t = user →
  Transaction.type t = income →
  Routes.accountId body = Transaction.accountId t →
  0.01 <= Routes.amount body →
  ¬ Routes.amount body == Transaction.amount t →
  accounts db !! Transaction.accountId t = Some a →
  0 <= Account.balance a + (Routes.amount body - Transaction.amount t)
       + Routes.amount body →
  ∃ db' a',
    Routes.put user id body db = (200%nat, db')
    ∧ accounts db' !! Transaction.accountId t = Some a'
    ∧ Account.balance a' ==
        Account.balance a + (2 * Routes.amount body - Transaction.amount t).
Proof.
  intros Ht Hu Hty Hsame Hamt Hneq Ha Hb.
  assert (Hacc : accepted (edited t body)).
  { split.
    - unfold Transaction.validate. cbn [edited Transaction.amount].
      apply ltb_false in Hamt. rewrite Hamt. reflexivity.
    - unfold Transaction.pre_save. cbn [edited Transaction.type]. rewrite Hty.
      reflexivity. }
  rewrite (Routes_put_same_account user id body db t a) by assumption.
  eexists _, _. split; [reflexivity|].
  unfold exec. rewrite (Transactions_save_accepted _ _ _ Hacc).
  rewrite (post_save_income (edited t body) _
             (Account.set_balance a
                (Account.balance a + (Routes.amount body - Transaction.amount t)))).
  - cbn [snd accounts set_accounts set_transactions edited Transaction.accountId].
    rewrite Hsame, lookup_insert_eq. split; [reflexivity|].
    cbn [Account.balance Account.set_balance edited Transaction.amount]. lra.
  - exact Hty.
  - cbn [accounts set_accounts set_transactions edited Transaction.accountId].
    rewrite Hsame. apply lookup_insert_eq.
  - cbn [Account.balance Account.set_balance edited Transaction.amount]. lra.
Qed.

(** ** C2: deleting an entry *)

(** C2 (the code departs from it). Account 10 holds 100 000; an expense of
    15 000 brings it to 85 000; [DELETE /:id] answers 200 and removes the
    entry, and the balance is still 85 000, not 100 000 again. *)
Theorem delete_keeps_balance :
  balance_of Scenario.db0 10%nat = Some 100000
  ∧ balance_of Scenario.after_expense 10%nat = Some 85000
  ∧ fst (Routes.delete Scenario.user 100%nat Scenario.after_expense) = 200%nat
  ∧ transactions (snd (Routes.delete Scenario.user 100%nat Scenario.after_expense))
      !! 100%nat = None
  ∧ balance_of (snd (Routes.delete Scenario.user 100%nat Scenario.after_expense))
      10%nat = Some 85000.
Proof.
  assert (H : balance_of Scenario.after_expense 10%nat = Some 85000)
    by (vm_compute; reflexivity).
  split; [reflexivity|]. split; [exact H|]. split; [reflexivity|].
  split; [reflexivity|].
  unfold balance_of. rewrite Routes_delete_accounts. exact H.
Qed.

(** ** C3: editing the amount of an entry *)

(** C3 (the code departs from it). The expense of 15 000 has left 85 000 on
    account 10; editing its amount to 20 000 answers 200 and stores the new
    amount, and the balance becomes 70 000: neither 80 000 (the old effect
    reversed, the new one applied) nor a change of 20 000 - 15 000. *)
Theorem edit_amount_applies_twice :
  balance_of Scenario.after_expense 10%nat = Some 85000
  ∧ fst (Routes.put Scenario.user 100%nat (Scenario.body 20000)
           Scenario.after_expense) = 200%nat
  ∧ Transaction.amount <$> transactions Scenario.after_edit !! 100%nat = Some 20000
  ∧ balance_of Scenario.after_edit 10%nat = Some 70000.
Proof. repeat split; vm_compute; reflexivity. Qed.

(** ** C4: the guard against a negative balance *)

Section UpdateBalance.

Variables (id : ObjectId) (this : Account.t) (amount : Number)
          (operation : Accounts.Operation) (db : DB).

(** On an account that is not a credit account, a negative result raises
    "Solde insuffisant" and nothing is written. *)
Lemma updateBalance_insufficient :
  Account.type this ≠ credit → new_balance this amount operation < 0 →
  Accounts.updateBalance id this amount operation db
  = (inl (HookError "Solde insuffisant"), db).
Proof.
  intros Hty Hneg. unfold Accounts.updateBalance.
  apply ltb_true in Hneg. unfold new_balance in Hneg.
  destruct operation; cbn [Account.set_balance Account.type Account.balance];
    rewrite bool_decide_eq_false_2 by exact Hty; cbn [negb andb];
    rewrite Hneg; reflexivity.
Qed.

(** A result that is not negative is written as it is. *)
Lemma updateBalance_accepted :
  0 <= new_balance this amount operation →
  Accounts.updateBalance id this amount operation db
  = (inr (Account.set_balance this (new_balance this amount operation)),
     set_accounts db
       (<[id := Account.set_balance this (new_balance this amount operation)]>
          (accounts db))).
Proof.
  intros Hpos. unfold Accounts.updateBalance.
  assert (Hb : ltb (new_balance this amount operation) 0 = false)
    by (apply ltb_false; exact Hpos).
  unfold new_balance in *.
  destruct operation; cbn [Account.set_balance Account.type Account.balance];
    rewrite Hb, andb_false_r; apply Accounts_save_accepts; exact Hpos.
Qed.

End UpdateBalance.

(** C4 (the code departs from it). Checking account 10 holds 100; an expense
    of 60 brings it to 40; editing the amount of that expense to 10 answers
    200 and leaves the account with a balance of -10: the route increments
    the stored balance by 10 - 60 with [findByIdAndUpdate], which runs
    neither the guard of [updateBalance] nor the validator of the schema,
    and the hook's own save of -20 is then rejected. *)
Theorem edit_leaves_negative_balance :
  balance_of Scenario.after_small_expense 10%nat = Some 40
  ∧ fst (Routes.put Scenario.user 100%nat (Scenario.body 10)
           Scenario.after_small_expense) = 200%nat
  ∧ Account.type <$> accounts Scenario.after_lowering !! 10%nat = Some checking
  ∧ balance_of Scenario.after_lowering 10%nat = Some (-10)
  ∧ -10 < 0.
Proof. repeat split; vm_compute; reflexivity. Qed.

(** ** The completed expenses of a budget *)

Lemma matches_in_budget this d : Budgets.matches this d = true ↔ in_budget this d.
Proof.
  unfold Budgets.matches, in_budget.
  rewrite !andb_true_iff, !bool_decide_eq_true, !Z.leb_le. tauto.
Qed.

(** The [$sum] of the [$match]ed documents is the sum the specification takes. *)
Lemma sum_amount_filter this l :
  Budgets.sum_amount (List.filter (Budgets.matches this) l)
  = total_where (in_budget this) l.
Proof.
  induction l as [|d l IH]; [reflexivity|].
  cbn [List.filter total_where].
  destruct (Budgets.matches this d) eqn:Hm.
  - rewrite decide_True by (apply matches_in_budget; exact Hm).
    cbn [Budgets.sum_amount fold_right]. fold (Budgets.sum_amount).
    unfold Budgets.sum_amount in IH |- *. rewrite IH. reflexivity.
  - rewrite decide_False; [exact IH|].
    intros Hin. apply matches_in_budget in Hin. congruence.
Qed.

Lemma total_where_nonneg P `{∀ d, Decision (P d)} (l : list Transaction.t) :
  (∀ d, d ∈ l → 0 <= Transaction.amount d) → 0 <= total_where P l.
Proof.
  induction l as [|d l IH]; intros Hl; cbn [total_where]; [lra|].
  assert (0 <= total_where P l) by (apply IH; intros; apply Hl; by right).
  assert (0 <= Transaction.amount d) by (apply Hl; by left).
  destruct (decide (P d)); lra.
Qed.

Lemma or_zero_head (l : list Number) s :
  l = [] ∧ s = 0 ∨ l = [s] → or_zero (head l) == s.
Proof.
  intros [[-> ->] | ->]; cbn [head or_zero]; [reflexivity|].
  destruct (Qeq_bool s 0) eqn:Hs; [|reflexivity].
  apply Qeq_bool_iff in Hs. symmetry. exact Hs.
Qed.

Lemma valid_amount_nonneg d : Transaction.validate d = None → 0 <= Transaction.amount d.
Proof.
  unfold Transaction.validate. destruct (ltb _ _) eqn:Hl; [discriminate|].
  apply ltb_false in Hl. intros _. lra.
Qed.

(** ** Rounding *)


(** ** Saving a goal *)

Section GoalSave.

Variables (now : Date) (id : ObjectId) (g : Goal.t) (db : DB).

(** A goal whose target date is not after [now] is never written. *)
Lemma Goals_save_overdue :
  (Goal.targetDate g <= now)%Z →
  ∃ e, Goals.save now id g db = (inl e, db)
       ∧ (Goal.validate g = None →
          e = HookError "La date cible doit etre dans le futur").
Proof.
  intros Hdue. unfold Goals.save, bind, check, Goal.pre_save_targetDate.
  destruct (Goal.validate g) as [e|].
  - exists e. split; [reflexivity | discriminate].
  - apply Z.leb_le in Hdue. rewrite Hdue. eexists. split; reflexivity.
Qed.

End GoalSave.

(** The outcome of a save, in one equation. *)
Lemma Goals_save_eq now id g db :
  Goals.save now id g db
  = match Goal.validate g with
    | Some e => (inl e, db)
    | None =>
        if (Goal.targetDate g <=? now)%Z
        then (inl (HookError "La date cible doit etre dans le futur"), db)
        else (inr (Goal.pre_save_status g),
              set_goals db (<[id := Goal.pre_save_status g]> (goals db)))
    end.
Proof.
  unfold Goals.save, bind, check, Goal.pre_save_targetDate.
  destruct (Goal.validate g); [reflexivity|].
  destruct (Goal.targetDate g <=? now)%Z; reflexivity.
Qed.

(** ** C10: a goal whose target date has passed takes no contribution *)

(** C10. Every save of a goal checks that its target date is after the
    current instant. Hence, for a goal whose target date is not after [now],
    [addContribution] fails, with the error of the target date when the
    validators of the schema pass, and stores nothing, whatever the amount;
    so does a plain [save]; and the automatic saving of that goal leaves the
    database as it was. *)
Theorem overdue_goal_takes_nothing now id this amount note source db :
  (Goal.targetDate this <= now)%Z →
  (∃ e, Goals.addContribution now id this amount note source db = (inl e, db)
        ∧ (Goal.validate (Goal.contribute now this amount note source) = None →
           e = HookError "La date cible doit etre dans le futur"))
  ∧ (∃ e, Goals.save now id this db = (inl e, db))
  ∧ (∀ t2, Goals.process_one now t2 id this db = (inr tt, db)).
Proof.
  intros Hdue. split; [|split].
  - unfold Goals.addContribution. apply Goals_save_overdue. exact Hdue.
  - destruct (Goals_save_overdue now id this db Hdue) as (e & He & _).
    exists e. exact He.
  - intros t2. unfold Goals.process_one, try_catch, Goals.process_one_try, bind at 1.
    destruct (Goal.AutoSave.amount (Goal.autoSave this)) as [a|]; [|reflexivity].
    unfold Goals.addContribution.
    destruct (Goals_save_overdue now id
                (Goal.contribute now this a "Epargne automatique" Goal.auto_save)
                db Hdue) as (e & -> & _).
    reflexivity.
Qed.

(** The theorem at work: on 1 December 2023 the goal due that day refuses a
    contribution of 40 000, and the goal stored under id 3 is untouched. *)
Lemma overdue_goal_takes_nothing_witness :
  let db := set_goals Scenario.db0 (<[3%nat := Scenario.goal_due_soon]> ∅) in
  (Goal.targetDate Scenario.goal_due_soon <= Scenario.first_december)%Z
  ∧ Goals.addContribution Scenario.first_december 3%nat Scenario.goal_due_soon
      40000 "" Goal.manual db
    = (inl (HookError "La date cible doit etre dans le futur"), db).
Proof.
  cbv zeta.
  assert (H : (Goal.targetDate Scenario.goal_due_soon <= Scenario.first_december)%Z)
    by (vm_compute; discriminate).
  split; [exact H|].
  destruct (proj1 (overdue_goal_takes_nothing Scenario.first_december 3%nat
                     Scenario.goal_due_soon 40000 "" Goal.manual
                     (set_goals Scenario.db0 (<[3%nat := Scenario.goal_due_soon]> ∅))
                     H)) as (e & -> & He).
  rewrite He by reflexivity. reflexivity.
Defined.

(** ** The calendar *)

Section CalendarFacts.

Import Calendar.
Local Open Scope Z_scope.

(** A year has 365 or 366 days. *)
Lemma leapDays_range y : 0 <= leapDays y <= 1.
Proof.
  unfold leapDays, DaysInYear, DayFromYear.
  replace (y + 1 - 1970) with (y - 1969) by lia.
  replace (y + 1 - 1969) with (y - 1968) by lia.
  replace (y + 1 - 1901) with (y - 1900) by lia.
  replace (y + 1 - 1601) with (y - 1600) by lia.
  Z.div_mod_to_equations. lia.
Qed.

(** [YearFromTime] is the year the day falls in. *)
Lemma YearFromTime_spec t :
  DayFromYear (YearFromTime t) <= Day t < DayFromYear (YearFromTime t + 1).
Proof.
  unfold YearFromTime. generalize (Day t). intros d. cbv zeta.
  destruct (Z.ltb_spec d (DayFromYear (1970 + d * 400 / 146097))) as [H1|H1];
    [|destruct (Z.leb_spec (DayFromYear (1970 + d * 400 / 146097 + 1)) d)
        as [H2|H2]].
  all: unfold DayFromYear in *.
  all: Z.div_mod_to_equations; lia.
Qed.

Lemma MonthFromTime_range t : 0 <= MonthFromTime t <= 11.
Proof.
  unfold MonthFromTime.
  repeat match goal with |- context [if ?c then _ else _] => destruct c end; lia.
Qed.

Lemma MakeDay_in_year Y M D :
  0 <= M <= 11 → MakeDay Y M D = DayFromYear Y + monthStart (leapDays Y) M + D - 1.
Proof.
  intros HM. unfold MakeDay.
  rewrite Z.div_small, Z.mod_small, Z.add_0_r by lia. reflexivity.
Qed.

Lemma MakeDay_january_next Y D : MakeDay Y 12 D = DayFromYear (Y + 1) + D - 1.
Proof.
  unfold MakeDay. change (12 / 12) with 1. change (12 mod 12) with 0.
  cbn [monthStart]. lia.
Qed.

(** A month other than December has 28 to 31 days. *)
Lemma monthStart_succ L M :
  0 <= M <= 10 → 0 <= L <= 1 → 28 <= monthStart L (M + 1) - monthStart L M <= 31.
Proof.
  intros HM HL.
  assert (HMc : M = 0 ∨ M = 1 ∨ M = 2 ∨ M = 3 ∨ M = 4 ∨ M = 5 ∨ M = 6 ∨ M = 7
                ∨ M = 8 ∨ M = 9 ∨ M = 10) by lia.
  destruct HMc
    as [-> | [-> | [-> | [-> | [-> | [-> | [-> | [-> | [-> | [-> | ->]]]]]]]]]];
    match goal with
    | |- context [monthStart L (?m + 1)] =>
        let v := eval vm_compute in (m + 1) in change (m + 1) with v
    end; cbn [monthStart]; lia.
Qed.

Lemma split_time t : t = Day t * msPerDay + TimeWithinDay t.
Proof.
  unfold Day, TimeWithinDay, msPerDay. pose proof (Z.div_mod t 86400000). lia.
Qed.

(** [d.setDate(d.getDate() + n)] is [n] days later. *)
Lemma setDate_getDate_plus t n : setDate t (getDate t + n) = t + n * msPerDay.
Proof.
  unfold setDate, getDate, MakeDate.
  rewrite MakeDay_in_year by apply MonthFromTime_range.
  unfold DateFromTime, DayWithinYear. pose proof (split_time t) as Hs.
  revert Hs. generalize (Day t) (TimeWithinDay t). unfold msPerDay. lia.
Qed.

(** [d.setMonth(d.getMonth() + 1)] is later by the length of the month of
    [d], the same time of day. *)
Lemma setMonth_getMonth_succ t :
  ∃ k, 28 <= k <= 31 ∧ setMonth t (getMonth t + 1) = t + k * msPerDay.
Proof.
  unfold setMonth, getMonth, MakeDate.
  pose proof (MonthFromTime_range t) as HM.
  pose proof (leapDays_range (YearFromTime t)) as HL.
  destruct (Z.eq_dec (MonthFromTime t) 11) as [H11 | H11].
  - exists 31. split; [lia|]. unfold DateFromTime, DayWithinYear.
    rewrite H11, MakeDay_january_next. cbn [monthStart].
    unfold leapDays, DaysInYear in *. pose proof (split_time t) as Hs.
    revert Hs. generalize (Day t) (TimeWithinDay t). unfold msPerDay. lia.
  - exists (monthStart (leapDays (YearFromTime t)) (MonthFromTime t + 1)
            - monthStart (leapDays (YearFromTime t)) (MonthFromTime t)).
    split; [apply monthStart_succ; lia|].
    rewrite MakeDay_in_year by lia. unfold DateFromTime, DayWithinYear.
    pose proof (split_time t) as Hs.
    revert Hs. generalize (Day t) (TimeWithinDay t). unfold msPerDay. lia.
Qed.

End CalendarFacts.

(** ** One goal of the sweep of the automatic savings *)

Lemma validate_advance t g :
  Goal.validate (advance t (Goal.pre_save_status g)) = Goal.validate g.
Proof.
  unfold advance, Goal.pre_save_status.
  destruct (geb _ _ && bool_decide _); reflexivity.
Qed.

Lemma targetDate_advance t g :
  Goal.targetDate (advance t (Goal.pre_save_status g)) = Goal.targetDate g.
Proof.
  unfold advance, Goal.pre_save_status.
  destruct (geb _ _ && bool_decide _); reflexivity.
Qed.

(** The second pre-save hook has nothing left to do on a goal it has already
    seen, whatever its next date has become. *)
Lemma pre_save_status_advance t g :
  Goal.pre_save_status (advance t (Goal.pre_save_status g))
  = advance t (Goal.pre_save_status g).
Proof.
  unfold Goal.pre_save_status at 1 3.
  destruct (geb (Goal.currentAmount g) (Goal.targetAmount g)) eqn:Hge;
    destruct (bool_decide (Goal.status g = Goal.active)) eqn:Hst;
    cbn [andb]; unfold Goal.pre_save_status;
    cbn [advance Goal.set_autoSave Goal.set_status Goal.currentAmount
         Goal.targetAmount Goal.status];
    rewrite ?Hge, ?Hst, ?andb_false_r; cbn [andb]; try reflexivity.
  all: rewrite ?Hge, ?Hst, ?andb_false_r; reflexivity.
Qed.

(** Processing one selected goal never raises, and writes [processed]. *)
Lemma process_one_spec t1 t2 id goal db :
  Goals.process_one t1 t2 id goal db = (inr tt, write id (processed t1 t2 goal) db).
Proof.
  unfold Goals.process_one, try_catch, Goals.process_one_try, bind, processed.
  destruct (Goal.AutoSave.amount (Goal.autoSave goal)) as [a|]; [|reflexivity].
  unfold Goals.addContribution. cbv zeta.
  set (g1 := Goal.contribute t1 goal a "Epargne automatique" Goal.auto_save).
  assert (Htd : Goal.targetDate g1 = Goal.targetDate goal) by reflexivity.
  rewrite Goals_save_eq, Htd.
  destruct (Goal.validate g1) as [e|] eqn:Hv; [reflexivity|].
  destruct (Goal.targetDate goal <=? t1)%Z eqn:H1; [reflexivity|].
  fold (advance t2 (Goal.pre_save_status g1)).
  rewrite Goals_save_eq, validate_advance, Hv, targetDate_advance, Htd.
  destruct (Goal.targetDate goal <=? t2)%Z eqn:H2; [reflexivity|].
  rewrite pre_save_status_advance. unfold ret, write, set_goals.
  cbn [accounts transactions budgets goals].
  rewrite insert_insert_eq. reflexivity.
Qed.


(** * Further properties of the code *)

(** ** Saving a transaction *)

Section Frames.

Context {A B : Type}.

Lemma woa_ret (x : A) : writes_only_accounts (ret x).
Proof. intros db. repeat split. Qed.

Lemma woa_gets (f : DB → A) : writes_only_accounts (gets f).
Proof. intros db. repeat split. Qed.

Lemma woa_bind (m : M A) (k : A → M B) :
  writes_only_accounts m → (∀ x, writes_only_accounts (k x)) →
  writes_only_accounts (bind m k).
Proof.
  intros Hm Hk db. unfold bind. specialize (Hm db).
  destruct (m db) as [[e|x] db1]; cbn [snd] in *; [exact Hm|].
  destruct (Hk x db1) as (Ht & Hb & Hg), Hm as (Ht' & Hb' & Hg').
  rewrite Ht, Hb, Hg. repeat split; assumption.
Qed.

Lemma woa_try_catch (m : M A) (h : Error → M A) :
  writes_only_accounts m → (∀ e, writes_only_accounts (h e)) →
  writes_only_accounts (try_catch m h).
Proof.
  intros Hm Hh db. unfold try_catch. specialize (Hm db).
  destruct (m db) as [[e|x] db1]; cbn [snd] in *; [|exact Hm].
  destruct (Hh e db1) as (Ht & Hb & Hg), Hm as (Ht' & Hb' & Hg').
  rewrite Ht, Hb, Hg. repeat split; assumption.
Qed.

End Frames.

Lemma woa_Accounts_save id a : writes_only_accounts (Accounts.save id a).
Proof.
  intros db. unfold Accounts.save, bind, check, modify, ret.
  destruct (Account.validate a); repeat split.
Qed.

(** The post-save hook never raises and writes nothing but accounts. *)
Lemma post_save_frame doc db :
  ∃ db', Transactions.post_save doc db = (inr tt, db')
         ∧ transactions db' = transactions db
         ∧ budgets db' = budgets db ∧ goals db' = goals db.
Proof.
  assert (Hw : writes_only_accounts (Transactions.post_save doc)).
  { unfold Transactions.post_save, Transactions.post_save_try.
    apply woa_try_catch; [|intros; apply woa_ret].
    apply woa_bind; [apply woa_gets|]. intros [account|]; [|apply woa_ret].
    destruct (Transaction.type doc).
    - apply woa_bind; [apply woa_Accounts_save | intros; apply woa_ret].
    - apply woa_bind; [apply woa_Accounts_save | intros; apply woa_ret].
    - apply woa_bind.
      + destruct (Transaction.transferAccountId doc); [apply woa_gets | apply woa_ret].
      + intros destinationAccount. apply woa_bind.
        * destruct (Transaction.transferAccountId doc), destinationAccount;
            try apply woa_ret.
          apply woa_bind; [apply woa_Accounts_save | intros; apply woa_ret].
        * intros _. apply woa_bind; [apply woa_Accounts_save | intros; apply woa_ret]. }
  specialize (Hw db). unfold Transactions.post_save, try_catch, ret in *.
  destruct (Transactions.post_save_try doc db) as [[e|[]] db']; exists db';
    (split; [reflexivity | exact Hw]).
Qed.

(** A transaction that the validators or the pre-save hook refuse leaves the
    database as it was; one they accept is always stored under its id and
    its save succeeds, whatever becomes of the balances, and neither the
    other entries nor the budgets nor the goals change. *)
Theorem Transactions_save_outcome id doc db :
  (¬ accepted doc → ∃ e, Transactions.save id doc db = (inl e, db))
  ∧ (accepted doc →
     ∃ db', Transactions.save id doc db = (inr tt, db')
            ∧ transactions db' = <[id := doc]> (transactions db)
            ∧ budgets db' = budgets db ∧ goals db' = goals db).
Proof.
  split.
  - intros Hno. unfold accepted in Hno. unfold Transactions.save, bind, check.
    destruct (Transaction.validate doc) as [e|]; [exists e; reflexivity|].
    destruct (Transaction.pre_save doc) as [e|]; [exists e; reflexivity|].
    exfalso. apply Hno. split; reflexivity.
  - intros Hacc. rewrite (Transactions_save_accepted _ _ _ Hacc).
    destruct (post_save_frame doc
                (set_transactions db (<[id := doc]> (transactions db))))
      as (db' & -> & Ht & Hb & Hg).
    exists db'. split; [reflexivity|]. rewrite Ht, Hb, Hg. repeat split.
Qed.

(** The theorem at work: an expense of 150 on the account holding 100 is
    stored although the account cannot afford it. *)
Lemma Transactions_save_outcome_witness :
  let doc := Scenario.entry expense 10%nat 150 None in
  accepted doc
  ∧ ∃ db', Transactions.save 100%nat doc Scenario.db_two = (inr tt, db')
           ∧ transactions db' = <[100%nat := doc]> (transactions Scenario.db_two).
Proof.
  cbv zeta.
  assert (H : accepted (Scenario.entry expense 10%nat 150 None))
    by (split; reflexivity).
  split; [exact H|].
  destruct (proj2 (Transactions_save_outcome 100%nat
                     (Scenario.entry expense 10%nat 150 None) Scenario.db_two) H)
    as (db' & Hrun & Ht & _).
  exists db'. split; assumption.
Defined.

(** The balances a saved entry leaves depend on its account, its type, its
    amount and its destination only: an entry that is pending or cancelled
    moves the balances exactly as a completed one, whatever its date and its
    category. *)
Theorem post_save_ignores_status doc doc' db :
  Transaction.accountId doc' = Transaction.accountId doc →
  Transaction.type doc' = Transaction.type doc →
  Transaction.amount doc' = Transaction.amount doc →
  Transaction.transferAccountId doc' = Transaction.transferAccountId doc →
  Transactions.post_save doc' db = Transactions.post_save doc db.
Proof.
  intros Ha Ht Hm Hd.
  unfold Transactions.post_save, Transactions.post_save_try.
  rewrite Ha, Ht, Hm, Hd. reflexivity.
Qed.

(** The theorem at work: a cancelled expense of 60 debits the account like a
    completed one. *)
Lemma post_save_ignores_status_witness :
  let doc := Scenario.entry expense 10%nat 60 None in
  let doc' :=
    {| Transaction.userId := Transaction.userId doc;
       Transaction.accountId := Transaction.accountId doc;
       Transaction.categoryId := Transaction.categoryId doc;
       Transaction.type := Transaction.type doc;
       Transaction.amount := Transaction.amount doc;
       Transaction.date := Transaction.date doc;
       Transaction.transferAccountId := Transaction.transferAccountId doc;
       Transaction.status := cancelled |} in
  Transactions.post_save doc' Scenario.db_two
  = Transactions.post_save doc Scenario.db_two
  ∧ balance_of (exec (Transactions.post_save doc') Scenario.db_two) 10%nat = Some 40.
Proof.
  cbv zeta. split.
  - apply post_save_ignores_status; reflexivity.
  - vm_compute. reflexivity.
Defined.

(** ** [PUT /:id] and [DELETE /:id] of the transactions *)

Lemma findOne_found id user db t :
  transactions db !! id = Some t → Transaction.userId t = user →
  Transactions.findOne id user db = (inr (Some t), db).
Proof.
  intros Ht Hu. unfold Transactions.findOne, gets.
  rewrite Ht, bool_decide_eq_true_2 by exact Hu. reflexivity.
Qed.

Lemma findOne_missing id user db :
  (transactions db !! id = None
   ∨ ∃ t, transactions db !! id = Some t ∧ Transaction.userId t ≠ user) →
  Transactions.findOne id user db = (inr None, db).
Proof.
  intros [Hn | (t & Ht & Hu)]; unfold Transactions.findOne, gets.
  - rewrite Hn. reflexivity.
  - rewrite Ht, bool_decide_eq_false_2 by exact Hu. reflexivity.
Qed.

(** [PUT /:id] answers 404 and changes nothing when the entry does not exist
    or belongs to another user, and when the entry is to move to an account
    that does not exist or belongs to another user. *)
Theorem Routes_put_not_found user id body db :
  ((transactions db !! id = None
    ∨ ∃ t, transactions db !! id = Some t ∧ Transaction.userId t ≠ user) →
   Routes.put user id body db = (404%nat, db))
  ∧ (∀ t, transactions db !! id = Some t → Transaction.userId t = user →
       Routes.accountId body ≠ Transaction.accountId t →
       (accounts db !! Routes.accountId body = None
        ∨ ∃ b, accounts db !! Routes.accountId body = Some b
               ∧ Account.userId b ≠ user) →
       Routes.put user id body db = (404%nat, db)).
Proof.
  split.
  - intros Hmiss. unfold Routes.put, Routes.handler, bind.
    rewrite (findOne_missing _ _ _ Hmiss). reflexivity.
  - intros t Ht Hu Hne Hacc. unfold Routes.put, Routes.handler, bind at 1.
    rewrite (findOne_found _ _ _ _ Ht Hu).
    rewrite bool_decide_eq_false_2 by exact Hne. cbn [negb].
    unfold bind at 1, gets.
    destruct Hacc as [Hn | (b & Hb & Hbu)].
    + rewrite Hn. reflexivity.
    + rewrite Hb, bool_decide_eq_false_2 by exact Hbu. reflexivity.
Qed.

(** The theorem at work: user 2 cannot edit entry 100 of user 1. *)
Lemma Routes_put_not_found_witness :
  (∃ t, transactions Scenario2.db_entry !! 100%nat = Some t
        ∧ Transaction.userId t ≠ 2%nat)
  ∧ Routes.put 2%nat 100%nat (Scenario.body 10) Scenario2.db_entry
    = (404%nat, Scenario2.db_entry).
Proof.
  assert (H : ∃ t, transactions Scenario2.db_entry !! 100%nat = Some t
                   ∧ Transaction.userId t ≠ 2%nat).
  { eexists. split; [reflexivity|]. discriminate. }
  split; [exact H|].
  apply (proj1 (Routes_put_not_found 2%nat 100%nat (Scenario.body 10)
                  Scenario2.db_entry)).
  right. exact H.
Defined.

(** [DELETE /:id] removes the entry of that id when it belongs to the user,
    and no other entry; it answers 404 and changes nothing when the entry
    does not exist or belongs to another user; in no case does it change an
    account, a budget or a goal. *)
Theorem Routes_delete_outcome user id db :
  (∀ t, transactions db !! id = Some t → Transaction.userId t = user →
     ∃ db', Routes.delete user id db = (200%nat, db')
            ∧ transactions db' !! id = None
            ∧ ∀ j, j ≠ id → transactions db' !! j = transactions db !! j)
  ∧ ((transactions db !! id = None
      ∨ ∃ t, transactions db !! id = Some t ∧ Transaction.userId t ≠ user) →
     Routes.delete user id db = (404%nat, db))
  ∧ accounts (snd (Routes.delete user id db)) = accounts db
  ∧ budgets (snd (Routes.delete user id db)) = budgets db
  ∧ goals (snd (Routes.delete user id db)) = goals db.
Proof.
  split; [|split].
  - intros t Ht Hu. unfold Routes.delete, Routes.handler, bind.
    rewrite (findOne_found _ _ _ _ Ht Hu). unfold modify, ret.
    eexists. split; [reflexivity|]. cbn [transactions set_transactions].
    split; [apply lookup_delete_eq|]. intros j Hj. apply lookup_delete_ne. congruence.
  - intros Hmiss. unfold Routes.delete, Routes.handler, bind.
    rewrite (findOne_missing _ _ _ Hmiss). reflexivity.
  - unfold Routes.delete, Routes.handler, bind, Transactions.findOne, gets, modify,
      ret.
    destruct (transactions db !! id) as [d|]; [|repeat split].
    case_bool_decide; repeat split.
Qed.

(** The theorem at work: the owner deletes entry 100. *)
Lemma Routes_delete_outcome_witness :
  ∃ db', Routes.delete Scenario.user 100%nat Scenario2.db_entry = (200%nat, db')
         ∧ transactions db' !! 100%nat = None.
Proof.
  destruct (proj1 (Routes_delete_outcome Scenario.user 100%nat Scenario2.db_entry)
              (Scenario.entry expense 10%nat 60 None) eq_refl eq_refl)
    as (db' & Hrun & Hgone & _).
  exists db'. split; assumption.
Defined.

(** ** The virtuals of a budget *)




(** ** The routes of the budgets *)

Lemma Budgets_save_eq id b db :
  Budgets.save id b db
  = match Budget.validate b with
    | Some e => (inl e, db)
    | None =>
        match Budget.pre_save b with
        | Some e => (inl e, db)
        | None => (inr b, set_budgets db (<[id := b]> (budgets db)))
        end
    end.
Proof.
  unfold Budgets.save, bind, check.
  destruct (Budget.validate b); [reflexivity|].
  destruct (Budget.pre_save b); reflexivity.
Qed.

Lemma updateSpent_recomputed id b db :
  Budgets.updateSpent id b db = Budgets.save id (recomputed b db) db.
Proof. reflexivity. Qed.

(** What [updateSpent] assigns: only [spent] changes, and it becomes the sum
    the specification of the budget asks for. *)
Lemma recomputed_spec b db :
  ∃ s, recomputed b db = Budget.set_spent b s
       ∧ s == computeSpent b db
       ∧ (valid_ledger db → 0 <= s).
Proof.
  unfold recomputed, Budgets.updateSpent_assign, bind, Budgets.aggregate, gets, ret.
  fold (ledger db).
  set (result := match List.filter _ _ with [] => [] | _ => _ end).
  exists (or_zero (head result)). split; [reflexivity|].
  assert (Hres : or_zero (head result) == computeSpent b db).
  { unfold computeSpent. rewrite <- sum_amount_filter. apply or_zero_head.
    subst result. destruct (List.filter _ _); [left | right]; split; reflexivity. }
  split; [exact Hres|]. intros Hledger. rewrite Hres.
  apply total_where_nonneg. intros d Hd. apply valid_amount_nonneg.
  unfold ledger in Hd. apply list_elem_of_fmap in Hd as ([i d'] & -> & Hd).
  apply elem_of_map_to_list in Hd. exact (Hledger i d' Hd).
Qed.

(** Recomputing a recomputed budget over the same ledger changes nothing. *)
Lemma recomputed_again b db db' :
  transactions db' = transactions db →
  recomputed (recomputed b db) db' = recomputed b db.
Proof.
  intros Ht.
  unfold recomputed, Budgets.updateSpent_assign, bind, Budgets.aggregate, gets, ret.
  rewrite Ht. reflexivity.
Qed.

Lemma BudgetRoutes_findOne_found id user db b :
  budgets db !! id = Some b → Budget.userId b = user →
  BudgetRoutes.findOne id user db = (inr (Some b), db).
Proof.
  intros Hb Hu. unfold BudgetRoutes.findOne, gets.
  rewrite Hb, bool_decide_eq_true_2 by exact Hu. reflexivity.
Qed.

Lemma BudgetRoutes_findOne_missing id user db :
  (budgets db !! id = None
   ∨ ∃ b, budgets db !! id = Some b ∧ Budget.userId b ≠ user) →
  BudgetRoutes.findOne id user db = (inr None, db).
Proof.
  intros [Hn | (b & Hb & Hu)]; unfold BudgetRoutes.findOne, gets.
  - rewrite Hn. reflexivity.
  - rewrite Hb, bool_decide_eq_false_2 by exact Hu. reflexivity.
Qed.

Lemma BudgetRoutes_refresh_eq user id db :
  BudgetRoutes.refresh user id db
  = match budgets db !! id with
    | Some b =>
        if bool_decide (Budget.userId b = user)
        then match Budget.validate (recomputed b db),
                   Budget.pre_save (recomputed b db) with
             | None, None =>
                 (200%nat, set_budgets db (<[id := recomputed b db]> (budgets db)))
             | _, _ => (500%nat, db)
             end
        else (404%nat, db)
    | None => (404%nat, db)
    end.
Proof.
  unfold BudgetRoutes.refresh, Routes.handler, bind, BudgetRoutes.findOne, gets.
  destruct (budgets db !! id) as [b|]; [|reflexivity].
  case_bool_decide; [|reflexivity].
  rewrite updateSpent_recomputed, Budgets_save_eq.
  destruct (Budget.validate (recomputed b db)); [reflexivity|].
  destruct (Budget.pre_save (recomputed b db)); reflexivity.
Qed.

(** Refreshing a budget twice in a row is refreshing it once: the second
    call answers as the first and leaves the database as the first left it,
    whatever the budget and the ledger. *)
Theorem BudgetRoutes_refresh_idempotent user id db :
  BudgetRoutes.refresh user id (snd (BudgetRoutes.refresh user id db))
  = BudgetRoutes.refresh user id db.
Proof.
  rewrite (BudgetRoutes_refresh_eq user id db).
  destruct (budgets db !! id) as [b|] eqn:Hb;
    [|cbn [snd]; rewrite BudgetRoutes_refresh_eq, Hb; reflexivity].
  case_bool_decide as Hu;
    [|cbn [snd]; rewrite BudgetRoutes_refresh_eq, Hb,
        bool_decide_eq_false_2 by exact Hu; reflexivity].
  destruct (Budget.validate (recomputed b db)) as [e|] eqn:Hv;
    [cbn [snd]; rewrite BudgetRoutes_refresh_eq, Hb,
       bool_decide_eq_true_2, Hv by exact Hu; reflexivity|].
  destruct (Budget.pre_save (recomputed b db)) as [e|] eqn:Hp;
    [cbn [snd]; rewrite BudgetRoutes_refresh_eq, Hb,
       bool_decide_eq_true_2, Hv, Hp by exact Hu; reflexivity|].
  cbn [snd]. set (b1 := recomputed b db).
  assert (Hu1 : Budget.userId b1 = user).
  { subst b1. destruct (recomputed_spec b db) as (s & -> & _). exact Hu. }
  rewrite BudgetRoutes_refresh_eq. cbn [budgets set_budgets].
  rewrite lookup_insert_eq, bool_decide_eq_true_2 by exact Hu1.
  assert (Hagain : ∀ m, recomputed b1 (set_budgets db m) = b1)
    by (intros m; apply recomputed_again; reflexivity).
  rewrite Hagain. fold b1 in Hv, Hp. rewrite Hv, Hp.
  unfold set_budgets. cbn [accounts transactions budgets goals].
  rewrite insert_insert_eq. reflexivity.
Qed.

(** ** Contributions to a goal *)

(** The validators of a goal raise validation errors only. *)
Lemma Goal_validate_error g e :
  Goal.validate g = Some e → ∃ message, e = ValidationError message.
Proof.
  unfold Goal.validate.
  repeat match goal with
         | |- context [if ?c then _ else _] => destruct c
         end;
    intros [= <-]; eexists; reflexivity.
Qed.

(** [addContribution] with an amount below 0.01 (zero and negative amounts
    included) fails with a validation error and stores nothing: the
    contribution it has pushed does not pass the validator of its amount. *)
Theorem addContribution_small_amount now id this amount note source db :
  amount < 0.01 →
  ∃ message,
    Goals.addContribution now id this amount note source db
    = (inl (ValidationError message), db).
Proof.
  intros Hsmall. unfold Goals.addContribution. rewrite Goals_save_eq.
  destruct (Goal.validate (Goal.contribute now this amount note source))
    as [e|] eqn:Hv.
  - destruct (Goal_validate_error _ _ Hv) as (message & ->).
    exists message. reflexivity.
  - exfalso. unfold Goal.validate in Hv.
    repeat match type of Hv with
           | (if ?c then _ else _) = None =>
               destruct c eqn:?; [discriminate|]
           end.
    match goal with
    | H : existsb _ (Goal.contributions _) = false |- _ =>
        cbn [Goal.contribute Goal.contributions] in H;
        rewrite existsb_app in H; cbn [existsb Goal.Contribution.amount] in H;
        apply orb_false_elim in H as [_ H]; rewrite orb_false_r in H;
        apply ltb_false in H
    end.
    lra.
Qed.

(** The theorem at work: a contribution of 0 to the goal of the scenarios. *)
Lemma addContribution_small_amount_witness :
  ∃ message,
    Goals.addContribution Scenario.mid_november 4%nat Scenario.goal 0 ""
      Goal.manual Scenario.db_goals
    = (inl (ValidationError message), Scenario.db_goals).
Proof.
  apply addContribution_small_amount. reflexivity.
Defined.

(** ** The progress of a goal *)









(** ** The next automatic saving *)

(** [calculateNextAutoSave] gives no date for a goal that does not save
    automatically. For one that does, it starts from the stored next date,
    or from the current instant when none is stored, and gives a strictly
    later date at the same time of day: one day later, seven days later, or
    later by the length of the month of the date it started from. *)
Theorem calculateNextAutoSave_later now g :
  (Goal.AutoSave.enabled (Goal.autoSave g) = false →
   Goal.calculateNextAutoSave now g = None)
  ∧ (Goal.AutoSave.enabled (Goal.autoSave g) = true →
     ∃ k, Goal.calculateNextAutoSave now g
          = Some (default now (Goal.AutoSave.nextDate (Goal.autoSave g))
                  + k * Calendar.msPerDay)%Z
          ∧ match Goal.AutoSave.frequency (Goal.autoSave g) with
            | Goal.daily => k = 1%Z
            | Goal.weekly => k = 7%Z
            | Goal.monthly => (28 <= k <= 31)%Z
            end).
Proof.
  unfold Goal.calculateNextAutoSave. split; intros He; rewrite He;
    cbn [negb]; [reflexivity|].
  set (base := default now (Goal.AutoSave.nextDate (Goal.autoSave g))).
  destruct (Goal.AutoSave.frequency (Goal.autoSave g)).
  - exists 1%Z. rewrite setDate_getDate_plus. split; reflexivity.
  - exists 7%Z. rewrite setDate_getDate_plus. split; reflexivity.
  - destruct (setMonth_getMonth_succ base) as (k & Hk & ->).
    exists k. split; [reflexivity | exact Hk].
Qed.

(** The theorem at work: the monthly saving of the scenarios, next due on
    1 November 2023, moves to 1 December 2023. *)
Lemma calculateNextAutoSave_later_witness :
  ∃ k, Goal.calculateNextAutoSave Scenario.mid_november Scenario.goal
       = Some (1698796800000 + k * Calendar.msPerDay)%Z
       ∧ (28 <= k <= 31)%Z.
Proof.
  destruct (calculateNextAutoSave_later Scenario.mid_november Scenario.goal)
    as [_ H].
  apply H. reflexivity.
Defined.

(** ** The sweep and the goals it cannot save *)

Lemma processed_overdue t1 t2 g :
  (Goal.targetDate g <= t1)%Z → processed t1 t2 g = None.
Proof.
  intros Hdue. unfold processed.
  destruct (Goal.AutoSave.amount (Goal.autoSave g)); [|reflexivity].
  destruct (Goal.validate _); [reflexivity|].
  apply Z.leb_le in Hdue. rewrite Hdue. reflexivity.
Qed.

Lemma process_all_overdue clock : ∀ (l : list (ObjectId * Goal.t)) k db,
  (∀ id g, (id, g) ∈ l → ∀ j, (Goal.targetDate g <= fst (clock j))%Z) →
  Goals.process_all clock k l db = (inr tt, db).
Proof.
  induction l as [|[id0 g0] l IH]; intros k db Hall; [reflexivity|].
  cbn [Goals.process_all]. unfold bind.
  rewrite process_one_spec, processed_overdue
    by (apply (Hall id0 g0); apply list_elem_of_here).
  cbn [write]. apply IH. intros id g Hin. apply (Hall id g).
  apply list_elem_of_further. exact Hin.
Qed.

(** A sweep whose clock has passed the target date of every goal it
    selects changes nothing in the database and still returns the number
    of the goals it has selected: these goals stay active with their old
    next date, and a later sweep selects them again. *)
Theorem processAutoSaves_overdue_goals now clock db :
  (∀ id g, goals db !! id = Some g → Goals.due now g = true →
           ∀ j, (Goal.targetDate g <= fst (clock j))%Z) →
  Goals.processAutoSaves now clock db
  = (inr (length (map_to_list (filter (λ p, Goals.due now (snd p) = true)
                                 (goals db)))), db).
Proof.
  intros Hall. unfold Goals.processAutoSaves, Goals.find_due, bind, gets.
  rewrite process_all_overdue; [reflexivity|].
  intros id g Hin. apply elem_of_map_to_list in Hin.
  apply map_lookup_filter_Some in Hin as [Hg Hdue].
  apply (Hall id g Hg Hdue).
Qed.

(** The theorem at work: goal 5, due on 1 November 2023 and swept in mid
    November, is counted and left as it is. *)
Lemma processAutoSaves_overdue_goals_witness :
  Goals.processAutoSaves Scenario.mid_november Scenario2.clock_november
    Scenario2.db_late
  = (inr 1%nat, Scenario2.db_late).
Proof.
  rewrite processAutoSaves_overdue_goals.
  - reflexivity.
  - intros id g Hg _ j. unfold Scenario2.db_late in Hg.
    cbn [goals set_goals] in Hg.
    apply lookup_insert_Some in Hg as [[_ <-] | [_ Hg]].
    + vm_compute. discriminate.
    + rewrite lookup_empty in Hg. discriminate Hg.
Defined.

(** ** Deleting a budget *)

(** The handler of [DELETE /:id] of a budget removes the budget of that id
    when it belongs to the user, and no other budget; from then on the
    handlers of [POST /:id/refresh] and of [PUT /:id] answer 404 for that id
    and change nothing. It answers 404 and changes nothing when the budget
    does not exist or belongs to another user; in no case does it change an
    account, an entry of the ledger or a goal. *)
Theorem BudgetRoutes_delete_outcome user id db :
  (∀ b, budgets db !! id = Some b → Budget.userId b = user →
     ∃ db', BudgetRoutes.delete user id db = (200%nat, db')
            ∧ budgets db' !! id = None
            ∧ (∀ j, j ≠ id → budgets db' !! j = budgets db !! j)
            ∧ BudgetRoutes.refresh user id db' = (404%nat, db')
            ∧ ∀ body, BudgetRoutes.put user id body db' = (404%nat, db'))
  ∧ ((budgets db !! id = None
      ∨ ∃ b, budgets db !! id = Some b ∧ Budget.userId b ≠ user) →
     BudgetRoutes.delete user id db = (404%nat, db))
  ∧ accounts (snd (BudgetRoutes.delete user id db)) = accounts db
  ∧ transactions (snd (BudgetRoutes.delete user id db)) = transactions db
  ∧ goals (snd (BudgetRoutes.delete user id db)) = goals db.
Proof.
  split; [|split].
  - intros b Hb Hu. unfold BudgetRoutes.delete, Routes.handler, bind.
    rewrite (BudgetRoutes_findOne_found _ _ _ _ Hb Hu). unfold modify, ret.
    eexists. split; [reflexivity|]. cbn [budgets set_budgets].
    assert (Hgone : base.delete id (budgets db) !! id = None)
      by apply lookup_delete_eq.
    split; [exact Hgone|].
    split; [intros j Hj; apply lookup_delete_ne; congruence|].
    split.
    + unfold BudgetRoutes.refresh, Routes.handler, bind.
      rewrite BudgetRoutes_findOne_missing; [reflexivity|].
      left. exact Hgone.
    + intros body. unfold BudgetRoutes.put, Routes.handler, bind.
      rewrite BudgetRoutes_findOne_missing; [reflexivity|].
      left. exact Hgone.
  - intros Hmiss. unfold BudgetRoutes.delete, Routes.handler, bind.
    rewrite (BudgetRoutes_findOne_missing _ _ _ Hmiss). reflexivity.
  - unfold BudgetRoutes.delete, Routes.handler, bind, BudgetRoutes.findOne,
      gets, modify, ret.
    destruct (budgets db !! id) as [b|]; [|repeat split].
    case_bool_decide; repeat split.
Qed.

(** The theorem at work: the owner deletes budget 7. *)
Lemma BudgetRoutes_delete_outcome_witness :
  ∃ db', BudgetRoutes.delete Scenario.user 7%nat Scenario2.db_budget
         = (200%nat, db')
         ∧ BudgetRoutes.refresh Scenario.user 7%nat db' = (404%nat, db').
Proof.
  destruct (proj1 (BudgetRoutes_delete_outcome Scenario.user 7%nat
                     Scenario2.db_budget)
              Scenario.budget eq_refl eq_refl)
    as (db' & Hrun & _ & _ & Hrefresh & _).
  exists db'. split; assumption.
Defined.

(** * The properties over doubles *)

Import B64.

(** ** Comparisons of doubles *)

(** Swapping the operands of a comparison reverses its outcome. *)
Lemma SFcompare_swap (x y : Double.t) :
  SFcompare y x = CompOpp <$> SFcompare x y.
Proof.
  destruct x as [sx | sx | | sx mx ex], y as [sy | sy | | sy my ey];
    cbn [SFcompare fmap option_fmap option_map CompOpp]; try reflexivity;
    try (destruct sx; reflexivity); try (destruct sy; reflexivity);
    try (destruct sx, sy; reflexivity).
  destruct sx, sy; try reflexivity; cbn [fmap option_fmap option_map];
    rewrite (Z.compare_antisym ex ey); destruct (ex ?= ey)%Z;
    cbn [CompOpp]; try reflexivity; f_equal;
    change (Pos.compare_cont Eq my mx) with (my ?= mx)%positive;
    change (Pos.compare_cont Eq mx my) with (mx ?= my)%positive;
    rewrite (Pos.compare_antisym mx my); destruct (mx ?= my)%positive; reflexivity.
Qed.

(** [x >= y] excludes [x < y]. *)
Lemma geb_not_ltb (x y : Double.t) :
  Double.geb x y = true → Double.ltb x y = false.
Proof.
  unfold Double.geb, Double.ltb, SFleb, SFltb. rewrite (SFcompare_swap x y).
  destruct (SFcompare x y) as [[]|]; cbn; congruence.
Qed.

(** ** Integers among the doubles *)

Lemma digits2_pos_size p : digits2_pos p = Pos.size p.
Proof. induction p; cbn; congruence. Qed.

Lemma digits2_pos_iter p k :
  (Zpos (digits2_pos (Pos.iter xO p k)) = Zpos (digits2_pos p) + Zpos k)%Z.
Proof.
  revert p. induction k using Pos.peano_ind; intros p.
  - cbn [Pos.iter digits2_pos]. lia.
  - rewrite Pos.iter_succ. cbn [digits2_pos]. rewrite Pos2Z.inj_succ, IHk. lia.
Qed.

Lemma digits2_pos_bound p n :
  (0 <= n)%Z → (Zpos p < 2 ^ n)%Z → (Zpos (digits2_pos p) <= n)%Z.
Proof.
  intros Hn Hp. rewrite digits2_pos_size.
  destruct (Z_le_gt_dec (Zpos (Pos.size p)) n) as [H | H]; [exact H|].
  exfalso. pose proof (Pos.size_le p) as Hs.
  apply Pos2Z.pos_le_pos in Hs. rewrite Pos2Z.inj_pow in Hs.
  assert (Hpow : (2 ^ (n + 1) <= 2 ^ Zpos (Pos.size p))%Z)
    by (apply Z.pow_le_mono_r; lia).
  rewrite Z.pow_add_r in Hpow by lia. change (2 ^ 1)%Z with 2%Z in Hpow.
  change (Zpos p~0) with (2 * Zpos p)%Z in Hs. lia.
Qed.

Lemma Zpos_lt_pow_digits p : (Zpos p < 2 ^ Zpos (digits2_pos p))%Z.
Proof.
  rewrite digits2_pos_size. pose proof (Pos.size_gt p) as H.
  apply Pos2Z.pos_lt_pos in H. rewrite Pos2Z.inj_pow in H. exact H.
Qed.

(** An integer of at most 53 bits is a double: its mantissa is shifted to
    53 bits and nothing is rounded off. *)
Lemma binary_round_small (s : bool) (p : positive) :
  (Zpos (digits2_pos p) <= 53)%Z →
  binary_round Double.prec Double.emax s p 0
  = S754_finite s
      (match (53 - Zpos (digits2_pos p))%Z with
       | Zpos k => Pos.iter xO p k
       | _ => p
       end)
      (Zpos (digits2_pos p) - 53).
Proof.
  intros Hd. unfold binary_round, shl_align, fexp, emin, Double.prec, Double.emax.
  rewrite Z.add_0_r.
  assert (Hmax : Z.max (Zpos (digits2_pos p) - 53) (3 - 1024 - 53)
                 = (Zpos (digits2_pos p) - 53)%Z) by lia.
  rewrite Hmax, Z.sub_0_r.
  destruct (Zpos (digits2_pos p) - 53)%Z as [|k|k] eqn:Hk; [| lia|].
  - replace (53 - Zpos (digits2_pos p))%Z with 0%Z by lia.
    unfold binary_round_aux, shr_fexp, fexp, emin. cbn [Zdigits2 shr_record_of_loc].
    rewrite Z.add_0_r.
    replace (Z.max (Zpos (digits2_pos p) - 53) (3 - 1024 - 53) - 0)%Z with 0%Z
      by lia.
    cbn [shr shr_m loc_of_shr_record round_nearest_even Zdigits2 shr_record_of_loc].
    rewrite Z.add_0_r.
    replace (Z.max (Zpos (digits2_pos p) - 53) (3 - 1024 - 53) - 0)%Z with 0%Z
      by lia.
    cbn [shr shr_m]. reflexivity.
  - replace (53 - Zpos (digits2_pos p))%Z with (Zpos k) by lia.
    unfold binary_round_aux, shr_fexp, fexp, emin. cbn [Zdigits2 shr_record_of_loc].
    rewrite digits2_pos_iter.
    replace (Z.max (Zpos (digits2_pos p) + Zpos k + Zneg k - 53) (3 - 1024 - 53)
             - Zneg k)%Z with 0%Z by lia.
    cbn [shr shr_m loc_of_shr_record round_nearest_even Zdigits2 shr_record_of_loc].
    rewrite digits2_pos_iter.
    replace (Z.max (Zpos (digits2_pos p) + Zpos k + Zneg k - 53) (3 - 1024 - 53)
             - Zneg k)%Z with 0%Z by lia.
    cbn [shr shr_m].
    destruct (Zneg k <=? 1024 - 53)%Z eqn:Hle;
      [reflexivity | apply Z.leb_gt in Hle; lia].
Qed.

Lemma iter_xO_mul p k : Zpos (Pos.iter xO p k) = (Zpos p * 2 ^ Zpos k)%Z.
Proof.
  revert p. induction k using Pos.peano_ind; intros p.
  - cbn [Pos.iter]. lia.
  - rewrite Pos.iter_succ, Pos2Z.inj_succ, Z.pow_succ_r by lia.
    rewrite Pos2Z.inj_xO, IHk. lia.
Qed.

Lemma Qpower_2_neg k : inject_Z (2 ^ Zpos k) * 2 ^ Zneg k == 1.
Proof.
  rewrite Zpower_Qpower by lia. change (inject_Z 2) with 2.
  change (Zneg k) with (- Zpos k)%Z. rewrite Qpower_opp.
  apply Qmult_inv_r. apply Qpower_not_0. discriminate.
Qed.

(** The double of an integer of at most 53 bits stands for that integer. *)
Lemma value_of_Z (n : Z) :
  (- 2 ^ 53 < n < 2 ^ 53)%Z → Double.value (Double.of_Z n) == inject_Z n.
Proof.
  intros Hn. unfold Double.of_Z, binary_normalize.
  destruct n as [|p|p]; [reflexivity| |].
  - assert (Hd : (Zpos (digits2_pos p) <= 53)%Z)
      by (apply digits2_pos_bound; lia).
    rewrite binary_round_small by exact Hd. cbn [Double.value].
    destruct (53 - Zpos (digits2_pos p))%Z as [|k|k] eqn:Hk; [| |lia].
    + replace (Zpos (digits2_pos p) - 53)%Z with 0%Z by lia. cbn [Qpower]. ring.
    + replace (Zpos (digits2_pos p) - 53)%Z with (Zneg k) by lia.
      rewrite iter_xO_mul, inject_Z_mult.
      transitivity (inject_Z (Zpos p) * (inject_Z (2 ^ Zpos k) * 2 ^ Zneg k));
        [ring|].
      rewrite Qpower_2_neg. ring.
  - assert (Hd : (Zpos (digits2_pos p) <= 53)%Z)
      by (apply digits2_pos_bound; lia).
    rewrite binary_round_small by exact Hd. cbn [Double.value].
    change (inject_Z (Zneg p)) with (- inject_Z (Zpos p)).
    destruct (53 - Zpos (digits2_pos p))%Z as [|k|k] eqn:Hk; [| |lia].
    + replace (Zpos (digits2_pos p) - 53)%Z with 0%Z by lia. cbn [Qpower]. ring.
    + replace (Zpos (digits2_pos p) - 53)%Z with (Zneg k) by lia.
      rewrite iter_xO_mul, inject_Z_mult.
      transitivity (- inject_Z (Zpos p) * (inject_Z (2 ^ Zpos k) * 2 ^ Zneg k));
        [ring|].
      rewrite Qpower_2_neg. ring.
Qed.

(** A canonical double with a negative exponent is below 2^52 in absolute
    value. *)
Lemma value_small s m e :
  Double.valid (S754_finite s m e) = true → (e < 0)%Z →
  - inject_Z (2 ^ 52) < Double.value (S754_finite s m e) < inject_Z (2 ^ 52).
Proof.
  intros Hv He. unfold Double.valid, valid_binary, bounded in Hv.
  apply andb_true_iff in Hv as [Hc _].
  unfold canonical_mantissa, fexp, emin, Double.prec, Double.emax in Hc.
  apply Z.eqb_eq in Hc.
  assert (Hd : (Zpos (digits2_pos m) <= 53)%Z) by lia.
  pose proof (Zpos_lt_pow_digits m) as Hm.
  assert (Hm53 : (Zpos m < 2 ^ 53)%Z).
  { eapply Z.lt_le_trans; [exact Hm|]. apply Z.pow_le_mono_r; lia. }
  destruct e as [|k|k]; [lia | lia |].
  pose proof (Qpower_2_neg k) as H2.
  assert (Hp : (2 <= 2 ^ Zpos k)%Z).
  { change 2%Z with (2 ^ 1)%Z at 1. apply Z.pow_le_mono_r; lia. }
  assert (Hpos : 0 < 2 ^ Zneg k).
  { apply Qpower_0_lt. reflexivity. }
  assert (Hhalf : inject_Z (Zpos m) * 2 ^ Zneg k < inject_Z (2 ^ 52)).
  { assert (H1 : 2 * 2 ^ Zneg k <= 1).
    { rewrite <- H2. apply Qmult_le_compat_r; [|lra].
      change 2 with (inject_Z 2). rewrite <- Zle_Qle. exact Hp. }
    assert (H3 : inject_Z (Zpos m) < inject_Z (2 ^ 53)) by (rewrite <- Zlt_Qlt; exact Hm53).
    assert (H4 : inject_Z (2 ^ 53) == 2 * inject_Z (2 ^ 52)) by reflexivity.
    assert (H5 : inject_Z (Zpos m) * 2 ^ Zneg k < inject_Z (2 ^ 53) * 2 ^ Zneg k).
    { apply Qmult_lt_compat_r; assumption. }
    assert (H6 : 0 <= inject_Z (2 ^ 52)) by (apply Qle_bool_iff; reflexivity).
    assert (H7 : inject_Z (2 ^ 53) * 2 ^ Zneg k <= inject_Z (2 ^ 52)).
    { rewrite H4.
      assert (Hprod : 0 <= inject_Z (2 ^ 52) * (1 - 2 * 2 ^ Zneg k))
        by (apply Qmult_le_0_compat; lra).
      lra. }
    lra. }
  assert (Hnn : 0 <= inject_Z (Zpos m) * 2 ^ Zneg k).
  { apply Qmult_le_0_compat; [change 0 with (inject_Z 0); rewrite <- Zle_Qle; lia | lra]. }
  cbn [Double.value]. destruct s.
  - assert (He' : - inject_Z (Zpos m) * 2 ^ Zneg k == - (inject_Z (Zpos m) * 2 ^ Zneg k)) by ring.
    rewrite He'. split; lra.
  - assert (H0 : 0 <= inject_Z (2 ^ 52)) by (apply Qle_bool_iff; reflexivity).
    split; lra.
Qed.

(** [Math.round] of a finite double is an integer, the nearest one, the
    upper one on a tie. *)
Lemma Math_round_nearest64 (x : Double.t) :
  Double.is_finite x = true → Double.valid x = true →
  ∃ n : Z, Double.value (Double.Math_round x) == inject_Z n
           ∧ Double.value x - (1 # 2) < inject_Z n
           ∧ inject_Z n <= Double.value x + (1 # 2).
Proof.
  intros Hf Hv. destruct x as [s | s | | s m e]; try discriminate.
  - exists 0%Z. cbn [Double.Math_round Double.value].
    split; [reflexivity|]. change (inject_Z 0) with 0. split; lra.
  - cbn [Double.Math_round]. destruct (Z.leb_spec 0 e) as [He | He].
    + exists ((if s then Zneg m else Zpos m) * 2 ^ e)%Z.
      assert (Heq : Double.value (S754_finite s m e)
                    == inject_Z ((if s then Zneg m else Zpos m) * 2 ^ e)).
      { cbn [Double.value]. rewrite inject_Z_mult, Zpower_Qpower by exact He.
        change (inject_Z 2) with 2. destruct s; reflexivity. }
      split; [exact Heq|]. rewrite <- Heq. split; lra.
    + set (v := Double.value (S754_finite s m e)).
      pose proof (value_small s m e Hv He) as Hsmall. fold v in Hsmall.
      pose proof (Qfloor_le (v + (1 # 2))) as Hle.
      pose proof (Qlt_floor (v + (1 # 2))) as Hlt.
      rewrite inject_Z_plus in Hlt. change (inject_Z 1) with 1 in Hlt.
      exists (Qfloor (v + (1 # 2))). split; [|clearbody v; split; lra].
      assert (Hn : (- 2 ^ 53 < Qfloor (v + (1 # 2)) < 2 ^ 53)%Z).
      { clearbody v.
        change (inject_Z (2 ^ 52)) with 4503599627370496 in Hsmall.
        change (2 ^ 53)%Z with 9007199254740992%Z.
        split.
        - destruct (Z_lt_le_dec (- 9007199254740992) (Qfloor (v + (1 # 2))))
            as [Hc | Hc]; [exact Hc|].
          exfalso. rewrite Zle_Qle in Hc.
          change (inject_Z (-9007199254740992)) with (-9007199254740992) in Hc.
          lra.
        - destruct (Z_lt_le_dec (Qfloor (v + (1 # 2))) 9007199254740992)
            as [Hc | Hc]; [exact Hc|].
          exfalso. rewrite Zle_Qle in Hc.
          change (inject_Z 9007199254740992) with 9007199254740992 in Hc.
          lra. }
      destruct (Qfloor (v + (1 # 2))) as [|p|p] eqn:Hfl.
      * reflexivity.
      * exact (value_of_Z (Zpos p) Hn).
      * exact (value_of_Z (Zneg p) Hn).
Qed.



(** ** Saving an account *)

Section AccountSave64.

Variables (id : ObjectId) (a : Account.t) (db : DB).

(** A balance that is not negative passes the validator, and the pre-save
    hook then has nothing to normalise. *)
Lemma save_account_accepts :
  Double.geb (Account.balance a) Double.zero = true →
  Accounts.save id a db = (inr a, set_accounts db (<[id := a]> (accounts db))).
Proof.
  intros Hb.
  unfold Accounts.save, bind, check, Account.validate, Account.pre_save.
  rewrite Hb, (geb_not_ltb _ _ Hb), andb_false_r. reflexivity.
Qed.

(** Any other balance, negative or not a number, is rejected by the
    validator, whatever the type of the account, and nothing is written. *)
Lemma save_account_rejects :
  Double.geb (Account.balance a) Double.zero = false →
  Accounts.save id a db =
    (inl (ValidationError "Le solde ne peut pas etre negatif"), db).
Proof.
  intros Hb.
  unfold Accounts.save, bind, check, Account.validate. rewrite Hb. reflexivity.
Qed.

End AccountSave64.

(** ** The post-save hook of a transaction, case by case *)

Section PostSave64.

Variables (doc : Transaction.t) (db : DB).

Local Abbreviation src := (Transaction.accountId doc).
Local Abbreviation amt := (Transaction.amount doc).

Lemma hook_no_account :
  accounts db !! src = None → Transactions.post_save doc db = (inr tt, db).
Proof.
  intros H. unfold Transactions.post_save, try_catch, Transactions.post_save_try,
    bind, Accounts.findById, gets. rewrite H. reflexivity.
Qed.

Lemma hook_income a :
  Transaction.type doc = income → accounts db !! src = Some a →
  Double.geb (Double.add (Account.balance a) amt) Double.zero = true →
  Transactions.post_save doc db =
    (inr tt, set_accounts db (<[src := credited a amt]> (accounts db))).
Proof.
  intros Hty Ha Hb. unfold Transactions.post_save, try_catch,
    Transactions.post_save_try, bind at 1, Accounts.findById, gets.
  rewrite Ha, Hty. unfold bind. rewrite save_account_accepts by exact Hb.
  reflexivity.
Qed.

Lemma hook_expense a :
  Transaction.type doc = expense → accounts db !! src = Some a →
  Double.geb (Double.sub (Account.balance a) amt) Double.zero = true →
  Transactions.post_save doc db =
    (inr tt, set_accounts db (<[src := debited a amt]> (accounts db))).
Proof.
  intros Hty Ha Hb. unfold Transactions.post_save, try_catch,
    Transactions.post_save_try, bind at 1, Accounts.findById, gets.
  rewrite Ha, Hty. unfold bind. rewrite save_account_accepts by exact Hb.
  reflexivity.
Qed.

(** A transfer between two existing accounts: the destination is written
    first, then the source. *)
Lemma hook_transfer dst a b :
  Transaction.type doc = transfer → Transaction.transferAccountId doc = Some dst →
  accounts db !! src = Some a → accounts db !! dst = Some b →
  Double.geb (Double.sub (Account.balance a) amt) Double.zero = true →
  Double.geb (Double.add (Account.balance b) amt) Double.zero = true →
  Transactions.post_save doc db =
    (inr tt, set_accounts db
               (<[src := debited a amt]> (<[dst := credited b amt]> (accounts db)))).
Proof.
  intros Hty Hdst Ha Hb Hna Hnb. unfold Transactions.post_save, try_catch,
    Transactions.post_save_try, bind at 1, Accounts.findById, gets.
  rewrite Ha, Hty, Hdst. unfold bind. rewrite Hb.
  rewrite save_account_accepts by exact Hnb. unfold ret at 1. cbv beta iota.
  rewrite save_account_accepts by exact Hna.
  reflexivity.
Qed.

(** The destination's save is rejected: the source is never written. *)
Lemma hook_transfer_destination_rejected dst a b :
  Transaction.type doc = transfer → Transaction.transferAccountId doc = Some dst →
  accounts db !! src = Some a → accounts db !! dst = Some b →
  Double.geb (Double.add (Account.balance b) amt) Double.zero = false →
  Transactions.post_save doc db = (inr tt, db).
Proof.
  intros Hty Hdst Ha Hb Hnb. unfold Transactions.post_save, try_catch,
    Transactions.post_save_try, bind at 1, Accounts.findById, gets.
  rewrite Ha, Hty, Hdst. unfold bind. rewrite Hb.
  rewrite save_account_rejects by exact Hnb.
  reflexivity.
Qed.

(** The source's save is rejected after the destination's was accepted:
    the destination stays credited. *)
Lemma hook_transfer_source_rejected dst a b :
  Transaction.type doc = transfer → Transaction.transferAccountId doc = Some dst →
  accounts db !! src = Some a → accounts db !! dst = Some b →
  Double.geb (Double.add (Account.balance b) amt) Double.zero = true →
  Double.geb (Double.sub (Account.balance a) amt) Double.zero = false →
  Transactions.post_save doc db =
    (inr tt, set_accounts db (<[dst := credited b amt]> (accounts db))).
Proof.
  intros Hty Hdst Ha Hb Hnb Hna. unfold Transactions.post_save, try_catch,
    Transactions.post_save_try, bind at 1, Accounts.findById, gets.
  rewrite Ha, Hty, Hdst. unfold bind. rewrite Hb.
  rewrite save_account_accepts by exact Hnb. unfold ret at 1. cbv beta iota.
  rewrite save_account_rejects by exact Hna.
  reflexivity.
Qed.

(** The destination does not exist: only the source is written. *)
Lemma hook_transfer_no_destination dst a :
  Transaction.type doc = transfer → Transaction.transferAccountId doc = Some dst →
  accounts db !! src = Some a → accounts db !! dst = None →
  Double.geb (Double.sub (Account.balance a) amt) Double.zero = true →
  Transactions.post_save doc db =
    (inr tt, set_accounts db (<[src := debited a amt]> (accounts db))).
Proof.
  intros Hty Hdst Ha Hb Hna. unfold Transactions.post_save, try_catch,
    Transactions.post_save_try, bind at 1, Accounts.findById, gets.
  rewrite Ha, Hty, Hdst. unfold bind. rewrite Hb. unfold ret at 1 2. cbv beta iota.
  rewrite save_account_accepts by exact Hna.
  reflexivity.
Qed.

End PostSave64.

Lemma save_entry_accepted id doc db :
  accepted doc →
  Transactions.save id doc db =
    Transactions.post_save doc
      (set_transactions db (<[id := doc]> (transactions db))).
Proof.
  intros [Hv Hp]. unfold Transactions.save, bind, check. rewrite Hv, Hp. reflexivity.
Qed.

Lemma accepted_has_destination doc :
  accepted doc → Transaction.type doc = transfer →
  ∃ dst, Transaction.transferAccountId doc = Some dst
         ∧ dst ≠ Transaction.accountId doc.
Proof.
  intros [_ Hp] Hty. unfold Transaction.pre_save in Hp. rewrite Hty in Hp.
  destruct (Transaction.transferAccountId doc) as [dst|]; [|discriminate].
  exists dst. split; [reflexivity|]. case_bool_decide; [discriminate | assumption].
Qed.

(** ** C1: the effect of a new ledger entry on the balances *)

(** C1 (as amended). For every newly created ledger entry whose effect
    writes no negative balance, the post-save hook applies that effect to
    the accounts that exist, in the arithmetic of doubles: the account of an
    income is stored with [balance + amount], that of an expense with
    [balance - amount]; a transfer stores its source with [balance - amount]
    and its destination, when it exists, with [balance + amount]; an entry
    whose own account does not exist changes no account, not even the
    destination of a transfer; every other account keeps its document. *)
Theorem entry_effect_applied id doc db :
  accepted doc → effect_affordable doc db → effect_applied id doc db.
Proof.
  intros Hacc Haff. unfold effect_applied, exec.
  rewrite (save_entry_accepted _ _ _ Hacc).
  set (db1 := set_transactions db _).
  assert (Hdb1 : accounts db1 = accounts db) by reflexivity.
  split.
  { intros Hnone. rewrite hook_no_account by (rewrite Hdb1; exact Hnone).
    reflexivity. }
  unfold effect_affordable in Haff.
  destruct (Transaction.type doc) eqn:Hty.
  - (* income *)
    destruct (accounts db !! Transaction.accountId doc) as [a|] eqn:Ha.
    + rewrite (hook_income doc db1 a Hty) by (rewrite ?Hdb1; auto).
      cbn [snd accounts set_accounts]. split.
      * intros a0 [= <-]. apply lookup_insert_eq.
      * intros j Hj. rewrite lookup_insert_ne by congruence. reflexivity.
    + rewrite hook_no_account by (rewrite Hdb1; exact Ha).
      split; [intros a0 [=] | reflexivity].
  - (* expense *)
    destruct (accounts db !! Transaction.accountId doc) as [a|] eqn:Ha.
    + rewrite (hook_expense doc db1 a Hty) by (rewrite ?Hdb1; auto).
      cbn [snd accounts set_accounts]. split.
      * intros a0 [= <-]. apply lookup_insert_eq.
      * intros j Hj. rewrite lookup_insert_ne by congruence. reflexivity.
    + rewrite hook_no_account by (rewrite Hdb1; exact Ha).
      split; [intros a0 [=] | reflexivity].
  - (* transfer *)
    destruct Haff as [Hsrc Hdst].
    destruct (accepted_has_destination doc Hacc Hty) as (dst & Hd & Hne).
    intros dst' Hd'. assert (dst' = dst) as -> by congruence.
    destruct (accounts db !! Transaction.accountId doc) as [a|] eqn:Ha.
    + destruct (accounts db !! dst) as [b|] eqn:Hb.
      * rewrite (hook_transfer doc db1 dst a b Hty Hd)
          by (rewrite ?Hdb1; eauto).
        cbn [snd accounts set_accounts]. split.
        -- intros a0 [= <-]. split; [apply lookup_insert_eq|]. split.
           ++ intros b0 [= <-]. rewrite lookup_insert_ne by congruence.
              apply lookup_insert_eq.
           ++ intros [=].
        -- intros j Hj1 Hj2. rewrite !lookup_insert_ne by congruence. reflexivity.
      * rewrite (hook_transfer_no_destination doc db1 dst a Hty Hd)
          by (rewrite ?Hdb1; eauto).
        cbn [snd accounts set_accounts]. split.
        -- intros a0 [= <-]. split; [apply lookup_insert_eq|]. split.
           ++ intros b0 [=].
           ++ intros _. rewrite lookup_insert_ne by congruence. exact Hb.
        -- intros j Hj1 Hj2. rewrite !lookup_insert_ne by congruence. reflexivity.
    + rewrite hook_no_account by (rewrite Hdb1; exact Ha).
      split; [intros a0 [=] | reflexivity].
Qed.

(** The theorem at work: an expense of 15 000 on the account holding
    100 000 leaves 85 000. *)
Lemma entry_effect_applied_witness :
  let doc := Scenario.entry expense 10%nat (Double.of_Z 15000) None in
  accepted doc ∧ effect_affordable doc Scenario.db0
  ∧ effect_applied 100%nat doc Scenario.db0
  ∧ balance_of (exec (Transactions.save 100%nat doc) Scenario.db0) 10%nat
    = Some (Double.of_Z 85000).
Proof.
  cbv zeta.
  assert (Hacc : accepted (Scenario.entry expense 10%nat (Double.of_Z 15000) None))
    by (split; reflexivity).
  assert (Haff : effect_affordable
                   (Scenario.entry expense 10%nat (Double.of_Z 15000) None)
                   Scenario.db0).
  { intros a Ha. vm_compute in Ha. injection Ha as <-. vm_compute. reflexivity. }
  split; [exact Hacc|]. split; [exact Haff|].
  split; [exact (entry_effect_applied 100%nat _ _ Hacc Haff)|].
  vm_compute. reflexivity.
Defined.

(** C1 (as stated) fails. An expense of 150 on a checking account holding
    100 is saved as a ledger entry, yet the balance does not decrease by
    150: the validator of the balance rejects the account's save and the
    hook swallows the error. And where the write is accepted, the balance
    is the sum rounded to a double: an income of 1 on an account holding
    2^53 leaves 2^53. *)
Lemma entry_effect_not_applied :
  let doc := Scenario.entry expense 10%nat (Double.of_Z 150) None in
  let one := Scenario.entry income 10%nat (Double.of_Z 1) None in
  accepted doc
  ∧ transactions (exec (Transactions.save 100%nat doc) Scenario.db_two) !! 100%nat
    = Some doc
  ∧ balance_of (exec (Transactions.save 100%nat doc) Scenario.db_two) 10%nat
    = Some (Double.of_Z 100)
  ∧ ¬ effect_applied 100%nat doc Scenario.db_two
  ∧ accepted one
  ∧ balance_of (exec (Transactions.save 100%nat one) Scenario.db_large) 10%nat
    = Some (Double.of_Z 9007199254740992).
Proof.
  cbv zeta. split; [split; reflexivity|]. split; [reflexivity|].
  split; [vm_compute; reflexivity|].
  split.
  - unfold effect_applied. cbv zeta. cbn [Scenario.entry Transaction.type].
    intros [_ [H _]].
    specialize (H (Scenario.checking_account (Double.of_Z 100)) eq_refl).
    vm_compute in H. discriminate.
  - split; [split; reflexivity|]. vm_compute. reflexivity.
Qed.

(** ** C5: a transfer is two writes *)

(** C5 (as amended). Creating a transfer of an amount from an account to
    another one, both existing, is two successive writes, the destination
    first: when neither new balance is negative the source is stored with
    [balance - amount], the destination with [balance + amount], both in
    the arithmetic of doubles, and no other account changes; when the
    destination's write is rejected no account changes at all; when the
    destination's write is accepted and the source's is rejected, the
    destination is stored with [balance + amount] and nothing else
    changes. *)
Theorem transfer_two_writes id doc db dst a b :
  accepted doc → Transaction.type doc = transfer →
  Transaction.transferAccountId doc = Some dst →
  accounts db !! Transaction.accountId doc = Some a →
  accounts db !! dst = Some b →
  let db' := exec (Transactions.save id doc) db in
  let amount := Transaction.amount doc in
  (Double.geb (Double.sub (Account.balance a) amount) Double.zero = true →
   Double.geb (Double.add (Account.balance b) amount) Double.zero = true →
   accounts db' !! Transaction.accountId doc = Some (debited a amount)
   ∧ accounts db' !! dst = Some (credited b amount)
   ∧ ∀ j, j ≠ Transaction.accountId doc → j ≠ dst →
          accounts db' !! j = accounts db !! j)
  ∧ (Double.geb (Double.add (Account.balance b) amount) Double.zero = false →
     accounts db' = accounts db)
  ∧ (Double.geb (Double.add (Account.balance b) amount) Double.zero = true →
     Double.geb (Double.sub (Account.balance a) amount) Double.zero = false →
     accounts db' = <[dst := credited b amount]> (accounts db)).
Proof.
  intros Hacc Hty Hd Ha Hb db' amount. subst db' amount. unfold exec.
  rewrite (save_entry_accepted _ _ _ Hacc).
  destruct (accepted_has_destination doc Hacc Hty) as (dst' & Hd' & Hne).
  assert (dst' = dst) as -> by congruence.
  split; [|split].
  - intros Hna Hnb.
    rewrite (hook_transfer doc _ dst a b Hty Hd) by assumption.
    cbn [snd accounts set_accounts set_transactions].
    split; [apply lookup_insert_eq|]. split.
    + rewrite lookup_insert_ne by congruence. apply lookup_insert_eq.
    + intros j Hj1 Hj2. rewrite !lookup_insert_ne by congruence. reflexivity.
  - intros Hnb.
    rewrite (hook_transfer_destination_rejected doc _ dst a b Hty Hd)
      by assumption.
    reflexivity.
  - intros Hnb Hna.
    rewrite (hook_transfer_source_rejected doc _ dst a b Hty Hd) by assumption.
    reflexivity.
Qed.

(** The theorem at work: 30 go from account 10 (100) to account 11 (0). *)
Lemma transfer_two_writes_witness :
  let doc := Scenario.entry transfer 10%nat (Double.of_Z 30) (Some 11%nat) in
  let db' := exec (Transactions.save 100%nat doc) Scenario.db_two in
  accounts db' !! 10%nat
  = Some (debited (Scenario.checking_account (Double.of_Z 100)) (Double.of_Z 30))
  ∧ accounts db' !! 11%nat
    = Some (credited (Scenario.checking_account Double.zero) (Double.of_Z 30))
  ∧ balance_of db' 10%nat = Some (Double.of_Z 70)
  ∧ balance_of db' 11%nat = Some (Double.of_Z 30).
Proof.
  cbv zeta.
  destruct (proj1
    (transfer_two_writes 100%nat
       (Scenario.entry transfer 10%nat (Double.of_Z 30) (Some 11%nat))
       Scenario.db_two 11%nat (Scenario.checking_account (Double.of_Z 100))
       (Scenario.checking_account Double.zero)
       ltac:(split; reflexivity) eq_refl eq_refl eq_refl eq_refl)
    ltac:(vm_compute; reflexivity) ltac:(vm_compute; reflexivity))
    as (Ha & Hb & _).
  split; [exact Ha|]. split; [exact Hb|].
  split; vm_compute; reflexivity.
Defined.

(** C5 (as stated) fails: a transfer of 150 from account 10, which holds
    100, to account 11, which holds 0, is saved; the destination is credited
    and holds 150, the source's save is rejected and it still holds 100. One
    side only has been applied. *)
Lemma transfer_half_applied :
  let doc := Scenario.entry transfer 10%nat (Double.of_Z 150) (Some 11%nat) in
  accepted doc
  ∧ balance_of (exec (Transactions.save 100%nat doc) Scenario.db_two) 10%nat
    = Some (Double.of_Z 100)
  ∧ balance_of (exec (Transactions.save 100%nat doc) Scenario.db_two) 11%nat
    = Some (Double.of_Z 150)
  ∧ ¬ transfer_atomic 100%nat doc Scenario.db_two.
Proof.
  cbv zeta. split; [split; reflexivity|].
  split; [vm_compute; reflexivity|]. split; [vm_compute; reflexivity|].
  intros H.
  destruct (H 11%nat (Scenario.checking_account (Double.of_Z 100))
              (Scenario.checking_account Double.zero)
              eq_refl eq_refl eq_refl) as [[Ha _] | Heq].
  - vm_compute in Ha. discriminate.
  - apply (f_equal (λ m : gmap ObjectId Account.t, Account.balance <$> m !! 11%nat))
      in Heq.
    vm_compute in Heq. discriminate.
Qed.

(** ** C6: the amount spent of a budget *)












(** ** C7: the percentage of a budget that is used *)

(** C7 (as amended). When the target amount is greater than 0,
    [percentageUsed] is [Math.round] of the quotient of [spent] by the
    target amount times 100, the quotient and the product being those of
    doubles: when that product is finite, an integer at most one half away
    from it, the upper one on a tie. When the target amount is not greater
    than 0, [percentageUsed] is 0. *)
Theorem percentageUsed_rounded (b : Budget.t) :
  let q := Double.mul (Double.div (Budget.spent b) (Budget.amount b))
             (Double.of_Z 100) in
  (Double.gtb (Budget.amount b) Double.zero = true →
   Budget.percentageUsed b = Double.Math_round q
   ∧ (Double.is_finite q = true → Double.valid q = true →
      ∃ n : Z, Double.value (Budget.percentageUsed b) == inject_Z n
               ∧ Double.value q - (1 # 2) < inject_Z n
               ∧ inject_Z n <= Double.value q + (1 # 2)))
  ∧ (Double.gtb (Budget.amount b) Double.zero = false →
     Budget.percentageUsed b = Double.zero).
Proof.
  cbv zeta. unfold Budget.percentageUsed. split; intros Hpos; rewrite Hpos.
  - split; [reflexivity|]. apply Math_round_nearest64.
  - reflexivity.
Qed.

(** The theorem at work: 1 spent of 3 is 33 percent. *)
Lemma percentageUsed_rounded_witness :
  let b := Scenario.budget_of (Double.of_Z 1) (Double.of_Z 3) in
  Budget.percentageUsed b = Double.of_Z 33
  ∧ ∃ n : Z, Double.value (Budget.percentageUsed b) == inject_Z n
             ∧ Double.value (Double.mul (Double.ratio 1 3) (Double.of_Z 100))
               - (1 # 2) < inject_Z n
             ∧ inject_Z n
               <= Double.value (Double.mul (Double.ratio 1 3) (Double.of_Z 100))
                  + (1 # 2).
Proof.
  cbv zeta. split; [vm_compute; reflexivity|].
  destruct (proj1 (percentageUsed_rounded
                     (Scenario.budget_of (Double.of_Z 1) (Double.of_Z 3))))
    as [_ H]; [reflexivity|].
  apply H; reflexivity.
Defined.

(** C7 (as stated) fails: with 1 spent of a target of 3 the percentage used
    is 33, which is not the quotient times 100, in doubles or exactly. The
    rounding is that of the double, not of the exact quotient: 23 spent of
    40 is 57.49999999999999 in doubles and gives 57, where the exact value
    57.5 would give 58. *)
Lemma percentageUsed_not_exact :
  let third := Scenario.budget_of (Double.of_Z 1) (Double.of_Z 3) in
  let b := Scenario.budget_of (Double.of_Z 23) (Double.of_Z 40) in
  Double.gtb (Budget.amount third) Double.zero = true
  ∧ Budget.percentageUsed third = Double.of_Z 33
  ∧ Budget.percentageUsed third
    ≠ Double.mul (Double.div (Budget.spent third) (Budget.amount third))
        (Double.of_Z 100)
  ∧ ¬ Double.value (Budget.percentageUsed third)
      == Double.value (Budget.spent third) / Double.value (Budget.amount third)
         * 100
  ∧ Budget.percentageUsed b = Double.of_Z 57
  ∧ Qfloor (Double.value (Budget.spent b) / Double.value (Budget.amount b) * 100
            + (1 # 2)) = 58%Z.
Proof.
  cbv zeta. split; [reflexivity|]. split; [vm_compute; reflexivity|].
  split; [vm_compute; discriminate|].
  split; [intros H; vm_compute in H; discriminate|].
  split; vm_compute; reflexivity.
Qed.

(** ** Saving a goal *)

(** The outcome of the save of a goal, in one equation. *)
Lemma save_goal_eq now id g db :
  Goals.save now id g db
  = match Goal.validate g with
    | Some e => (inl e, db)
    | None =>
        if (Goal.targetDate g <=? now)%Z
        then (inl (HookError "La date cible doit etre dans le futur"), db)
        else (inr (Goal.pre_save_status g),
              set_goals db (<[id := Goal.pre_save_status g]> (goals db)))
    end.
Proof.
  unfold Goals.save, bind, check, Goal.pre_save_targetDate.
  destruct (Goal.validate g); [reflexivity|].
  destruct (Goal.targetDate g <=? now)%Z; reflexivity.
Qed.

(** The status hook changes the status only. *)
Lemma completed_fields g :
  Goal.milestones (Goal.pre_save_status g) = Goal.milestones g
  ∧ Goal.autoSave (Goal.pre_save_status g) = Goal.autoSave g
  ∧ Goal.contributions (Goal.pre_save_status g) = Goal.contributions g
  ∧ Goal.currentAmount (Goal.pre_save_status g) = Goal.currentAmount g
  ∧ Goal.targetAmount (Goal.pre_save_status g) = Goal.targetAmount g
  ∧ Goal.targetDate (Goal.pre_save_status g) = Goal.targetDate g.
Proof. unfold Goal.pre_save_status. destruct (_ && _); repeat split. Qed.

(** ** C8: milestones are achieved once and for all *)

Lemma visit_achieved now current m :
  Goal.Milestone.achieved m = true → Goal.check_milestone now current m = m.
Proof. intros H. unfold Goal.check_milestone. rewrite H. reflexivity. Qed.

Lemma contribute_achieved now g amount note source i m :
  Goal.milestones g !! i = Some m → Goal.Milestone.achieved m = true →
  Goal.milestones (Goal.contribute now g amount note source) !! i = Some m.
Proof.
  intros Hi Hm. cbn [Goal.contribute Goal.milestones].
  rewrite list_lookup_fmap, Hi. cbn [fmap option_fmap option_map].
  rewrite visit_achieved by exact Hm. reflexivity.
Qed.

(** A call that loads the goal stored under [id] and contributes to it, in
    one equation. *)
Lemma contribute_stored_eq id c db g :
  goals db !! id = Some g →
  let g' := Goal.contribute (call_now c) g (call_amount c) (call_note c)
              (call_source c) in
  contribute_stored id c db
  = (inr tt,
     match Goal.validate g' with
     | Some _ => db
     | None =>
         if (Goal.targetDate g' <=? call_now c)%Z then db
         else set_goals db (<[id := Goal.pre_save_status g']> (goals db))
     end).
Proof.
  intros Hg g'. unfold contribute_stored, bind, gets. rewrite Hg.
  unfold try_catch, bind, Goals.addContribution. rewrite save_goal_eq.
  fold g'. destruct (Goal.validate g'); [reflexivity|].
  destruct (_ <=? _)%Z; reflexivity.
Qed.

(** What is stored under [id]: a call that loads it and contributes leaves an
    achieved milestone as it is, whether its save is accepted or not. *)
Lemma contribute_stored_achieved id c db g i m :
  goals db !! id = Some g →
  Goal.milestones g !! i = Some m → Goal.Milestone.achieved m = true →
  ∃ g', contribute_stored id c db
        = (inr tt, exec (contribute_stored id c) db)
        ∧ goals (exec (contribute_stored id c) db) !! id = Some g'
        ∧ Goal.milestones g' !! i = Some m.
Proof.
  intros Hg Hi Hm. unfold exec.
  rewrite (contribute_stored_eq id c db g Hg). cbn [snd].
  destruct (Goal.validate _);
    [exists g; split; [reflexivity | split; [exact Hg | exact Hi]]|].
  destruct (_ <=? _)%Z;
    [exists g; split; [reflexivity | split; [exact Hg | exact Hi]]|].
  eexists. split; [reflexivity|]. cbn [goals set_goals].
  rewrite lookup_insert_eq. split; [reflexivity|].
  rewrite (proj1 (completed_fields _)).
  apply contribute_achieved; assumption.
Qed.

Lemma replay_achieved id calls : ∀ db g i m,
  goals db !! id = Some g →
  Goal.milestones g !! i = Some m → Goal.Milestone.achieved m = true →
  ∃ g', goals (exec (replay id calls) db) !! id = Some g'
        ∧ Goal.milestones g' !! i = Some m.
Proof.
  induction calls as [|c calls IH]; intros db g i m Hg Hi Hm.
  - exists g. split; assumption.
  - destruct (contribute_stored_achieved id c db g i m Hg Hi Hm)
      as (g1 & Hrun & Hg1 & Hi1).
    unfold exec at 1. cbn [replay]. unfold bind. rewrite Hrun.
    exact (IH _ g1 i m Hg1 Hi1 Hm).
Qed.

(** C8. A call of [addContribution] whose goal, once the contribution is
    added, passes the validators, before the target date, is accepted and
    stores the goal with its milestones visited: a milestone that was not
    achieved and whose amount is at most the current amount plus the
    contribution (added as doubles) is stored achieved, dated [now]; one that
    was not achieved and whose amount is above it is stored as it was; one
    that was achieved is stored as it was. Any other call fails and stores
    nothing. And an achieved milestone of a stored goal is still there,
    achieved, after any succession of contributions to that goal, accepted
    or not. *)
Theorem milestones_one_way now id this amount note source db i m :
  Goal.milestones this !! i = Some m →
  let this' := Goal.contribute now this amount note source in
  let current := Double.add (Goal.currentAmount this) amount in
  (Goal.validate this' = None → (now < Goal.targetDate this)%Z →
   ∃ stored m',
     Goals.addContribution now id this amount note source db
     = (inr stored, set_goals db (<[id := stored]> (goals db)))
     ∧ length (Goal.milestones stored) = length (Goal.milestones this)
     ∧ Goal.milestones stored !! i = Some m'
     ∧ Goal.Milestone.name m' = Goal.Milestone.name m
     ∧ Goal.Milestone.amount m' = Goal.Milestone.amount m
     ∧ (Goal.Milestone.achieved m = true → m' = m)
     ∧ (Goal.Milestone.achieved m = false →
        Double.geb current (Goal.Milestone.amount m) = true →
        Goal.Milestone.achieved m' = true
        ∧ Goal.Milestone.achievedDate m' = Some now)
     ∧ (Goal.Milestone.achieved m = false →
        Double.geb current (Goal.Milestone.amount m) = false → m' = m))
  ∧ (Goal.validate this' ≠ None ∨ (Goal.targetDate this <= now)%Z →
     ∃ e, Goals.addContribution now id this amount note source db = (inl e, db))
  ∧ (Goal.Milestone.achieved m = true →
     ∀ calls, goals db !! id = Some this →
       ∃ g', goals (exec (replay id calls) db) !! id = Some g'
             ∧ Goal.milestones g' !! i = Some m).
Proof.
  intros Hi this' current. split; [|split].
  - intros Hv Hfuture. unfold Goals.addContribution. fold this'.
    rewrite save_goal_eq, Hv.
    apply Z.leb_gt in Hfuture.
    change (Goal.targetDate this') with (Goal.targetDate this). rewrite Hfuture.
    exists (Goal.pre_save_status this'),
      (Goal.check_milestone now current m).
    split; [reflexivity|].
    rewrite (proj1 (completed_fields this')).
    subst this'. cbn [Goal.contribute Goal.milestones].
    split; [apply length_map|].
    split; [rewrite list_lookup_fmap, Hi; reflexivity|].
    fold current. unfold Goal.check_milestone.
    destruct (Goal.Milestone.achieved m) eqn:Hm; cbn [negb andb].
    + split; [reflexivity|]. split; [reflexivity|].
      split; [reflexivity|].
      split; [intros H; discriminate H | intros H; discriminate H].
    + destruct (Double.geb current (Goal.Milestone.amount m)) eqn:Hge.
      * cbn [Goal.Milestone.name Goal.Milestone.amount Goal.Milestone.achieved
             Goal.Milestone.achievedDate].
        split; [reflexivity|]. split; [reflexivity|].
        split; [intros H; discriminate H|].
        split; [intros _ _; split; reflexivity|].
        intros _ H; discriminate H.
      * split; [reflexivity|]. split; [reflexivity|].
        split; [intros H; discriminate H|].
        split; [intros _ H; discriminate H | reflexivity].
  - intros Hbad. unfold Goals.addContribution. fold this'.
    rewrite save_goal_eq.
    destruct (Goal.validate this') as [e|]; [exists e; reflexivity|].
    destruct Hbad as [Hbad | Hlate]; [congruence|].
    apply Z.leb_le in Hlate.
    change (Goal.targetDate this') with (Goal.targetDate this). rewrite Hlate.
    eexists. reflexivity.
  - intros Hm calls Hg. exact (replay_achieved id calls db this i m Hg Hi Hm).
Qed.

(** The theorem at work: the goal holds 450 000 and its milestone stands at
    480 000; a contribution of 40 000 is accepted and achieves it. *)
Lemma milestones_one_way_witness :
  ∃ stored m',
    Goals.addContribution Scenario.mid_november 4%nat Scenario.goal
      (Double.of_Z 40000) "" Goal.manual Scenario.db_goals
    = (inr stored,
       set_goals Scenario.db_goals (<[4%nat := stored]> (goals Scenario.db_goals)))
    ∧ Goal.milestones stored !! 0%nat = Some m'
    ∧ Goal.Milestone.achieved m' = true
    ∧ Goal.Milestone.achievedDate m' = Some Scenario.mid_november.
Proof.
  destruct (milestones_one_way Scenario.mid_november 4%nat Scenario.goal
              (Double.of_Z 40000) "" Goal.manual Scenario.db_goals 0%nat _ eq_refl)
    as [Hok _].
  destruct Hok as (stored & m' & Hrun & _ & Hl & _ & _ & _ & Hflip & _).
  - vm_compute. reflexivity.
  - reflexivity.
  - exists stored, m'. split; [exact Hrun|]. split; [exact Hl|].
    apply Hflip; [reflexivity | vm_compute; reflexivity].
Defined.

(** ** One calendar month *)

Section CalendarMonths.

Import Calendar.
Local Open Scope Z_scope.

(** The year a day falls in is the only one that starts on or before it and
    ends after it. *)
Lemma DayFromYear_mono y y' : y <= y' → DayFromYear y <= DayFromYear y'.
Proof. intros H. unfold DayFromYear. Z.div_mod_to_equations. lia. Qed.

Lemma YearFromTime_unique t y :
  DayFromYear y <= Day t < DayFromYear (y + 1) → YearFromTime t = y.
Proof.
  intros [H1 H2]. pose proof (YearFromTime_spec t) as [H3 H4].
  destruct (Z.lt_trichotomy (YearFromTime t) y) as [Hlt | [Heq | Hgt]];
    [exfalso | exact Heq | exfalso].
  - pose proof (DayFromYear_mono (YearFromTime t + 1) y ltac:(lia)). lia.
  - pose proof (DayFromYear_mono (y + 1) (YearFromTime t) ltac:(lia)). lia.
Qed.

Ltac month_cases M HM :=
  let H := fresh in
  assert (H : M = 0 ∨ M = 1 ∨ M = 2 ∨ M = 3 ∨ M = 4 ∨ M = 5 ∨ M = 6 ∨ M = 7
              ∨ M = 8 ∨ M = 9 ∨ M = 10 ∨ M = 11) by lia;
  destruct H
    as [-> | [-> | [-> | [-> | [-> | [-> | [-> | [-> | [-> | [-> | [-> | ->]]]]]]]]]]].

(** The months follow one another: each starts where the one before it
    ends, and December ends with the year. *)
Lemma monthStart_length L M :
  0 <= M <= 10 → monthStart L (M + 1) = monthStart L M + month_length L M.
Proof.
  intros HM. month_cases M HM; try lia;
    match goal with
    | |- context [monthStart L (?m + 1)] =>
        let v := eval vm_compute in (m + 1) in change (m + 1) with v
    end; cbn [monthStart month_length]; lia.
Qed.

Lemma month_length_range L M : 0 <= L <= 1 → 28 <= month_length L M <= 31.
Proof.
  intros HL. unfold month_length.
  repeat match goal with |- context [match ?x with _ => _ end] => destruct x end;
    lia.
Qed.

(** The month of a date is the one its day of the year falls in. *)
Lemma MonthFromTime_bounds t :
  monthStart (leapDays (YearFromTime t)) (MonthFromTime t) <= DayWithinYear t
  ∧ DayWithinYear t
    < monthStart (leapDays (YearFromTime t)) (MonthFromTime t)
      + month_length (leapDays (YearFromTime t)) (MonthFromTime t).
Proof.
  pose proof (YearFromTime_spec t) as Hy.
  pose proof (leapDays_range (YearFromTime t)) as HL.
  unfold MonthFromTime, DayWithinYear. cbv zeta.
  assert (Hlen : Day t - DayFromYear (YearFromTime t)
                 < 365 + leapDays (YearFromTime t))
    by (unfold leapDays, DaysInYear; lia).
  assert (Hlow : 0 <= Day t - DayFromYear (YearFromTime t)) by lia.
  clear Hy. revert Hlow Hlen HL.
  generalize (leapDays (YearFromTime t))
             (Day t - DayFromYear (YearFromTime t)).
  intros L w Hlow Hlen HL.
  repeat match goal with
         | |- context [if ?a <? ?b then _ else _] =>
             destruct (Z.ltb_spec a b)
         end; cbn [monthStart month_length]; lia.
Qed.

Lemma MonthFromTime_unique t M :
  0 <= M <= 11 →
  monthStart (leapDays (YearFromTime t)) M <= DayWithinYear t
  < monthStart (leapDays (YearFromTime t)) M
    + month_length (leapDays (YearFromTime t)) M →
  MonthFromTime t = M.
Proof.
  intros HM. pose proof (leapDays_range (YearFromTime t)) as HL.
  unfold MonthFromTime. cbv zeta.
  revert HL. generalize (leapDays (YearFromTime t)) (DayWithinYear t).
  intros L w HL Hw.
  month_cases M HM; cbn [monthStart month_length] in Hw;
  repeat match goal with
         | |- context [if ?a <? ?b then _ else _] =>
             destruct (Z.ltb_spec a b)
         end; lia.
Qed.

Lemma Day_plus t k : Day (t + k * msPerDay) = Day t + k.
Proof. unfold Day, msPerDay. rewrite Z.div_add by lia. reflexivity. Qed.

Lemma TimeWithinDay_plus t k : TimeWithinDay (t + k * msPerDay) = TimeWithinDay t.
Proof. unfold TimeWithinDay, msPerDay. apply Z.mod_add. lia. Qed.

(** [d.setMonth(d.getMonth() + 1)] is later by the days of the month of
    [d]. *)
Lemma setMonth_days_in_month t :
  setMonth t (getMonth t + 1) = t + days_in_month t * msPerDay.
Proof.
  unfold setMonth, getMonth, MakeDate, days_in_month.
  pose proof (MonthFromTime_range t) as HM.
  destruct (Z.eq_dec (MonthFromTime t) 11) as [H11 | H11].
  - unfold DateFromTime, DayWithinYear.
    rewrite H11, MakeDay_january_next. cbn [monthStart month_length].
    unfold leapDays, DaysInYear in *. pose proof (split_time t) as Hs.
    revert Hs. generalize (Day t) (TimeWithinDay t). unfold msPerDay. lia.
  - rewrite MakeDay_in_year by lia. rewrite monthStart_length by lia.
    unfold DateFromTime, DayWithinYear.
    pose proof (split_time t) as Hs.
    revert Hs. generalize (Day t) (TimeWithinDay t). unfold msPerDay. lia.
Qed.

(** It is one calendar month later. *)
Lemma setMonth_month_later t : month_later t (setMonth t (getMonth t + 1)).
Proof.
  rewrite setMonth_days_in_month. unfold month_later.
  split; [reflexivity|]. split; [apply TimeWithinDay_plus|].
  intros Hdate. unfold days_in_month in *.
  set (y := YearFromTime t) in *. set (L := leapDays y) in *.
  set (m := MonthFromTime t) in *.
  set (next := t + month_length L m * msPerDay).
  pose proof (MonthFromTime_range t) as HM. fold m in HM.
  pose proof (MonthFromTime_bounds t) as Hw. fold y L m in Hw.
  pose proof (YearFromTime_spec t) as Hy. fold y in Hy.
  pose proof (leapDays_range y) as HL. fold L in HL.
  assert (Hday : Day next = Day t + month_length L m) by apply Day_plus.
  assert (Hd : DateFromTime t = DayWithinYear t - monthStart L m + 1)
    by reflexivity.
  assert (Hwy : DayWithinYear t = Day t - DayFromYear y) by reflexivity.
  destruct (Z.eq_dec m 11) as [H11 | H11].
  - assert (Hy' : YearFromTime next = y + 1).
    { apply YearFromTime_unique. rewrite Hday.
      pose proof (leapDays_range (y + 1)) as HL'.
      rewrite H11 in *. cbn [monthStart month_length] in *.
      unfold L, leapDays, DaysInYear in *. lia. }
    assert (Hwn : DayWithinYear next = DateFromTime t - 1).
    { unfold DayWithinYear at 1. rewrite Hy', Hday, Hd, Hwy.
      rewrite H11. cbn [monthStart month_length].
      unfold L, leapDays, DaysInYear. lia. }
    assert (Hm' : MonthFromTime next = 0).
    { apply MonthFromTime_unique; [lia|]. rewrite Hwn.
      cbn [monthStart month_length]. rewrite Hd in *. lia. }
    split; [rewrite Hy', Hm'; lia|].
    unfold DateFromTime at 1. rewrite Hm', Hwn. cbn [monthStart]. lia.
  - pose proof (monthStart_length L m ltac:(lia)) as Hnext.
    pose proof (month_length_range L (m + 1) HL) as Hlen.
    assert (Hend : monthStart L (m + 1) + month_length L (m + 1) <= 365 + L).
    { clear - HM H11 HL. month_cases m HM; try lia;
        match goal with
        | |- context [monthStart L (?m + 1)] =>
            let v := eval vm_compute in (m + 1) in change (m + 1) with v
        end; cbn [monthStart month_length]; lia. }
    assert (Hy' : YearFromTime next = y).
    { apply YearFromTime_unique. rewrite Hday.
      unfold L, leapDays, DaysInYear in *. lia. }
    assert (Hwn : DayWithinYear next
                  = monthStart L (m + 1) + DateFromTime t - 1).
    { unfold DayWithinYear at 1. rewrite Hy', Hday. lia. }
    assert (Hm' : MonthFromTime next = m + 1).
    { apply MonthFromTime_unique; [lia|]. rewrite Hy', Hwn. fold L. lia. }
    split; [rewrite Hy', Hm'; lia|].
    unfold DateFromTime at 1. rewrite Hy', Hm', Hwn. fold L. lia.
Qed.

End CalendarMonths.

(** [calculateNextAutoSave] on a goal that saves automatically and has a
    next date: one day, seven days or one calendar month later. *)
Lemma next_date_moved now g d :
  Goal.AutoSave.enabled (Goal.autoSave g) = true →
  Goal.AutoSave.nextDate (Goal.autoSave g) = Some d →
  ∃ next, Goal.calculateNextAutoSave now g = Some next
          ∧ moved (Goal.AutoSave.frequency (Goal.autoSave g)) d next.
Proof.
  intros He Hd. unfold Goal.calculateNextAutoSave. rewrite He, Hd.
  change (default now (Some d)) with d. cbn [negb].
  eexists. split; [reflexivity|]. unfold moved.
  destruct (Goal.AutoSave.frequency (Goal.autoSave g)).
  - apply setDate_getDate_plus.
  - apply setDate_getDate_plus.
  - split; [reflexivity | apply setMonth_month_later].
Qed.

(** ** C9: the sweep of the automatic savings *)

Lemma validate_moved t g :
  Goal.validate (advance t (Goal.pre_save_status g)) = Goal.validate g.
Proof.
  unfold advance, Goal.pre_save_status.
  destruct (Double.geb _ _ && bool_decide _); reflexivity.
Qed.

Lemma targetDate_moved t g :
  Goal.targetDate (advance t (Goal.pre_save_status g)) = Goal.targetDate g.
Proof.
  unfold advance, Goal.pre_save_status.
  destruct (Double.geb _ _ && bool_decide _); reflexivity.
Qed.

(** The second pre-save hook has nothing left to do on a goal it has already
    seen, whatever its next date has become. *)
Lemma completed_moved t g :
  Goal.pre_save_status (advance t (Goal.pre_save_status g))
  = advance t (Goal.pre_save_status g).
Proof.
  unfold Goal.pre_save_status at 1 3.
  destruct (Double.geb (Goal.currentAmount g) (Goal.targetAmount g)) eqn:Hge;
    destruct (bool_decide (Goal.status g = Goal.active)) eqn:Hst;
    cbn [andb]; unfold Goal.pre_save_status;
    cbn [advance Goal.set_autoSave Goal.set_status Goal.currentAmount
         Goal.targetAmount Goal.status];
    rewrite ?Hge, ?Hst, ?andb_false_r; cbn [andb]; try reflexivity.
  all: rewrite ?Hge, ?Hst, ?andb_false_r; reflexivity.
Qed.

(** Processing one selected goal never raises, and writes [processed]. *)
Lemma sweep_one_eq t1 t2 id goal db :
  Goals.process_one t1 t2 id goal db = (inr tt, write id (processed t1 t2 goal) db).
Proof.
  unfold Goals.process_one, try_catch, Goals.process_one_try, bind, processed.
  destruct (Goal.AutoSave.amount (Goal.autoSave goal)) as [a|]; [|reflexivity].
  unfold Goals.addContribution. cbv zeta.
  set (g1 := Goal.contribute t1 goal a "Epargne automatique" Goal.auto_save).
  assert (Htd : Goal.targetDate g1 = Goal.targetDate goal) by reflexivity.
  rewrite save_goal_eq, Htd.
  destruct (Goal.validate g1) as [e|] eqn:Hv; [reflexivity|].
  destruct (Goal.targetDate goal <=? t1)%Z eqn:H1; [reflexivity|].
  fold (advance t2 (Goal.pre_save_status g1)).
  rewrite save_goal_eq, validate_moved, Hv, targetDate_moved, Htd.
  destruct (Goal.targetDate goal <=? t2)%Z eqn:H2; [reflexivity|].
  rewrite completed_moved. unfold ret, write, set_goals.
  cbn [accounts transactions budgets goals].
  rewrite insert_insert_eq. reflexivity.
Qed.

(** The loop never raises, touches nothing but the goals it is given, and
    leaves under each id what [processed] says. *)
Lemma sweep_all_spec clock : ∀ (l : list (ObjectId * Goal.t)) k db,
  ∃ db', Goals.process_all clock k l db = (inr tt, db')
    ∧ (∀ id, id ∉ l.*1 → goals db' !! id = goals db !! id)
    ∧ (NoDup l.*1 → ∀ j id g, l !! j = Some (id, g) →
         goals db' !! id
         = match processed (fst (clock (k + j)%nat)) (snd (clock (k + j)%nat)) g with
           | Some g' => Some g'
           | None => goals db !! id
           end).
Proof.
  induction l as [|[id0 g0] l IH]; intros k db.
  - exists db. split; [reflexivity|]. split; [reflexivity|]. intros _ j id g [=].
  - cbn [Goals.process_all]. unfold bind. rewrite sweep_one_eq.
    set (db1 := write id0 _ db).
    destruct (IH (S k) db1) as (db' & Hrun & Hout & Hin). exists db'.
    split; [exact Hrun|].
    assert (Hw : ∀ id, id ≠ id0 → goals db1 !! id = goals db !! id).
    { intros id Hne. subst db1. unfold write.
      destruct (processed _ _ g0); [|reflexivity].
      cbn [goals set_goals]. apply lookup_insert_ne. congruence. }
    split.
    + intros id Hid. cbn [fmap list_fmap fst] in Hid.
      apply not_elem_of_cons in Hid as [Hne Hid].
      rewrite (Hout id Hid). apply Hw. exact Hne.
    + intros Hnd j id g Hj. cbn [fmap list_fmap fst] in Hnd.
      apply NoDup_cons in Hnd as [Hfresh Hnd].
      destruct j as [|j].
      * injection Hj as -> ->. rewrite (Hout id Hfresh). subst db1.
        rewrite Nat.add_0_r. unfold write.
        destruct (processed _ _ g); [|reflexivity].
        cbn [goals set_goals]. apply lookup_insert_eq.
      * cbn [lookup list_lookup] in Hj. rewrite (Hin Hnd j id g Hj).
        replace (S k + j)%nat with (k + S j)%nat by lia.
        destruct (processed _ _ g); [reflexivity|].
        apply Hw. intros ->. apply Hfresh.
        apply list_elem_of_fmap. exists (id0, g). split; [reflexivity|].
        apply list_elem_of_lookup. exists j. exact Hj.
Qed.

Lemma due_selected now db id g :
  (id, g) ∈ selected now db
  ↔ goals db !! id = Some g
    ∧ Goal.AutoSave.enabled (Goal.autoSave g) = true
    ∧ (∃ d, Goal.AutoSave.nextDate (Goal.autoSave g) = Some d ∧ (d <= now)%Z)
    ∧ Goal.status g = Goal.active.
Proof.
  unfold selected. rewrite elem_of_map_to_list, map_lookup_filter_Some.
  cbn [snd]. unfold Goals.due.
  rewrite !andb_true_iff, bool_decide_eq_true.
  destruct (Goal.AutoSave.nextDate (Goal.autoSave g)) as [d|]; cbn [from_option].
  - rewrite Z.leb_le. split.
    + intros (? & (? & ?) & ?). eauto 10.
    + intros (? & ? & (d' & [= <-] & ?) & ?). auto.
  - split.
    + intros (_ & (_ & [=]) & _).
    + intros (_ & _ & (d' & [=] & _) & _).
Qed.

Lemma due_selected_once now db : NoDup (selected now db).*1.
Proof. apply NoDup_fst_map_to_list. Qed.

(** C9 (as amended). [processAutoSaves] never raises and returns the number
    of the goals it selects, which are exactly the stored goals that are
    active, save automatically and whose next date is not after [now], each
    once. A goal it does not select is left as it is, and no goal is
    created. A selected goal whose two saves are accepted is stored with one
    more contribution, of source [auto_save] and of the configured amount,
    with the amount added (as doubles) to its current amount and with its
    next date moved: one day later, seven days later, or, for a monthly
    saving, to [setMonth(getMonth() + 1)] of it, which is later by the days
    of its month, at the same time of day, and on the same day of the next
    month when that day is the 28th or an earlier one. A selected goal whose
    contribution is not saved is left as it is. A selected goal whose
    contribution is saved and whose new date is not is stored with the
    contribution and its old next date. In each case the goals after it are
    processed all the same. *)
Theorem processAutoSaves_sweep now clock db :
  ∃ db',
    Goals.processAutoSaves now clock db = (inr (length (selected now db)), db')
    ∧ NoDup (selected now db).*1
    ∧ (∀ id g, (id, g) ∈ selected now db
         ↔ goals db !! id = Some g
           ∧ Goal.AutoSave.enabled (Goal.autoSave g) = true
           ∧ (∃ d, Goal.AutoSave.nextDate (Goal.autoSave g) = Some d ∧ (d <= now)%Z)
           ∧ Goal.status g = Goal.active)
    ∧ (∀ id g, goals db !! id = Some g → Goals.due now g = false →
         goals db' !! id = Some g)
    ∧ (∀ id, goals db !! id = None → goals db' !! id = None)
    ∧ (∀ k id g, selected now db !! k = Some (id, g) →
         let t1 := fst (clock k) in
         let t2 := snd (clock k) in
         (∀ a, Goal.AutoSave.amount (Goal.autoSave g) = Some a →
            Goal.validate
              (Goal.contribute t1 g a "Epargne automatique" Goal.auto_save) = None →
            (t1 < Goal.targetDate g)%Z →
            ((t2 < Goal.targetDate g)%Z →
             ∃ g' d next,
               goals db' !! id = Some g'
               ∧ Goal.contributions g'
                 = Goal.contributions g ++ [auto_contribution t1 a]
               ∧ Goal.currentAmount g' = Double.add (Goal.currentAmount g) a
               ∧ Goal.AutoSave.nextDate (Goal.autoSave g) = Some d
               ∧ Goal.AutoSave.nextDate (Goal.autoSave g') = Some next
               ∧ moved (Goal.AutoSave.frequency (Goal.autoSave g)) d next)
            ∧ ((Goal.targetDate g <= t2)%Z →
               ∃ g',
                 goals db' !! id = Some g'
                 ∧ Goal.contributions g'
                   = Goal.contributions g ++ [auto_contribution t1 a]
                 ∧ Goal.currentAmount g' = Double.add (Goal.currentAmount g) a
                 ∧ Goal.AutoSave.nextDate (Goal.autoSave g')
                   = Goal.AutoSave.nextDate (Goal.autoSave g)))
         ∧ (Goal.AutoSave.amount (Goal.autoSave g) = None
            ∨ (∃ a, Goal.AutoSave.amount (Goal.autoSave g) = Some a
                    ∧ Goal.validate
                        (Goal.contribute t1 g a "Epargne automatique"
                           Goal.auto_save) ≠ None)
            ∨ (Goal.targetDate g <= t1)%Z →
            goals db' !! id = Some g)).
Proof.
  unfold Goals.processAutoSaves, bind at 1, Goals.find_due, gets.
  fold (selected now db).
  destruct (sweep_all_spec clock (selected now db) 0 db)
    as (db' & Hrun & Hout & Hin).
  unfold bind. rewrite Hrun. exists db'. split; [reflexivity|].
  split; [apply due_selected_once|]. split; [apply due_selected|].
  split; [|split].
  - intros id g Hg Hdue. rewrite Hout; [exact Hg|].
    intros Hid. apply list_elem_of_fmap in Hid as ([id' g'] & -> & Hsel).
    cbn [fst] in Hg. apply due_selected in Hsel as (Hg' & He & (d & Hd & Hle) & Hst).
    assert (g' = g) as -> by congruence.
    unfold Goals.due in Hdue. rewrite He, Hd, Hst in Hdue. cbn in Hdue.
    apply Z.leb_le in Hle. rewrite Hle, bool_decide_eq_true_2 in Hdue by reflexivity.
    discriminate.
  - intros id Hnone. rewrite Hout; [exact Hnone|].
    intros Hid. apply list_elem_of_fmap in Hid as ([id' g'] & -> & Hsel).
    cbn [fst] in Hnone. apply due_selected in Hsel as (Hg' & _). congruence.
  - intros k id g Hk. cbv zeta.
    set (t1 := fst (clock k)). set (t2 := snd (clock k)).
    assert (Hsel : (id, g) ∈ selected now db)
      by (apply list_elem_of_lookup; exists k; exact Hk).
    apply due_selected in Hsel as (Hg & He & (d & Hd & Hle) & Hst).
    specialize (Hin (due_selected_once now db) k id g Hk). cbn [Nat.add] in Hin.
    fold t1 t2 in Hin.
    split.
    + intros a Ha Hv H1. unfold processed in Hin. rewrite Ha in Hin.
      cbv zeta in Hin. rewrite Hv in Hin.
      apply Z.leb_gt in H1. rewrite H1 in Hin.
      set (g1 := Goal.contribute t1 g a "Epargne automatique" Goal.auto_save) in *.
      destruct (completed_fields g1) as (_ & Hauto & Hcontr & Hcur & _).
      split.
      * intros H2. apply Z.leb_gt in H2. rewrite H2 in Hin.
        destruct (next_date_moved t2 (Goal.pre_save_status g1) d)
          as (next & Hnext & Hmoved).
        { rewrite Hauto. exact He. }
        { rewrite Hauto. exact Hd. }
        exists (advance t2 (Goal.pre_save_status g1)), d, next.
        split; [exact Hin|].
        cbn [advance Goal.set_autoSave Goal.contributions Goal.currentAmount
             Goal.autoSave Goal.AutoSave.set_nextDate Goal.AutoSave.nextDate].
        rewrite Hcontr, Hcur. split; [reflexivity|]. split; [reflexivity|].
        split; [exact Hd|]. split; [exact Hnext|].
        rewrite Hauto in Hmoved. exact Hmoved.
      * intros H2. apply Z.leb_le in H2. rewrite H2 in Hin.
        exists (Goal.pre_save_status g1). split; [exact Hin|].
        rewrite Hcontr, Hcur, Hauto. repeat split.
    + intros Hfail. rewrite Hin, <- Hg. unfold processed.
      destruct (Goal.AutoSave.amount (Goal.autoSave g)) as [a|]; [|reflexivity].
      cbv zeta. destruct (Goal.validate _) eqn:Hv; [reflexivity|].
      destruct Hfail as [[=] | [(a' & [= <-] & Hne) | Hlate]].
      * congruence.
      * apply Z.leb_le in Hlate. rewrite Hlate. reflexivity.
Qed.

(** The theorem at work: at the end of November both goals are due; goal 4,
    whose target date is far away, receives its 40 000 and its next date
    moves from 1 November to 1 December 2023. *)
Lemma processAutoSaves_sweep_witness :
  ∃ db' g',
    Goals.processAutoSaves Scenario.end_of_november Scenario.clock Scenario.db_goals
    = (inr 2%nat, db')
    ∧ goals db' !! 4%nat = Some g'
    ∧ Goal.currentAmount g' = Double.of_Z 490000
    ∧ Goal.AutoSave.nextDate (Goal.autoSave g') = Some 1701388800000%Z.
Proof.
  destruct (processAutoSaves_sweep Scenario.end_of_november Scenario.clock
              Scenario.db_goals) as (db' & Hrun & _ & _ & _ & _ & Hsel).
  destruct (Hsel 0%nat 4%nat Scenario.goal) as [Hok _]; [reflexivity|].
  destruct (Hok (Double.of_Z 40000)) as [Hboth _].
  - reflexivity.
  - vm_compute. reflexivity.
  - reflexivity.
  - destruct Hboth as (g' & d & next & Hg' & _ & Hcur & Hd & Hnext & Hmoved);
      [reflexivity|].
    injection Hd as <-. destruct Hmoved as [Hn _].
    exists db', g'. split; [exact Hrun|]. split; [exact Hg'|].
    split; [rewrite Hcur; vm_compute; reflexivity|].
    rewrite Hnext, Hn. vm_compute. reflexivity.
Defined.

(** C9 (as stated) fails: goal 3 is due on 1 December; its contribution is
    saved in the last millisecond of November and the save of its new date,
    one millisecond later, is rejected. The automatic saving of goal 3 has
    failed, the sweep counts it all the same, and the goal is stored with the
    contribution and the old date: its persisted state has changed. *)
Lemma failed_goal_keeps_contribution :
  selected Scenario.end_of_november Scenario.db_goals
  = [(4%nat, Scenario.goal); (3%nat, Scenario.goal_due_soon)]
  ∧ (∃ db', Goals.process_one_try Scenario.end_of_november Scenario.first_december
              3%nat Scenario.goal_due_soon Scenario.db_goals
            = (inl (HookError "La date cible doit etre dans le futur"), db'))
  ∧ fst (Goals.processAutoSaves Scenario.end_of_november Scenario.clock
           Scenario.db_goals) = inr 2%nat
  ∧ Goal.currentAmount
      <$> goals (exec (Goals.processAutoSaves Scenario.end_of_november Scenario.clock)
                   Scenario.db_goals) !! 3%nat
    = Some (Double.of_Z 490000)
  ∧ Goal.AutoSave.nextDate ∘ Goal.autoSave
      <$> goals (exec (Goals.processAutoSaves Scenario.end_of_november Scenario.clock)
                   Scenario.db_goals) !! 3%nat
    = Some (Some 1698796800000%Z)
  ∧ Goal.currentAmount <$> goals Scenario.db_goals !! 3%nat
    = Some (Double.of_Z 450000)
  ∧ ¬ failure_keeps_goal Scenario.end_of_november Scenario.first_december 3%nat
        Scenario.goal_due_soon Scenario.db_goals.
Proof.
  split; [vm_compute; reflexivity|].
  split; [eexists; vm_compute; reflexivity|].
  split; [vm_compute; reflexivity|].
  split; [vm_compute; reflexivity|].
  split; [vm_compute; reflexivity|].
  split; [vm_compute; reflexivity|].
  intros H.
  destruct (Goals.process_one_try Scenario.end_of_november Scenario.first_december
              3%nat Scenario.goal_due_soon Scenario.db_goals) as [[e|[]] db'] eqn:Hrun.
  - specialize (H e db' Hrun).
    apply (f_equal (fmap Goal.currentAmount)) in H.
    vm_compute in Hrun. injection Hrun as _ <-.
    vm_compute in H. discriminate.
  - vm_compute in Hrun. discriminate.
Qed.

(** ** The balance of an account never goes below zero *)



(** ** What an accepted contribution stores *)

(** An accepted [addContribution] stores the goal with the contribution
    appended and the amount added (as doubles) to the current amount;
    target, target date and automatic saving are kept. The status changes in
    one case only: an active goal whose new current amount has reached the
    target becomes completed. A goal that is paused, cancelled or completed
    keeps its status, whatever it holds. *)
Theorem addContribution_accepted now id this amount note source db :
  Goal.validate (Goal.contribute now this amount note source) = None →
  (now < Goal.targetDate this)%Z →
  let current := Double.add (Goal.currentAmount this) amount in
  ∃ stored,
    Goals.addContribution now id this amount note source db
    = (inr stored, set_goals db (<[id := stored]> (goals db)))
    ∧ Goal.contributions stored
      = Goal.contributions this
        ++ [ {| Goal.Contribution.amount := amount; Goal.Contribution.note := note;
                Goal.Contribution.source := source;
                Goal.Contribution.date := now |} ]
    ∧ Goal.currentAmount stored = current
    ∧ Goal.targetAmount stored = Goal.targetAmount this
    ∧ Goal.targetDate stored = Goal.targetDate this
    ∧ Goal.autoSave stored = Goal.autoSave this
    ∧ Goal.userId stored = Goal.userId this
    ∧ (Goal.status this = Goal.active →
       Double.geb current (Goal.targetAmount this) = true →
       Goal.status stored = Goal.completed)
    ∧ (Goal.status this = Goal.active →
       Double.geb current (Goal.targetAmount this) = false →
       Goal.status stored = Goal.active)
    ∧ (Goal.status this ≠ Goal.active → Goal.status stored = Goal.status this).
Proof.
  intros Hv Hfuture current. unfold Goals.addContribution.
  rewrite save_goal_eq, Hv.
  apply Z.leb_gt in Hfuture.
  change (Goal.targetDate (Goal.contribute now this amount note source))
    with (Goal.targetDate this).
  rewrite Hfuture.
  set (g1 := Goal.contribute now this amount note source).
  exists (Goal.pre_save_status g1). split; [reflexivity|].
  unfold Goal.pre_save_status.
  change (Goal.currentAmount g1) with current.
  change (Goal.targetAmount g1) with (Goal.targetAmount this).
  change (Goal.status g1) with (Goal.status this).
  destruct (Double.geb current (Goal.targetAmount this)) eqn:Hge;
    destruct (bool_decide (Goal.status this = Goal.active)) eqn:Hst;
    cbn [andb Goal.set_status Goal.contributions Goal.currentAmount
         Goal.targetAmount Goal.targetDate Goal.autoSave Goal.status
         Goal.userId];
    do 6 (split; [reflexivity|]);
    try (apply bool_decide_eq_true in Hst);
    try (apply bool_decide_eq_false in Hst);
    (split; [|split]); intros;
    first [reflexivity | assumption | congruence | contradiction].
Qed.

(** The theorem at work: 50 000 more complete the goal that holds 450 000 of
    500 000. *)
Lemma addContribution_accepted_witness :
  ∃ stored,
    goals (exec (Goals.addContribution Scenario.mid_november 4%nat Scenario.goal
                   (Double.of_Z 50000) "" Goal.manual) Scenario.db_goals) !! 4%nat
    = Some stored
    ∧ Goal.currentAmount stored = Double.of_Z 500000
    ∧ Goal.status stored = Goal.completed.
Proof.
  destruct (addContribution_accepted Scenario.mid_november 4%nat Scenario.goal
              (Double.of_Z 50000) "" Goal.manual Scenario.db_goals)
    as (stored & Hrun & _ & Hcur & _ & _ & _ & _ & Hdone & _).
  - vm_compute. reflexivity.
  - reflexivity.
  - exists stored. unfold exec. rewrite Hrun. cbn [snd goals set_goals].
    rewrite lookup_insert_eq. split; [reflexivity|].
    split; [rewrite Hcur; vm_compute; reflexivity|].
    apply Hdone; [reflexivity | vm_compute; reflexivity].
Defined.

(** ** A goal completed by an automatic saving *)

(** A goal that the automatic saving of a sweep completes leaves the sweeps
    for good: when the contribution is saved and the new current amount (the
    sum as doubles) has reached the target of an active goal, the goal is
    stored as completed, whether or not the save of its new date is accepted,
    and no sweep selects it again at any instant. *)
Theorem auto_save_completes_goal t1 t2 id goal a db :
  Goal.AutoSave.amount (Goal.autoSave goal) = Some a →
  Goal.validate (Goal.contribute t1 goal a "Epargne automatique" Goal.auto_save)
  = None →
  (t1 < Goal.targetDate goal)%Z →
  Goal.status goal = Goal.active →
  Double.geb (Double.add (Goal.currentAmount goal) a) (Goal.targetAmount goal)
  = true →
  ∃ stored,
    goals (exec (Goals.process_one t1 t2 id goal) db) !! id = Some stored
    ∧ Goal.status stored = Goal.completed
    ∧ Goal.currentAmount stored = Double.add (Goal.currentAmount goal) a
    ∧ ∀ now, Goals.due now stored = false.
Proof.
  intros Ha Hv Hfuture Hactive Hreached.
  unfold exec. rewrite sweep_one_eq. cbn [snd].
  unfold processed. rewrite Ha. cbv zeta. rewrite Hv.
  apply Z.leb_gt in Hfuture. rewrite Hfuture.
  set (g1 := Goal.contribute t1 goal a "Epargne automatique" Goal.auto_save).
  assert (Hdone : Goal.pre_save_status g1 = Goal.set_status g1 Goal.completed).
  { unfold Goal.pre_save_status.
    cbn [g1 Goal.contribute Goal.currentAmount Goal.targetAmount Goal.status].
    rewrite Hreached, Hactive. reflexivity. }
  rewrite Hdone.
  destruct (Goal.targetDate goal <=? t2)%Z; cbn [write goals set_goals];
    rewrite lookup_insert_eq; eexists; (split; [reflexivity|]);
    (split; [reflexivity|]); (split; [reflexivity|]);
    intros now; unfold Goals.due;
    cbn [advance Goal.set_autoSave Goal.set_status Goal.status];
    rewrite bool_decide_eq_false_2 by discriminate;
    apply andb_false_r.
Qed.

(** The theorem at work: an automatic saving of 50 000 completes the goal
    that holds 450 000 of 500 000. *)
Lemma auto_save_completes_goal_witness :
  ∃ stored,
    goals (exec (Goals.process_one Scenario.mid_november Scenario.mid_november
                   6%nat Scenario.goal_generous) Scenario.db_goals) !! 6%nat
    = Some stored
    ∧ Goal.status stored = Goal.completed.
Proof.
  destruct (auto_save_completes_goal Scenario.mid_november Scenario.mid_november
              6%nat Scenario.goal_generous (Double.of_Z 50000) Scenario.db_goals)
    as (stored & Hstored & Hdone & _).
  - reflexivity.
  - vm_compute. reflexivity.
  - reflexivity.
  - reflexivity.
  - vm_compute. reflexivity.
  - exists stored. split; [exact Hstored | exact Hdone].
Defined.
